(** * PII-Adhar-mask: normalisation, Aadhaar/Verhoeff validation, masking,
      row decision and deduplication

    A shallow embedding of [base.py], [ind_aadhaar.py], [phone.py] and of the
    batch pipeline of [app.py].

    Conventions.
    - A Python [str] is a [string]; each [ascii] is read as the code point of
      the same number, so the development covers text over U+0000..U+00FF.
      On that range the character classes below are the ones CPython uses.
    - The digit patterns of [base.py] answer differently beyond that range,
      where [\D] keeps decimal digits that [ord(c) - 48] does not read; they
      are given a second time on sequences of arbitrary code points
      ([unicode]), and the two are shown to agree on U+0000..U+00FF.
    - A Python value reaching [normalize_text] is a [pyvalue].
    - A raised exception is [None] in an [option] result.
    - The [phonenumbers] package is an interface ([PhoneNumbers]). *)

From Stdlib Require Import ZArith NArith Arith Bool List String Ascii Lia.
From Stdlib Require Import DecimalString.
Import ListNotations.
Local Open Scope list_scope.
Local Open Scope string_scope.

(* ================================================================== *)
(** ** Python string primitives *)
(* ================================================================== *)

Module Py.

(** [str.isspace] on one character; the set used by [str.split()] and
    [str.strip()]: TAB..CR, FS..US, SPACE, NEL and NBSP. *)
Definition isspace (c : ascii) : bool :=
  let n := N_of_ascii c in
  (((9 <=? n) && (n <=? 13)) || ((28 <=? n) && (n <=? 32))
   || (n =? 133) || (n =? 160))%N.

(** The class [\d] of [re] on [str] patterns (decimal digits). *)
Definition is_decimal (c : ascii) : bool :=
  let n := N_of_ascii c in ((48 <=? n) && (n <=? 57))%N.

(** [str.isdigit] on one character: decimals and the superscripts
    U+00B2, U+00B3, U+00B9. *)
Definition isdigit_char (c : ascii) : bool :=
  let n := N_of_ascii c in
  (is_decimal c || (n =? 178) || (n =? 179) || (n =? 185))%N.

(** [str.lower] on one character. *)
Definition lower_char (c : ascii) : ascii :=
  let n := N_of_ascii c in
  if (((65 <=? n) && (n <=? 90))
      || ((192 <=? n) && (n <=? 222) && negb (n =? 215)))%N
  then ascii_of_N (n + 32) else c.

Fixpoint lower (s : string) : string :=
  match s with
  | EmptyString => EmptyString
  | String c s' => String (lower_char c) (lower s')
  end.

Fixpoint forallb_str (f : ascii -> bool) (s : string) : bool :=
  match s with
  | EmptyString => true
  | String c s' => f c && forallb_str f s'
  end.

Fixpoint filter_str (f : ascii -> bool) (s : string) : string :=
  match s with
  | EmptyString => EmptyString
  | String c s' => if f c then String c (filter_str f s') else filter_str f s'
  end.

(** [s.isdigit()]: false on the empty string. *)
Definition isdigit (s : string) : bool :=
  match s with
  | EmptyString => false
  | _ => forallb_str isdigit_char s
  end.

(** [not s] for a string. *)
Definition is_empty (s : string) : bool :=
  match s with EmptyString => true | _ => false end.

Fixpoint lstrip (s : string) : string :=
  match s with
  | EmptyString => EmptyString
  | String c s' => if isspace c then lstrip s' else s
  end.

Fixpoint rstrip (s : string) : string :=
  match s with
  | EmptyString => EmptyString
  | String c s' =>
      match rstrip s' with
      | EmptyString => if isspace c then EmptyString else String c EmptyString
      | r => String c r
      end
  end.

Definition strip (s : string) : string := rstrip (lstrip s).

(** [s.split()]: the maximal runs of non-whitespace characters. *)
Fixpoint split (s : string) : list string :=
  match s with
  | EmptyString => []
  | String c s' =>
      if isspace c then split s'
      else match s' with
           | EmptyString => [String c EmptyString]
           | String c' _ =>
               if isspace c' then String c EmptyString :: split s'
               else match split s' with
                    | w :: ws => String c w :: ws
                    | [] => [String c EmptyString]
                    end
           end
  end.

(** [sep.join(words)]. *)
Fixpoint join (sep : string) (ws : list string) : string :=
  match ws with
  | [] => EmptyString
  | [w] => w
  | w :: ws' => w ++ sep ++ join sep ws'
  end.

(** [s.startswith(String c "")]. *)
Definition startswith_char (c : ascii) (s : string) : bool :=
  match s with
  | String c' _ => Ascii.eqb c c'
  | EmptyString => false
  end.

(** [s[-n:]] for [n > 0]. *)
Definition last_n (n : nat) (s : string) : string :=
  substring (String.length s - n) n s.

(** [s[a:b]] for [0 <= a <= b]. *)
Definition slice (a b : nat) (s : string) : string := substring a (b - a) s.

(** [' ' * n]. *)
Fixpoint spaces (n : nat) : string :=
  match n with O => EmptyString | S k => String " " (spaces k) end.

(** The format spec [{s:>w}]: right-align in width [w], pad with blanks. *)
Definition fmt_right (w : nat) (s : string) : string :=
  spaces (w - String.length s) ++ s.

(** [re.sub(r"\D+", "", s)]. *)
Definition sub_nondigits (s : string) : string := filter_str is_decimal s.

(** [str(n)] for a natural number. *)
Definition str_of_nat (n : nat) : string :=
  NilZero.string_of_uint (Nat.to_uint n).

(** [str(z)] for an integer. *)
Definition str_of_Z (z : Z) : string :=
  NilZero.string_of_int (Z.to_int z).

(** [int(ch)] for a one-character string: a [ValueError] unless the
    character is a decimal digit. *)
Definition int_of_char (c : ascii) : option nat :=
  if is_decimal c then Some (N.to_nat (N_of_ascii c) - 48) else None.

(** [list(map(int, reversed(s)))]. *)
Fixpoint ints (l : list ascii) : option (list nat) :=
  match l with
  | [] => Some []
  | c :: l' =>
      match int_of_char c, ints l' with
      | Some n, Some ns => Some (n :: ns)
      | _, _ => None
      end
  end.

Definition reversed_ints (s : string) : option (list nat) :=
  ints (rev (list_ascii_of_string s)).

(** [enumerate(l)]. *)
Definition enumerate {A} (l : list A) : list (nat * A) :=
  combine (seq 0 (List.length l)) l.


(** [sub in s]. *)
Fixpoint contains (sub s : string) : bool :=
  String.prefix sub s
  || match s with
     | EmptyString => false
     | String _ s' => contains sub s'
     end.

End Py.

(* ================================================================== *)
(** ** validators/base.py *)
(* ================================================================== *)

Module base.

(** The values a cell of the input table can hold. *)
Inductive pyvalue : Type :=
| PyNone
| PyNaN
| PyInt (z : Z)
| PyStr (s : string).

(** [str(value)]. *)
Definition py_str (v : pyvalue) : string :=
  match v with
  | PyNone => "None"
  | PyNaN => "nan"
  | PyInt z => Py.str_of_Z z
  | PyStr s => s
  end.

Definition normalize_text (value : pyvalue) : string :=
  match value with
  | PyNone => ""
  | _ =>
      let s := py_str value in
      if (Py.strip s =? "") || (Py.lower s =? "nan") then ""
      else Py.strip (Py.join " " (Py.split s))
  end.

Definition normalize_digits (value : pyvalue) : string :=
  let s := normalize_text value in
  if Py.is_empty s then "" else Py.sub_nondigits s.

(** The loop of [has_adjacent_repetition] from index [i] on: [prev] is
    [s[i-1]], [rest] is [s[i:]]. *)
Fixpoint adjacent_loop (min_run : Z) (prev : ascii) (run : Z) (rest : string)
  : bool :=
  match rest with
  | EmptyString => false
  | String c rest' =>
      if Ascii.eqb c prev then
        let run' := (run + 1)%Z in
        if (run' >=? min_run)%Z then true
        else adjacent_loop min_run c run' rest'
      else adjacent_loop min_run c 1%Z rest'
  end.

Definition has_adjacent_repetition (s : string) (min_run : Z) : bool :=
  if Py.is_empty s || (min_run <=? 1)%Z then false
  else match s with
       | EmptyString => false
       | String c0 rest => adjacent_loop min_run c0 1%Z rest
       end.

(** [ord(c) - 48]. *)
Definition ord48 (c : ascii) : Z := (Z.of_N (N_of_ascii c) - 48)%Z.

Definition in_0_9 (z : Z) : bool := ((0 <=? z) && (z <=? 9))%Z.

(** The loop of [_has_sequential_run_digits] from index [i] on: [prev] is
    [seq[i-1]], [rest] is [seq[i:]]. *)
Fixpoint sequential_loop (min_run : Z) (prev : ascii) (run_up run_down : Z)
  (rest : string) : bool :=
  match rest with
  | EmptyString => false
  | String c rest' =>
      let cur := ord48 c in
      let prv := ord48 prev in
      if in_0_9 cur && in_0_9 prv then
        let '(ru, rd) :=
          if (cur =? prv + 1)%Z then ((run_up + 1)%Z, 1%Z)
          else if (cur =? prv - 1)%Z then (1%Z, (run_down + 1)%Z)
          else (1%Z, 1%Z) in
        if (ru >=? min_run)%Z || (rd >=? min_run)%Z then true
        else sequential_loop min_run c ru rd rest'
      else sequential_loop min_run c 1%Z 1%Z rest'
  end.

Definition _has_sequential_run_digits (seq : string) (min_run : Z) : bool :=
  if (Z.of_nat (String.length seq) <? min_run)%Z then false
  else match seq with
       | EmptyString => false
       | String c0 rest => sequential_loop min_run c0 1%Z 1%Z rest
       end.

(** On text over U+0000..U+00FF, where [\D] removes everything but [0] to
    [9]; [unicode.has_sequential_digits] is the function on any text. *)
Definition has_sequential_digits (s : string) (min_run : Z) : bool :=
  let digits := Py.sub_nondigits s in
  _has_sequential_run_digits digits min_run.

(** [len(d) > 0 and len(set(d)) == 1]. *)
Definition all_same_digit (s : string) : bool :=
  match Py.sub_nondigits s with
  | EmptyString => false
  | String c d' => Py.forallb_str (Ascii.eqb c) d'
  end.

(** On text over U+0000..U+00FF; [unicode.improbable_pattern] is the
    function on any text. *)
Definition improbable_pattern (s : string) : bool :=
  let d := Py.sub_nondigits s in
  if Py.is_empty d then false
  else if all_same_digit d then true
  else if has_sequential_digits d
            (Z.max 3 (Z.min 6 (Z.of_nat (String.length d)))) then true
  else false.

(** [reason in order]. *)
Definition mem_str (x : string) (l : list string) : bool :=
  existsb (String.eqb x) l.

Definition category_aadhaar (reason : string) : string :=
  if reason =? "" then "VALID"
  else
    let order := ["MISSING"; "NON_NUMERIC"; "LENGTH_NEQ_12"; "CHECKSUM_FAIL"] in
    if mem_str reason order then reason else "INVALID".

Definition category_mobile (reason : string) : string :=
  if reason =? "" then "VALID"
  else
    let order := ["MISSING"; "PARSE_FAIL"; "NOT_VALID"; "NOT_MOBILE_TYPE"] in
    if mem_str reason order then reason else "INVALID".

End base.

(* ================================================================== *)
(** ** validators/base.py: the digit patterns on text of any characters *)
(* ================================================================== *)

(** A Python [str] holds Unicode code points.  The pattern [\D] of [re]
    removes what is not a decimal digit of some script, and [ord(c) - 48]
    reads a digit only from [0] to [9]: the two differ on text beyond
    U+00FF, so the functions that use both are given here on sequences of
    code points. *)
Module unicode.

(** A text, as its code points. *)
Definition text : Type := list N.

(** The code points of a text over U+0000..U+00FF. *)
Definition of_string (s : string) : text :=
  map N_of_ascii (list_ascii_of_string s).

(** The decimal digits (general category Nd) as blocks, first and last
    code point of each; the table of Unicode 14.0, which CPython 3.11
    carries. *)
Definition decimal_blocks : list (N * N) :=
  [ (48, 57); (1632, 1641); (1776, 1785); (1984, 1993); (2406, 2415);
    (2534, 2543); (2662, 2671); (2790, 2799); (2918, 2927); (3046, 3055);
    (3174, 3183); (3302, 3311); (3430, 3439); (3558, 3567); (3664, 3673);
    (3792, 3801); (3872, 3881); (4160, 4169); (4240, 4249); (6112, 6121);
    (6160, 6169); (6470, 6479); (6608, 6617); (6784, 6793); (6800, 6809);
    (6992, 7001); (7088, 7097); (7232, 7241); (7248, 7257); (42528, 42537);
    (43216, 43225); (43264, 43273); (43472, 43481); (43504, 43513);
    (43600, 43609); (44016, 44025); (65296, 65305); (66720, 66729);
    (68912, 68921); (69734, 69743); (69872, 69881); (69942, 69951);
    (70096, 70105); (70384, 70393); (70736, 70745); (70864, 70873);
    (71248, 71257); (71360, 71369); (71472, 71481); (71904, 71913);
    (72016, 72025); (72784, 72793); (73040, 73049); (73120, 73129);
    (92768, 92777); (92864, 92873); (93008, 93017); (120782, 120831);
    (123200, 123209); (123632, 123641); (125264, 125273);
    (130032, 130041) ]%N.

(** The class [\d] of [re] on [str] patterns. *)
Definition re_digit (c : N) : bool :=
  existsb (fun b => (fst b <=? c)%N && (c <=? snd b)%N) decimal_blocks.

(** [re.sub(r"\D+", "", s)]. *)
Definition sub_nondigits (s : text) : text := filter re_digit s.

(** [ord(c) - 48]. *)
Definition ord48 (c : N) : Z := (Z.of_N c - 48)%Z.

(** The loop of [_has_sequential_run_digits] from index [i] on: [prev] is
    [seq[i-1]], [rest] is [seq[i:]]. *)
Fixpoint sequential_loop (min_run : Z) (prev : N) (run_up run_down : Z)
  (rest : text) : bool :=
  match rest with
  | [] => false
  | c :: rest' =>
      let cur := ord48 c in
      let prv := ord48 prev in
      if base.in_0_9 cur && base.in_0_9 prv then
        let '(ru, rd) :=
          if (cur =? prv + 1)%Z then ((run_up + 1)%Z, 1%Z)
          else if (cur =? prv - 1)%Z then (1%Z, (run_down + 1)%Z)
          else (1%Z, 1%Z) in
        if (ru >=? min_run)%Z || (rd >=? min_run)%Z then true
        else sequential_loop min_run c ru rd rest'
      else sequential_loop min_run c 1%Z 1%Z rest'
  end.

Definition _has_sequential_run_digits (seq : text) (min_run : Z) : bool :=
  if (Z.of_nat (List.length seq) <? min_run)%Z then false
  else match seq with
       | [] => false
       | c0 :: rest => sequential_loop min_run c0 1%Z 1%Z rest
       end.

Definition has_sequential_digits (s : text) (min_run : Z) : bool :=
  let digits := sub_nondigits s in
  _has_sequential_run_digits digits min_run.

(** [len(d) > 0 and len(set(d)) == 1]. *)
Definition all_same_digit (s : text) : bool :=
  match sub_nondigits s with
  | [] => false
  | c :: d' => forallb (N.eqb c) d'
  end.

Definition improbable_pattern (s : text) : bool :=
  let d := sub_nondigits s in
  match d with
  | [] => false
  | _ =>
      if all_same_digit d then true
      else if has_sequential_digits d
                (Z.max 3 (Z.min 6 (Z.of_nat (List.length d)))) then true
      else false
  end.

End unicode.

(* ================================================================== *)
(** ** validators/ind_aadhaar.py *)
(* ================================================================== *)

Module ind_aadhaar.
Import base.

Definition _d : list (list nat) :=
  [ [0;1;2;3;4;5;6;7;8;9];
    [1;2;3;4;0;6;7;8;9;5];
    [2;3;4;0;1;7;8;9;5;6];
    [3;4;0;1;2;8;9;5;6;7];
    [4;0;1;2;3;9;5;6;7;8];
    [5;9;8;7;6;0;4;3;2;1];
    [6;5;9;8;7;1;0;4;3;2];
    [7;6;5;9;8;2;1;0;4;3];
    [8;7;6;5;9;3;2;1;0;4];
    [9;8;7;6;5;4;3;2;1;0] ].

Definition _p : list (list nat) :=
  [ [0;1;2;3;4;5;6;7;8;9];
    [1;5;7;6;2;8;3;0;9;4];
    [5;8;0;3;7;9;6;1;4;2];
    [8;9;1;6;0;4;3;5;2;7];
    [9;4;5;3;1;2;6;8;7;0];
    [4;2;8;6;5;7;3;9;0;1];
    [2;7;9;3;8;0;6;4;1;5];
    [7;0;4;6;9;1;3;2;5;8] ].

Definition _inv : list nat := [0;4;3;2;1;5;6;7;8;9].

(** [t[i][j]]; every index the two loops form is in range
    (see [d_at_lt] and [p_at_lt]). *)
Definition at2 (t : list (list nat)) (i j : nat) : nat :=
  nth j (nth i t []) 0.

Definition verhoeff_check_digit (number_without_check : string) : option string :=
  match Py.reversed_ints number_without_check with
  | None => None
  | Some rev =>
      let c := fold_left
                 (fun c '(i, item) => at2 _d c (at2 _p ((i + 1) mod 8) item))
                 (Py.enumerate rev) 0 in
      Some (Py.str_of_nat (nth c _inv 0))
  end.

Definition verhoeff_validate (number_with_check : string) : option bool :=
  match Py.reversed_ints number_with_check with
  | None => None
  | Some rev =>
      let c := fold_left
                 (fun c '(i, item) => at2 _d c (at2 _p (i mod 8) item))
                 (Py.enumerate rev) 0 in
      Some (Nat.eqb c 0)
  end.

Definition mask_aadhaar (a12 : pyvalue) : string :=
  let digits := normalize_digits a12 in
  if Py.is_empty digits then ""
  else
    let last4 := if (4 <=? String.length digits)%nat then Py.last_n 4 digits
                 else digits in
    "XXXX-XXXX-" ++ Py.fmt_right 4 last4.

(** The dictionary [validate_single] returns. *)
Record AadhaarOutcome : Type := mkAadhaarOutcome {
  aadhaar : string;
  valid : bool;
  reason : string
}.

(** [None]: an exception escaped (from [verhoeff_validate]). *)
Definition validate_single (aadhaar_like : pyvalue) : option AadhaarOutcome :=
  let digits := normalize_digits aadhaar_like in
  let out r := Some (mkAadhaarOutcome digits false r) in
  if digits =? "" then out "MISSING"
  else if negb (Py.isdigit digits) then out "NON_NUMERIC"
  else if negb (String.length digits =? 12)%nat then out "LENGTH_NEQ_12"
  else match verhoeff_validate digits with
       | None => None
       | Some false => out "CHECKSUM_FAIL"
       | Some true => Some (mkAadhaarOutcome digits true "")
       end.

(** One row of the frame [validate_series] builds. *)
Record AadhaarDfRow : Type := mkAadhaarDfRow {
  df_outcome : AadhaarOutcome;
  q_adjacent_repetition : bool;
  q_sequential_digits : bool;
  q_improbable : bool;
  category : string
}.

Fixpoint mapM {A B} (f : A -> option B) (l : list A) : option (list B) :=
  match l with
  | [] => Some []
  | x :: l' =>
      match f x, mapM f l' with
      | Some y, Some ys => Some (y :: ys)
      | _, _ => None
      end
  end.

(** [pd.DataFrame(rows)] of no row has no column, so on the empty series
    [add_quality_flags_digits] raises [KeyError] at the lookup of the column
    [aadhaar]. *)
Definition validate_series (series : list pyvalue)
  : option (list AadhaarDfRow) :=
  let s := map normalize_digits series in
  match mapM (fun x => validate_single (PyStr x)) s with
  | None => None
  | Some [] => None
  | Some rows =>
      Some (map (fun o =>
                   mkAadhaarDfRow o
                     (has_adjacent_repetition (aadhaar o) 3)
                     (has_sequential_digits (aadhaar o) 3)
                     (improbable_pattern (aadhaar o))
                     (category_aadhaar (reason o)))
                rows)
  end.

End ind_aadhaar.

(* ================================================================== *)
(** ** validators/phone.py *)
(* ================================================================== *)

Module phone.
Import base.

(** [phonenumbers.PhoneNumberType]. *)
Inductive PhoneNumberType : Type :=
| FIXED_LINE | MOBILE | FIXED_LINE_OR_MOBILE | TOLL_FREE | PREMIUM_RATE
| SHARED_COST | VOIP | PERSONAL_NUMBER | PAGER | UAN | VOICEMAIL | UNKNOWN.

(** The part of the [phonenumbers] package the validator calls.
    [parse] answers [None] for a [NumberParseException];
    [region_code_for_number] answers [None] when no region is known;
    [type_label] is the text stored for a line type. *)
Class PhoneNumbers : Type := {
  PhoneNumber : Type;
  parse : string -> string -> option PhoneNumber;
  is_possible_number : PhoneNumber -> bool;
  is_valid_number : PhoneNumber -> bool;
  number_type : PhoneNumber -> PhoneNumberType;
  type_label : PhoneNumberType -> string;
  format_number_E164 : PhoneNumber -> string;
  region_code_for_number : PhoneNumber -> option string
}.

(** [a or b] on strings. *)
Definition str_or (a b : string) : string :=
  if Py.is_empty a then b else a.

(** Drops one final line feed: [$] also matches just before it. *)
Fixpoint chomp_lf (s : string) : string :=
  match s with
  | EmptyString => EmptyString
  | String c EmptyString => if Ascii.eqb c "010" then EmptyString else s
  | String c s' => String c (chomp_lf s')
  end.

(** [E164_RE.match(e164)] with
    [E164_RE = ^\+(\d{1,3})(\d{3})(\d{3})(\d+)$]; the answer is [m.groups()].
    The text must be a plus sign and [n >= 8] decimal digits, optionally
    followed by one line feed.  The first group is greedy and gives back
    only what the other three need, so it takes [min 3 (n - 7)] digits. *)
Definition E164_RE_match (e164 : string)
  : option (string * string * string * string) :=
  match e164 with
  | String "+" body =>
      let ds := chomp_lf body in
      let n := String.length ds in
      if Py.forallb_str Py.is_decimal ds && (8 <=? n)%nat then
        let k := Nat.min 3 (n - 7) in
        Some (substring 0 k ds, substring k 3 ds, substring (k + 3) 3 ds,
              substring (k + 6) (n - (k + 6)) ds)
      else None
  | _ => None
  end.

Definition mask_e164 (e164 : string) : string :=
  if Py.is_empty e164 || negb (Py.startswith_char "+" e164) then ""
  else
    match E164_RE_match e164 with
    | Some (cc, a, b, rest) =>
        let last4 := if (4 <=? String.length rest)%nat then Py.last_n 4 rest
                     else rest in
        "+" ++ cc ++ "-XXX-XXX-" ++ last4
    | None =>
        let cc :=
          if Py.startswith_char "+" e164 then
            if Py.isdigit (Py.slice 1 4 e164) then Py.slice 1 4 e164 else ""
          else "" in
        let digits := Py.sub_nondigits e164 in
        let last4 := if (4 <=? String.length digits)%nat
                     then Py.last_n 4 digits else digits in
        if Py.is_empty cc then "***-***-" ++ last4
        else "+" ++ cc ++ "-****-****-" ++ last4
    end.

(** The dictionary [validate_single_phone] returns. *)
Record PhoneOutcome : Type := mkPhoneOutcome {
  raw : string;
  e164 : string;
  valid : bool;
  reason : string;
  region : string;
  type : string
}.

Section WithPhoneNumbers.
Context {lib : PhoneNumbers}.

Definition validate_single_phone (raw_value : pyvalue)
  (default_region : string) : PhoneOutcome :=
  let s := normalize_text raw_value in
  if s =? "" then mkPhoneOutcome s "" false "MISSING" "" ""
  else
    match parse s (str_or default_region "IN") with
    | None => mkPhoneOutcome s "" false "PARSE_FAIL" "" ""
    | Some num =>
        if negb (is_possible_number num) then
          mkPhoneOutcome s "" false "NOT_VALID" "" ""
        else if negb (is_valid_number num) then
          mkPhoneOutcome s "" false "NOT_VALID" "" ""
        else
          let ntype := number_type num in
          let ty := type_label ntype in
          match ntype with
          | MOBILE | FIXED_LINE_OR_MOBILE =>
              let reg :=
                match region_code_for_number num with
                | Some r => str_or r (str_or default_region "")
                | None => str_or default_region ""
                end in
              mkPhoneOutcome s (format_number_E164 num) true "" reg ty
          | _ => mkPhoneOutcome s "" false "NOT_MOBILE_TYPE" "" ty
          end
    end.

(** The frame [validate_series] builds, each row with its [masked] cell.
    [region_series] is the series [reg], that is the region column with its
    missing cells made empty texts and its texts upper-cased; [app.py]
    passes a column it has brought to that form already.
    [pd.DataFrame(rows)] of no row has no column, so on empty series the
    lookup of the column [e164] raises [KeyError]. *)
Definition validate_series (phone_series : list pyvalue)
  (region_series : list string) (default_region : string)
  : option (list (PhoneOutcome * string)) :=
  let rows :=
    map (fun '(r, rr) => validate_single_phone r (str_or rr default_region))
        (combine phone_series region_series) in
  match rows with
  | [] => None
  | _ => Some (map (fun o => (o, mask_e164 (e164 o))) rows)
  end.

End WithPhoneNumbers.

End phone.

(* ================================================================== *)
(** ** app.py: working frame, deduplication, overall validity, summary *)
(* ================================================================== *)

Module app.
Import base.

(** The choices of the "Deduplicate by" select box. *)
Inductive DedupMode : Type :=
| DedupNone | DedupAadhaar | DedupMobile | DedupAadhaarMobile.

(** A row of the working frame as it is built from the upload.  [country]
    is upper-cased when the frame is built, so the second upper-casing in
    [phone.validate_series] leaves it as it is. *)
Record WorkRow : Type := mkWorkRow {
  aadhaar_raw : pyvalue;
  mobile_raw : pyvalue;
  country : string
}.

(** A row of the working frame once both validators have filled it. *)
Record Row : Type := mkRow {
  source : WorkRow;
  aadhaar_clean : string;
  aadhaar_valid : bool;
  aadhaar_reason : string;
  aadhaar_category : string;
  aadhaar_masked : string;
  mobile_e164 : string;
  mobile_valid : bool;
  mobile_reason : string;
  mobile_region : string;
  mobile_type : string;
  mobile_masked : string
}.

Definition keep_mask (w : WorkRow) : bool :=
  negb (normalize_text (aadhaar_raw w) =? "")
  || negb (normalize_text (mobile_raw w) =? "").

Definition key_dec : forall a b : list string, {a = b} + {a <> b} :=
  list_eq_dec string_dec.

(** [DataFrame.drop_duplicates(subset=...)], which keeps the first row of
    each key; [seen] holds the keys of the rows met so far. *)
Fixpoint drop_duplicates_from (subset : Row -> list string)
  (seen : list (list string)) (rows : list Row) : list Row :=
  match rows with
  | [] => []
  | r :: rows' =>
      if in_dec key_dec (subset r) seen
      then drop_duplicates_from subset seen rows'
      else r :: drop_duplicates_from subset (subset r :: seen) rows'
  end.

Definition drop_duplicates (subset : Row -> list string) (rows : list Row)
  : list Row :=
  drop_duplicates_from subset [] rows.

Definition subset_aadhaar (r : Row) : list string := [aadhaar_clean r].
Definition subset_mobile (r : Row) : list string := [mobile_e164 r].
Definition subset_both (r : Row) : list string :=
  [aadhaar_clean r; mobile_e164 r].

(** The deduplication block: the frame after it, and [dedup_applied]. *)
Definition dedup (dedup_mode : DedupMode) (work : list Row)
  : list Row * nat :=
  match dedup_mode with
  | DedupAadhaar =>
      let before_d := List.length work in
      let work' := drop_duplicates subset_aadhaar work in
      (work', before_d - List.length work')
  | DedupMobile =>
      let before_d := List.length work in
      let work' := drop_duplicates subset_mobile work in
      (work', before_d - List.length work')
  | DedupAadhaarMobile =>
      let before_d := List.length work in
      let work' := drop_duplicates subset_both work in
      (work', before_d - List.length work')
  | DedupNone => (work, 0)
  end.

Definition aadhaar_present (r : Row) : bool := negb (aadhaar_clean r =? "").
Definition mobile_present (r : Row) : bool := negb (mobile_e164 r =? "").

Definition overall_valid (r : Row) : bool :=
  let both_present := aadhaar_present r && mobile_present r in
  let only_a := aadhaar_present r && negb (mobile_present r) in
  let only_m := mobile_present r && negb (aadhaar_present r) in
  (both_present && (aadhaar_valid r && mobile_valid r))
  || (only_a && aadhaar_valid r)
  || (only_m && mobile_valid r).

Definition count {A} (f : A -> bool) (l : list A) : nat :=
  List.length (filter f l).

(** What the summary section shows and the saved run records. *)
Record Summary : Type := mkSummary {
  work : list Row;
  overall_valid_column : list bool;
  total_rows : nat;
  processed : nat;
  distinct_after : nat;
  aadhaar_valid_count : nat;
  aadhaar_invalid_count : nat;
  mobile_valid_count : nat;
  mobile_invalid_count : nat;
  overall_valid_count : nat;
  dropped_all_empty : nat;
  dedup_applied : nat
}.

Inductive Outcome : Type :=
| Done (s : Summary)
| Stop      (* [st.stop()]: every row was empty in both fields *)
| Raise.    (* an exception escaped a validator *)

Section WithPhoneNumbers.
Context {lib : phone.PhoneNumbers}.

Definition fill (w : WorkRow) (a : ind_aadhaar.AadhaarDfRow)
  (p : phone.PhoneOutcome * string) : Row :=
  let o := ind_aadhaar.df_outcome a in
  {| source := w;
     aadhaar_clean := ind_aadhaar.aadhaar o;
     aadhaar_valid := ind_aadhaar.valid o;
     aadhaar_reason := ind_aadhaar.reason o;
     aadhaar_category := ind_aadhaar.category a;
     aadhaar_masked := ind_aadhaar.mask_aadhaar (PyStr (ind_aadhaar.aadhaar o));
     mobile_e164 := phone.e164 (fst p);
     mobile_valid := phone.valid (fst p);
     mobile_reason := phone.reason (fst p);
     mobile_region := phone.region (fst p);
     mobile_type := phone.type (fst p);
     mobile_masked := snd p |}.

(** The script from "Build working frame" to "Summary"; [df] is the
    frame with the three selected columns, [default_region] the side-bar
    text stripped and upper-cased. *)
Definition run (default_region : string) (dedup_mode : DedupMode)
  (df : list WorkRow) : Outcome :=
  let before := List.length df in
  let work0 := filter keep_mask df in
  let dropped := before - List.length work0 in
  match work0 with
  | [] => Stop
  | _ =>
      match ind_aadhaar.validate_series (map aadhaar_raw work0) with
      | None => Raise
      | Some aadhaar_df =>
          match phone.validate_series (map mobile_raw work0)
                  (map country work0) default_region with
          | None => Raise
          | Some phone_df =>
              let work1 :=
                map (fun '(w, a, p) => fill w a p)
                    (combine (combine work0 aadhaar_df) phone_df) in
              let '(work2, applied) := dedup dedup_mode work1 in
              let n := List.length work2 in
              Done {|
                work := work2;
                overall_valid_column := map overall_valid work2;
                total_rows := List.length df;
                processed := n;
                distinct_after := n;
                aadhaar_valid_count := count aadhaar_valid work2;
                aadhaar_invalid_count :=
                  count (fun r => negb (aadhaar_valid r)
                                  && negb (aadhaar_clean r =? "")) work2;
                mobile_valid_count := count mobile_valid work2;
                mobile_invalid_count :=
                  count (fun r => negb (mobile_valid r)
                                  && negb (mobile_e164 r =? "")) work2;
                overall_valid_count := count overall_valid work2;
                dropped_all_empty := dropped;
                dedup_applied := applied |}
          end
      end
  end.

End WithPhoneNumbers.

End app.

(* ================================================================== *)
(** ** storage/local_store.py: the pure parts *)
(* ================================================================== *)

Module local_store.
Import base.



(** The test of the comprehension in [_masked_only]. *)
Definition masked_or_status (c : string) : bool :=
  Py.contains "masked" c || Py.contains "reason" c
  || Py.contains "category" c
  || mem_str c ["country"; "region"; "overall_valid"; "aadhaar_valid";
                "mobile_valid"].

(** One turn of the three [for col in ...] loops. *)
Definition append_if_missing (columns keep : list string) (col : string)
  : list string :=
  if negb (mem_str col keep) && mem_str col columns then (keep ++ [col])%list
  else keep.

(** [_masked_only], on the column labels: the list [keep] with which the
    frame is indexed. *)
Definition _masked_only (columns : list string) : list string :=
  let keep := filter masked_or_status columns in
  let keep := fold_left (append_if_missing columns)
                ["aadhaar_masked"; "mobile_masked"] keep in
  let keep := fold_left (append_if_missing columns)
                ["source_row_index"] keep in
  fold_left (append_if_missing columns)
    ["aadhaar_reason"; "mobile_reason"; "aadhaar_category";
     "mobile_category"] keep.

End local_store.

(* ================================================================== *)
(** ** Vocabulary of the statements *)
(* ================================================================== *)

Import base.

(** The two tables and the inverse as operations on digits. *)
Module Verhoeff.
Import ind_aadhaar.

Definition dmul (a b : nat) : nat := at2 _d a b.

Definition perm (i x : nat) : nat := at2 _p i x.

Definition inv (c : nat) : nat := nth c _inv 0.

(** The loop body shared by both functions, with the row of [_p] chosen
    by [g] from the position. *)
Definition run (g : nat -> nat) (k c : nat) (l : list nat) : nat :=
  fold_left (fun c '(i, item) => dmul c (perm (g i) item))
            (combine (seq k (List.length l)) l) c.

End Verhoeff.

(** Validation of the digit-only text, with an escaped exception read as
    a failure. *)
Definition verhoeff_ok (digits : string) : bool :=
  match ind_aadhaar.verhoeff_validate digits with
  | Some true => true
  | _ => false
  end.

(** The reason the digit-only text [digits] calls for. *)
Definition reason_of_digits (digits : string) : string :=
  if digits =? "" then "MISSING"
  else if negb (String.length digits =? 12)%nat then "LENGTH_NEQ_12"
  else if verhoeff_ok digits then ""
  else "CHECKSUM_FAIL".

(** A word: nonempty, without whitespace. *)
Definition word (w : string) : Prop :=
  w <> "" /\ Py.forallb_str (fun c => negb (Py.isspace c)) w = true.

(** The key of a row in each mode: the cleaned Aadhaar digits, the
    canonical (E.164) mobile, or the two of them in this order.  Mode None
    compares nothing. *)
Definition dedup_key (mode : app.DedupMode) (r : app.Row) : list string :=
  match mode with
  | app.DedupAadhaar => [app.aadhaar_clean r]
  | app.DedupMobile => [app.mobile_e164 r]
  | app.DedupAadhaarMobile => [app.aadhaar_clean r; app.mobile_e164 r]
  | app.DedupNone => []
  end.

(** A row that carries the given cleaned Aadhaar and E.164 texts, each
    one valid when it is present. *)
Definition row_with (a m : string) : app.Row :=
  {| app.source := app.mkWorkRow (PyStr a) (PyStr m) "IN";
     app.aadhaar_clean := a;
     app.aadhaar_valid := negb (a =? "");
     app.aadhaar_reason := if a =? "" then "MISSING" else "";
     app.aadhaar_category := if a =? "" then "MISSING" else "VALID";
     app.aadhaar_masked := ind_aadhaar.mask_aadhaar (PyStr a);
     app.mobile_e164 := m;
     app.mobile_valid := negb (m =? "");
     app.mobile_reason := if m =? "" then "MISSING" else "";
     app.mobile_region := if m =? "" then "" else "IN";
     app.mobile_type := if m =? "" then "" else "MOBILE";
     app.mobile_masked := phone.mask_e164 m |}.

(** Two rows with one valid Aadhaar number and no mobile. *)
Definition duplicate_batch : list app.WorkRow :=
  [ app.mkWorkRow (PyStr "234123412346") (PyStr "") "IN";
    app.mkWorkRow (PyStr "234123412346") (PyStr "") "IN" ].

(** [suf] is [s[-n:]] when [s] has [n] characters or more, and [s] itself
    otherwise. *)
Definition last_chars (n : nat) (s suf : string) : Prop :=
  (exists pre, s = pre ++ suf) /\
  String.length suf = Nat.min n (String.length s).

(** [pre] is [s[:n]]. *)
Definition first_chars (n : nat) (s pre : string) : Prop :=
  (exists tail, s = pre ++ tail) /\
  String.length pre = Nat.min n (String.length s).

(** The first [k] characters of [t] exist, are digits, and each one after
    the first is the one before it plus [delta]. *)
Fixpoint steps (delta : Z) (k : nat) (t : string) : bool :=
  match k with
  | O => true
  | S k' =>
      match t with
      | EmptyString => false
      | String c t' =>
          Py.is_decimal c
          && match k', t' with
             | O, _ => true
             | S _, EmptyString => false
             | S _, String c' _ => (ord48 c' =? ord48 c + delta)%Z
             end
          && steps delta k' t'
      end
  end.

Definition run_at (n : nat) (t : string) : bool :=
  steps 1 n t || steps (-1) n t.

(** Some [n] consecutive characters of [s] form a run. *)
Fixpoint window_run (n : nat) (s : string) : bool :=
  run_at n s
  || match s with
     | EmptyString => false
     | String _ s' => window_run n s'
     end.

(** [run] is made of digits that go up by one, or down by one, at each
    position. *)
Definition is_run (run : string) : Prop :=
  steps 1 (String.length run) run = true
  \/ steps (-1) (String.length run) run = true.

(** [s] holds, as consecutive characters, a run of [n] digits or more. *)
Definition has_run (n : nat) (s : string) : Prop :=
  exists pre run post,
    s = pre ++ run ++ post /\ n <= String.length run /\ is_run run.

(** The value the validation loop ends with, on the digits last first. *)
Definition verhoeff_checksum (ds : list nat) : nat :=
  Verhoeff.run (fun i => i mod 8) 0 0 ds.

(** [c * n]. *)
Fixpoint repeat_char (c : ascii) (n : nat) : string :=
  match n with
  | O => EmptyString
  | S k => String c (repeat_char c k)
  end.

(** The first [k] characters of [t] exist and are all [c]. *)
Fixpoint rep_prefix (c : ascii) (k : nat) (t : string) : bool :=
  match k with
  | O => true
  | S k' =>
      match t with
      | EmptyString => false
      | String c' t' => Ascii.eqb c' c && rep_prefix c k' t'
      end
  end.

(** Some [n] consecutive characters of [s] are one character. *)
Fixpoint window_rep (n : nat) (s : string) : bool :=
  match s with
  | EmptyString => Nat.eqb n 0
  | String c s' => rep_prefix c n s || window_rep n s'
  end.

(** [s] holds [n] consecutive copies of one character. *)
Definition has_repeat (n : nat) (s : string) : Prop :=
  exists pre c post, s = pre ++ repeat_char c n ++ post.

(** The outcome of the Aadhaar validator, from the digit text. *)
Definition aadhaar_outcome (v : pyvalue) : ind_aadhaar.AadhaarOutcome :=
  let digits := normalize_digits v in
  ind_aadhaar.mkAadhaarOutcome digits (reason_of_digits digits =? "")
    (reason_of_digits digits).

(** The frame row of one value, from the value itself. *)
Definition aadhaar_df_row (v : pyvalue) : ind_aadhaar.AadhaarDfRow :=
  let o := aadhaar_outcome v in
  ind_aadhaar.mkAadhaarDfRow o
    (has_adjacent_repetition (ind_aadhaar.aadhaar o) 3)
    (has_sequential_digits (ind_aadhaar.aadhaar o) 3)
    (improbable_pattern (ind_aadhaar.aadhaar o))
    (category_aadhaar (ind_aadhaar.reason o)).

Section RowOf.
Context {lib : phone.PhoneNumbers}.

(** The validated row of one input row, from that row alone. *)
Definition row_of (default_region : string) (w : app.WorkRow) : app.Row :=
  let o := aadhaar_outcome (app.aadhaar_raw w) in
  let p := phone.validate_single_phone (app.mobile_raw w)
             (phone.str_or (app.country w) default_region) in
  {| app.source := w;
     app.aadhaar_clean := ind_aadhaar.aadhaar o;
     app.aadhaar_valid := ind_aadhaar.valid o;
     app.aadhaar_reason := ind_aadhaar.reason o;
     app.aadhaar_category := category_aadhaar (ind_aadhaar.reason o);
     app.aadhaar_masked := ind_aadhaar.mask_aadhaar (app.aadhaar_raw w);
     app.mobile_e164 := phone.e164 p;
     app.mobile_valid := phone.valid p;
     app.mobile_reason := phone.reason p;
     app.mobile_region := phone.region p;
     app.mobile_type := phone.type p;
     app.mobile_masked := phone.mask_e164 (phone.e164 p) |}.

End RowOf.

(** The row of the mobile frame for one row of the working frame, with its
    [masked] cell. *)
Definition phone_df_row {lib : phone.PhoneNumbers} (region : string)
  (w : app.WorkRow) : phone.PhoneOutcome * string :=
  let o := phone.validate_single_phone (app.mobile_raw w)
             (phone.str_or (app.country w) region) in
  (o, phone.mask_e164 (phone.e164 o)).

(** A small stand-in for the package, to run the script on examples: it
    parses a plus sign followed by digits, takes twelve digits for a valid
    number, and calls every number a mobile of region IN. *)
Definition sample_numbers : phone.PhoneNumbers :=
  {| phone.PhoneNumber := string;
     phone.parse := fun s _ =>
       match s with
       | String "+" ds =>
           if Py.forallb_str Py.is_decimal ds && negb (Py.is_empty ds)
           then Some s else None
       | _ => None
       end;
     phone.is_possible_number := fun n => (8 <=? String.length n)%nat;
     phone.is_valid_number := fun n => (String.length n =? 13)%nat;
     phone.number_type := fun _ => phone.MOBILE;
     phone.type_label := fun _ => "MOBILE";
     phone.format_number_E164 := fun n => n;
     phone.region_code_for_number := fun _ => Some "IN" |}.

(** A batch with a duplicated Aadhaar, a row empty in both fields, a row
    with a mobile that does not parse and a row with a mobile only. *)
Definition sample_batch : list app.WorkRow :=
  [ app.mkWorkRow (PyStr "2341 2341 2346") (PyStr "+919876543210") "IN";
    app.mkWorkRow (PyInt 234123412346) (PyStr "98765") "";
    app.mkWorkRow PyNaN (PyStr "  ") "IN";
    app.mkWorkRow (PyStr "1234") (PyStr "+919876543211") "IN";
    app.mkWorkRow PyNone (PyStr "+919876543212") "IN" ].

(** The finished run, if there is one. *)
Definition summary_of (o : app.Outcome) : option app.Summary :=
  match o with
  | app.Done s => Some s
  | _ => None
  end.

(** The text [sub] occurs in [s]. *)
Definition occurs_in (sub s : string) : Prop :=
  exists pre post, s = pre ++ sub ++ post.

(** A column label that may be saved: one in which [masked], [reason] or
    [category] occurs, or one of six labels that name no personal data. *)
Definition savable (c : string) : Prop :=
  occurs_in "masked" c \/ occurs_in "reason" c \/ occurs_in "category" c
  \/ In c ["country"; "region"; "overall_valid"; "aadhaar_valid";
           "mobile_valid"; "source_row_index"].

(** One of the ten digits [0] to [9]. *)
Definition digit_0_9 (c : N) : bool := ((48 <=? c) && (c <=? 57))%N.

(** The number a digit [0] to [9] stands for. *)
Definition digit_value (c : N) : Z := (Z.of_N c - 48)%Z.

(** The first [k] characters of [t] exist, are digits [0] to [9], and each
    one after the first is the one before it plus [delta]. *)
Fixpoint digit_steps (delta : Z) (k : nat) (t : unicode.text) : bool :=
  match k with
  | O => true
  | S k' =>
      match t with
      | [] => false
      | c :: t' =>
          digit_0_9 c
          && match k', t' with
             | O, _ => true
             | S _, [] => false
             | S _, c' :: _ => (digit_value c' =? digit_value c + delta)%Z
             end
          && digit_steps delta k' t'
      end
  end.

(** [run] is made of digits [0] to [9] that go up by one, or down by one,
    at each position. *)
Definition digit_run (run : unicode.text) : Prop :=
  digit_steps 1 (List.length run) run = true
  \/ digit_steps (-1) (List.length run) run = true.

(** [d] holds, as consecutive characters, a run of [n] digits or more. *)
Definition holds_run (n : nat) (d : unicode.text) : Prop :=
  exists pre run post,
    d = (pre ++ run ++ post)%list /\ n <= List.length run /\ digit_run run.

(** [d] holds two digits [0] to [9] next to each other. *)
Definition holds_digit_pair (d : unicode.text) : Prop :=
  exists pre a b post,
    d = (pre ++ a :: b :: post)%list /\
    digit_0_9 a = true /\ digit_0_9 b = true.

(** The same, computed. *)
Fixpoint digit_pair (d : unicode.text) : bool :=
  match d with
  | [] => false
  | a :: t =>
      match t with
      | [] => false
      | b :: _ => (digit_0_9 a && digit_0_9 b) || digit_pair t
      end
  end.

(** A text over U+0000..U+00FF with the digits [0] to [9] of [t] in their
    places and the letter [x] in every other place. *)
Definition squash (c : N) : ascii :=
  if digit_0_9 c then ascii_of_N c else "x"%char.

Fixpoint squash_text (t : unicode.text) : string :=
  match t with
  | [] => EmptyString
  | c :: t' => String (squash c) (squash_text t')
  end.

(** The code points of the Devanagari digits two (U+0968) and six
    (U+096C). *)
Definition devanagari_two : N := 2408%N.
Definition devanagari_six : N := 2412%N.

(* ================================================================== *)
(** * Properties *)
(* ================================================================== *)

(** ** The functions on sample values *)

Example normalize_text_collapses :
  normalize_text (PyStr "  a   b ") = "a b".
Proof. reflexivity. Qed.

Example normalize_text_missing :
  normalize_text PyNone = "" /\ normalize_text PyNaN = "" /\
  normalize_text (PyStr "nan") = "" /\ normalize_text (PyStr "NaN") = "".
Proof. repeat split. Qed.

Example normalize_digits_samples :
  normalize_digits (PyStr "12-34 56") = "123456" /\
  normalize_digits (PyStr "") = "" /\
  normalize_digits (PyInt 234123412346) = "234123412346".
Proof. repeat split. Qed.

Example validate_single_samples :
  ind_aadhaar.validate_single (PyStr "234123412346")
  = Some (ind_aadhaar.mkAadhaarOutcome "234123412346" true "") /\
  ind_aadhaar.validate_single (PyStr "123456789012")
  = Some (ind_aadhaar.mkAadhaarOutcome "123456789012" false "CHECKSUM_FAIL")
  /\
  ind_aadhaar.validate_single (PyStr "1234")
  = Some (ind_aadhaar.mkAadhaarOutcome "1234" false "LENGTH_NEQ_12") /\
  ind_aadhaar.validate_single (PyStr "")
  = Some (ind_aadhaar.mkAadhaarOutcome "" false "MISSING").
Proof. repeat split. Qed.

Example verhoeff_check_digit_sample :
  ind_aadhaar.verhoeff_check_digit "23412341234" = Some "6".
Proof. reflexivity. Qed.

Example E164_RE_match_samples :
  phone.E164_RE_match "+12345678" = Some ("1", "234", "567", "8") /\
  phone.E164_RE_match "+123456789" = Some ("12", "345", "678", "9") /\
  phone.E164_RE_match "+919876543210" = Some ("919", "876", "543", "210") /\
  phone.E164_RE_match "+1234567" = None.
Proof. repeat split. Qed.

Example mask_e164_samples :
  phone.mask_e164 "+919876543210" = "+919-XXX-XXX-210" /\
  phone.mask_e164 "+1202555" = "+120-****-****-2555" /\
  phone.mask_e164 "+1a2025" = "***-***-2025" /\
  phone.mask_e164 "+" = "***-***-".
Proof. repeat split. Qed.

Example has_sequential_digits_samples :
  has_sequential_digits "9876" 4 = true /\
  has_sequential_digits "13579" 2 = false /\
  has_sequential_digits "120" 3 = false /\
  _has_sequential_run_digits "1a2b3" 3 = false.
Proof. repeat split. Qed.

(** ** Strings as lists of characters *)

Lemma list_of_append (s t : string) :
  list_ascii_of_string (s ++ t)
  = (list_ascii_of_string s ++ list_ascii_of_string t)%list.
Proof.
  induction s as [|c s IH]; simpl; [reflexivity | now rewrite IH].
Qed.

Lemma length_append (s t : string) :
  String.length (s ++ t) = String.length s + String.length t.
Proof.
  induction s as [|c s IH]; simpl; [reflexivity | now rewrite IH].
Qed.

Lemma forallb_str_append f (s t : string) :
  Py.forallb_str f (s ++ t) = Py.forallb_str f s && Py.forallb_str f t.
Proof.
  induction s as [|c s IH]; simpl; [reflexivity |].
  now rewrite IH, andb_assoc.
Qed.

Lemma forallb_str_Forall f (s : string) :
  Py.forallb_str f s = true <->
  Forall (fun c => f c = true) (list_ascii_of_string s).
Proof.
  induction s as [|c s IH]; simpl.
  - split; intros; [constructor | reflexivity].
  - rewrite andb_true_iff, IH. split.
    + intros [H1 H2]. now constructor.
    + intros H. inversion H; subst. now split.
Qed.

Lemma append_empty_r (s : string) : s ++ "" = s.
Proof. induction s as [|c s IH]; simpl; [reflexivity | now rewrite IH]. Qed.

Lemma append_assoc (s t u : string) : (s ++ t) ++ u = s ++ (t ++ u).
Proof. induction s as [|c s IH]; simpl; [reflexivity | now rewrite IH]. Qed.

(** ** The Verhoeff tables form a group on the digits *)

Module VerhoeffFacts.
Import ind_aadhaar Verhoeff.

Ltac below n H :=
  repeat (destruct n as [|n]; [ | apply PeanoNat.lt_S_n in H ]);
  try (exfalso; exact (PeanoNat.Nat.nlt_0_r _ H)).

Lemma d_at_lt a b : a < 10 -> b < 10 -> dmul a b < 10.
Proof.
  intros Ha Hb. below a Ha; below b Hb; vm_compute; lia.
Qed.

Lemma p_at_lt i x : i < 8 -> x < 10 -> perm i x < 10.
Proof.
  intros Hi Hx. below i Hi; below x Hx; vm_compute; lia.
Qed.

Lemma d_assoc a b c :
  a < 10 -> b < 10 -> c < 10 -> dmul (dmul a b) c = dmul a (dmul b c).
Proof.
  intros Ha Hb Hc. below a Ha; below b Hb; below c Hc; reflexivity.
Qed.

Lemma d_zero_l x : x < 10 -> dmul 0 x = x.
Proof. intros Hx. below x Hx; reflexivity. Qed.

Lemma p_zero x : x < 10 -> perm 0 x = x.
Proof. intros Hx. below x Hx; reflexivity. Qed.

Lemma inv_lt c : c < 10 -> inv c < 10.
Proof. intros Hc. below c Hc; vm_compute; lia. Qed.

Lemma inv_cancel c : c < 10 -> dmul (inv c) c = 0.
Proof. intros Hc. below c Hc; reflexivity. Qed.

Lemma run_cons g k c x l :
  run g k c (x :: l) = run g (S k) (dmul c (perm (g k) x)) l.
Proof. reflexivity. Qed.

Lemma run_shift g g' (l : list nat) : forall k c,
  (forall i, g (S i) = g' i) -> run g (S k) c l = run g' k c l.
Proof.
  induction l as [|x l IH]; intros k c Hg; [reflexivity |].
  rewrite !run_cons, Hg. now apply IH.
Qed.

Lemma run_lt g (l : list nat) : forall k c,
  (forall i, g i < 8) -> Forall (fun x => x < 10) l -> c < 10 ->
  run g k c l < 10.
Proof.
  induction l as [|x l IH]; intros k c Hg Hl Hc; [exact Hc |].
  inversion Hl; subst. rewrite run_cons.
  apply IH; auto using d_at_lt, p_at_lt.
Qed.

(** Starting the loop from [c] multiplies the result from [0] by [c]. *)
Lemma run_acc g (l : list nat) : forall k c,
  (forall i, g i < 8) -> Forall (fun x => x < 10) l -> c < 10 ->
  run g k c l = dmul c (run g k 0 l).
Proof.
  induction l as [|x l IH]; intros k c Hg Hl Hc.
  - cbn. below c Hc; reflexivity.
  - inversion Hl as [|? ? Hx Hl']; subst.
    assert (Hp : perm (g k) x < 10) by auto using p_at_lt.
    rewrite !run_cons.
    rewrite (IH (S k) (dmul c (perm (g k) x)) Hg Hl' (d_at_lt _ _ Hc Hp)).
    rewrite (d_zero_l _ Hp).
    rewrite (IH (S k) (perm (g k) x) Hg Hl' Hp).
    apply d_assoc; trivial.
    apply run_lt; trivial. lia.
Qed.

Lemma ints_decimal (l : list ascii) :
  Forall (fun c => Py.is_decimal c = true) l ->
  exists ds, Py.ints l = Some ds /\ Forall (fun x => x < 10) ds.
Proof.
  induction 1 as [|c l Hc Hl [ds [E F]]]; simpl.
  - now exists [].
  - unfold Py.int_of_char. rewrite Hc, E.
    eexists; split; [reflexivity |]. constructor; [| exact F].
    unfold Py.is_decimal in Hc.
    apply andb_true_iff in Hc as [H1 H2].
    apply N.leb_le in H1, H2. lia.
Qed.

Lemma reversed_ints_decimal (s : string) :
  Py.forallb_str Py.is_decimal s = true ->
  exists ds, Py.reversed_ints s = Some ds /\ Forall (fun x => x < 10) ds.
Proof.
  intros H. apply ints_decimal, Forall_rev.
  now apply forallb_str_Forall.
Qed.

(** The text of a one-digit number is that digit. *)
Lemma str_of_digit n :
  n < 10 ->
  exists ch, Py.str_of_nat n = String ch "" /\
             Py.is_decimal ch = true /\ Py.int_of_char ch = Some n.
Proof.
  intros Hn. below n Hn; eexists; repeat split.
Qed.

Lemma reversed_ints_snoc (b : string) ch n ds :
  Py.reversed_ints b = Some ds -> Py.int_of_char ch = Some n ->
  Py.reversed_ints (b ++ String ch "") = Some (n :: ds).
Proof.
  unfold Py.reversed_ints. intros Hb Hc.
  rewrite list_of_append, rev_app_distr. simpl. now rewrite Hc, Hb.
Qed.

(** The check digit makes the checksum vanish, whatever the length. *)
Lemma check_digit_validates (b : string) :
  Py.forallb_str Py.is_decimal b = true ->
  exists ch, verhoeff_check_digit b = Some (String ch "") /\
             Py.is_decimal ch = true /\
             verhoeff_validate (b ++ String ch "") = Some true.
Proof.
  intros Hb.
  destruct (reversed_ints_decimal b Hb) as [ds [E F]].
  set (g1 := fun i => (i + 1) mod 8).
  set (g0 := fun i => i mod 8).
  assert (G1 : forall i, g1 i < 8) by (intro; apply Nat.mod_upper_bound; lia).
  assert (G0 : forall i, g0 i < 8) by (intro; apply Nat.mod_upper_bound; lia).
  pose (c := run g1 0 0 ds).
  assert (Hc : c < 10) by (apply run_lt; auto; lia).
  destruct (str_of_digit (inv c) (inv_lt c Hc)) as [ch [Hs [Hd Hi]]].
  exists ch. repeat split; [| exact Hd |].
  - unfold verhoeff_check_digit. rewrite E. f_equal. exact Hs.
  - unfold verhoeff_validate.
    rewrite (reversed_ints_snoc b ch (inv c) ds E Hi). f_equal.
    change (Nat.eqb (run g0 0 0 (inv c :: ds)) 0 = true).
    rewrite run_cons.
    rewrite (run_shift g0 g1) by (intro i; unfold g0, g1; f_equal; lia).
    assert (Hk : inv c < 10) by (apply inv_lt; exact Hc).
    change (g0 0) with 0. rewrite (p_zero _ Hk), (d_zero_l _ Hk).
    rewrite run_acc by auto.
    fold c. rewrite inv_cancel by exact Hc. reflexivity.
Qed.

End VerhoeffFacts.

(** C1.  For every 11-digit string [b], [verhoeff_check_digit b] returns a
    one-digit text [k], and [b ++ k] is a 12-digit string that
    [verhoeff_validate] accepts. *)
Theorem C1_check_digit_then_validate (b : string) :
  String.length b = 11 ->
  Py.forallb_str Py.is_decimal b = true ->
  exists k,
    ind_aadhaar.verhoeff_check_digit b = Some k /\
    String.length (b ++ k) = 12 /\
    Py.forallb_str Py.is_decimal (b ++ k) = true /\
    ind_aadhaar.verhoeff_validate (b ++ k) = Some true.
Proof.
  intros Hlen Hdig.
  destruct (VerhoeffFacts.check_digit_validates b Hdig) as [ch [Hk [Hd Hv]]].
  exists (String ch ""). repeat split; trivial.
  - rewrite length_append, Hlen. reflexivity.
  - rewrite forallb_str_append, Hdig. simpl. now rewrite Hd.
Qed.

Lemma C1_witness :
  exists k,
    ind_aadhaar.verhoeff_check_digit "23412341234" = Some k /\
    String.length ("23412341234" ++ k) = 12 /\
    Py.forallb_str Py.is_decimal ("23412341234" ++ k) = true /\
    ind_aadhaar.verhoeff_validate ("23412341234" ++ k) = Some true.
Proof.
  apply (C1_check_digit_then_validate "23412341234"); reflexivity.
Defined.

(** ** Digit extraction and the Aadhaar reasons *)

Lemma forallb_filter_str f (s : string) :
  Py.forallb_str f (Py.filter_str f s) = true.
Proof.
  induction s as [|c s IH]; simpl; [reflexivity |].
  destruct (f c) eqn:E; simpl; [now rewrite E | exact IH].
Qed.

Lemma normalize_digits_decimal (v : pyvalue) :
  Py.forallb_str Py.is_decimal (normalize_digits v) = true.
Proof.
  unfold normalize_digits.
  destruct (Py.is_empty (normalize_text v)); [reflexivity |].
  apply forallb_filter_str.
Qed.

Lemma forallb_str_impl (f g : ascii -> bool) (s : string) :
  (forall c, f c = true -> g c = true) ->
  Py.forallb_str f s = true -> Py.forallb_str g s = true.
Proof.
  intros Hfg. induction s as [|c s IH]; simpl; [trivial |].
  rewrite !andb_true_iff. intros [H1 H2]. auto.
Qed.

Lemma isdigit_of_decimal (s : string) :
  s <> "" -> Py.forallb_str Py.is_decimal s = true -> Py.isdigit s = true.
Proof.
  intros Hne H. destruct s as [|c s]; [congruence |].
  unfold Py.isdigit. revert H. apply forallb_str_impl.
  intros c0 Hc. unfold Py.isdigit_char. now rewrite Hc.
Qed.

(** [validate_single] answers, and its cleaned value is the digit text. *)
Lemma validate_single_cleaned (x : pyvalue) :
  option_map ind_aadhaar.aadhaar (ind_aadhaar.validate_single x)
  = Some (normalize_digits x).
Proof.
  unfold ind_aadhaar.validate_single.
  pose proof (normalize_digits_decimal x) as Hd.
  destruct (normalize_digits x =? ""); [reflexivity |].
  destruct (negb (Py.isdigit (normalize_digits x))); [reflexivity |].
  destruct (negb (String.length (normalize_digits x) =? 12)%nat);
    [reflexivity |].
  destruct (VerhoeffFacts.reversed_ints_decimal _ Hd) as [ds [R _]].
  unfold ind_aadhaar.verhoeff_validate. rewrite R.
  match goal with |- context [Nat.eqb ?c 0] => destruct (Nat.eqb c 0) end;
    reflexivity.
Qed.

(** [validate_single] raises nothing; its reason is the first that applies
    to the digit-only text, and the test for [NON_NUMERIC], made on that text,
    never succeeds. *)
Lemma validate_single_reason (x : pyvalue) :
  exists o,
    ind_aadhaar.validate_single x = Some o /\
    ind_aadhaar.aadhaar o = normalize_digits x /\
    ind_aadhaar.reason o <> "NON_NUMERIC" /\
    ind_aadhaar.reason o = reason_of_digits (normalize_digits x) /\
    ind_aadhaar.valid o = (ind_aadhaar.reason o =? "").
Proof.
  unfold ind_aadhaar.validate_single, reason_of_digits, verhoeff_ok.
  pose proof (normalize_digits_decimal x) as Hd.
  destruct (normalize_digits x =? "") eqn:E.
  - eexists; repeat split; simpl; discriminate.
  - apply String.eqb_neq in E.
    rewrite (isdigit_of_decimal _ E Hd). simpl.
    destruct (String.length (normalize_digits x) =? 12)%nat; simpl.
    + destruct (VerhoeffFacts.reversed_ints_decimal _ Hd) as [ds [R _]].
      unfold ind_aadhaar.verhoeff_validate. rewrite R.
      match goal with |- context [Nat.eqb ?c 0] => destruct (Nat.eqb c 0) end;
        eexists; repeat split; simpl; discriminate.
    + eexists; repeat split; simpl; discriminate.
Qed.

(** C2.  The code does not answer [NON_NUMERIC] where the claim, the
    docstring of [validate_single] and the precedence of [category_aadhaar]
    call for it.  The text ["12AB"] is nonempty after normalisation and holds
    the non-digit, non-blank characters [A] and [B], yet its reason is
    [LENGTH_NEQ_12]; ["AB"] is of that kind too and its reason is [MISSING].
    The branch for [NON_NUMERIC] tests the text that [normalize_digits] has
    already cleared of such characters, so it is taken on no input. *)
Theorem C2_non_numeric_is_never_answered :
  (normalize_text (PyStr "12AB") = "12AB" /\
   Py.forallb_str Py.is_decimal (normalize_text (PyStr "12AB")) = false /\
   option_map ind_aadhaar.reason (ind_aadhaar.validate_single (PyStr "12AB"))
   = Some "LENGTH_NEQ_12") /\
  (normalize_text (PyStr "AB") = "AB" /\
   option_map ind_aadhaar.reason (ind_aadhaar.validate_single (PyStr "AB"))
   = Some "MISSING") /\
  (forall x : pyvalue,
     option_map ind_aadhaar.reason (ind_aadhaar.validate_single x)
     <> Some "NON_NUMERIC").
Proof.
  split; [repeat split |]. split; [repeat split |].
  intros x H.
  destruct (validate_single_reason x) as [o [E [_ [N _]]]].
  rewrite E in H. cbn in H. congruence.
Qed.

(** ** Whitespace splitting and joining *)

Lemma word_cons c w :
  Py.isspace c = false -> (w = "" \/ word w) -> word (String c w).
Proof.
  intros Hc Hw. split; [discriminate |]. simpl. rewrite Hc. simpl.
  destruct Hw as [-> | [_ H]]; [reflexivity | exact H].
Qed.

Lemma word_inv c w :
  word (String c w) -> Py.isspace c = false /\ (w = "" \/ word w).
Proof.
  intros [_ H]. simpl in H. apply andb_true_iff in H as [H1 H2].
  apply negb_true_iff in H1. split; [exact H1 |].
  destruct w; [now left | right; split; [discriminate | exact H2]].
Qed.

Lemma split_cons_space c s :
  Py.isspace c = true -> Py.split (String c s) = Py.split s.
Proof. intros H. simpl. now rewrite H. Qed.

Lemma split_single c :
  Py.isspace c = false -> Py.split (String c "") = [String c ""].
Proof. intros H. simpl. now rewrite H. Qed.

Lemma split_cons_then_space c c' s :
  Py.isspace c = false -> Py.isspace c' = true ->
  Py.split (String c (String c' s)) = String c "" :: Py.split s.
Proof. intros H H'. simpl. now rewrite H, H'. Qed.

Lemma split_cons_then_char c c' s :
  Py.isspace c = false -> Py.isspace c' = false ->
  Py.split (String c (String c' s))
  = match Py.split (String c' s) with
    | w :: ws => String c w :: ws
    | [] => [String c ""]
    end.
Proof.
  intros H H'. cbn [Py.split]. rewrite H, H'. reflexivity.
Qed.

Lemma split_words (s : string) : Forall word (Py.split s).
Proof.
  induction s as [|c s IH]; [constructor |].
  destruct (Py.isspace c) eqn:Hc.
  - now rewrite split_cons_space.
  - destruct s as [|c' s].
    + rewrite split_single by exact Hc.
      constructor; [apply word_cons; auto | constructor].
    + destruct (Py.isspace c') eqn:Hc'.
      * rewrite split_cons_then_space by assumption.
        rewrite split_cons_space in IH by exact Hc'.
        constructor; [apply word_cons; auto | exact IH].
      * rewrite split_cons_then_char by assumption.
        destruct (Py.split (String c' s)) as [|w ws].
        -- constructor; [apply word_cons; auto | constructor].
        -- inversion IH; subst.
           constructor; [apply word_cons; auto | assumption].
Qed.

Lemma split_nil_lstrip (s : string) : Py.split s = [] -> Py.lstrip s = "".
Proof.
  induction s as [|c s IH]; [reflexivity |].
  destruct (Py.isspace c) eqn:Hc.
  - rewrite split_cons_space by exact Hc. simpl. now rewrite Hc.
  - destruct s as [|c' s].
    + rewrite split_single by exact Hc. discriminate.
    + destruct (Py.isspace c') eqn:Hc'.
      * rewrite split_cons_then_space by assumption. discriminate.
      * rewrite split_cons_then_char by assumption.
        destruct (Py.split (String c' s)); discriminate.
Qed.

Lemma split_word (w : string) : word w -> Py.split w = [w].
Proof.
  induction w as [|c w IH]; intros Hw; [now destruct Hw |].
  apply word_inv in Hw as [Hc [-> | Hw]].
  - now apply split_single.
  - destruct w as [|c' w]; [now destruct Hw |].
    destruct (word_inv _ _ Hw) as [Hc' _].
    rewrite split_cons_then_char by assumption.
    now rewrite (IH Hw).
Qed.

Lemma split_word_then_space (w t : string) c :
  word w -> Py.isspace c = true ->
  Py.split (w ++ String c t) = w :: Py.split t.
Proof.
  intros Hw Hsp. induction w as [|c0 w IH]; [now destruct Hw |].
  apply word_inv in Hw as [Hc [-> | Hw]].
  - simpl append. now apply split_cons_then_space.
  - destruct w as [|c' w]; [now destruct Hw |].
    destruct (word_inv _ _ Hw) as [Hc' _].
    change (String c0 (String c' w) ++ String c t)
      with (String c0 (String c' (w ++ String c t))).
    rewrite split_cons_then_char by assumption.
    change (String c' (w ++ String c t)) with (String c' w ++ String c t).
    now rewrite (IH Hw).
Qed.

Lemma isspace_blank : Py.isspace " " = true.
Proof. reflexivity. Qed.

Lemma join_cons2 sep w w' ws :
  Py.join sep (w :: w' :: ws) = w ++ sep ++ Py.join sep (w' :: ws).
Proof. reflexivity. Qed.

Lemma split_join (ws : list string) :
  Forall word ws -> Py.split (Py.join " " ws) = ws.
Proof.
  induction 1 as [|w ws Hw Hws IH]; [reflexivity |].
  destruct ws as [|w' ws].
  - now apply split_word.
  - rewrite join_cons2.
    change (" " ++ Py.join " " (w' :: ws))
      with (String " " (Py.join " " (w' :: ws))).
    rewrite (split_word_then_space _ _ _ Hw isspace_blank). now rewrite IH.
Qed.

Lemma lstrip_word_append (w t : string) :
  word w -> Py.lstrip (w ++ t) = w ++ t.
Proof.
  intros Hw. destruct w as [|c w]; [now destruct Hw |].
  destruct (word_inv _ _ Hw) as [Hc _]. simpl. now rewrite Hc.
Qed.

Lemma rstrip_word (w : string) : word w -> Py.rstrip w = w.
Proof.
  induction w as [|c w IH]; intros Hw; [now destruct Hw |].
  apply word_inv in Hw as [Hc [-> | Hw]].
  - simpl. now rewrite Hc.
  - simpl. rewrite (IH Hw). destruct w; [now destruct Hw | reflexivity].
Qed.

Lemma rstrip_append (a t : string) :
  Py.rstrip t = t -> t <> "" -> Py.rstrip (a ++ t) = a ++ t.
Proof.
  intros Ht Hne. induction a as [|c a IH]; [exact Ht |].
  simpl. rewrite IH. destruct (a ++ t) eqn:E; [| reflexivity].
  destruct a; simpl in E; congruence.
Qed.

Lemma join_words_stripped (ws : list string) :
  Forall word ws -> ws <> [] ->
  Py.join " " ws <> "" /\ Py.strip (Py.join " " ws) = Py.join " " ws.
Proof.
  induction 1 as [|w ws Hw Hws IH]; intros Hne; [congruence |].
  destruct ws as [|w' ws].
  - simpl. split; [apply Hw |].
    unfold Py.strip. rewrite <- (append_empty_r w) at 1.
    rewrite (lstrip_word_append _ _ Hw), append_empty_r.
    now apply rstrip_word.
  - destruct IH as [Jne Js]; [discriminate |].
    rewrite join_cons2. split.
    + destruct w; [now destruct Hw | discriminate].
    + unfold Py.strip. rewrite (lstrip_word_append _ _ Hw).
      rewrite <- append_assoc. apply rstrip_append; [| exact Jne].
      unfold Py.strip in Js.
      inversion Hws as [|? ? Hw' _]; subst.
      destruct ws as [|w'' ws].
      * now apply rstrip_word.
      * rewrite join_cons2 in Js |- *.
        now rewrite (lstrip_word_append _ _ Hw') in Js.
Qed.

(** The text [normalize_text] produces is either empty or a fixed point of
    the split-join-strip step. *)
Lemma normalize_text_shape (v : pyvalue) :
  normalize_text v = "" \/
  (Py.strip (normalize_text v) = normalize_text v /\
   Py.strip (Py.join " " (Py.split (normalize_text v))) = normalize_text v).
Proof.
  unfold normalize_text. destruct v as [| |z|s]; [now left | | |].
  all: cbv zeta;
    match goal with |- context [py_str ?v] => generalize (py_str v) end;
    intros t;
    destruct (Py.strip t =? "") eqn:Eb; [now left |];
    destruct (Py.lower t =? "nan"); [now left |]; right;
    apply String.eqb_neq in Eb;
    pose proof (split_words t) as Hw;
    assert (Hne : Py.split t <> [])
      by (intros E; apply Eb; unfold Py.strip;
          now rewrite (split_nil_lstrip _ E));
    destruct (join_words_stripped _ Hw Hne) as [_ Js];
    cbn [orb]; rewrite Js, (split_join _ Hw), Js; now split.
Qed.

(** C5, as stated, fails: [" nan"] is normalised to ["nan"], which a second
    pass takes for the missing marker and turns into the empty text. *)
Lemma C5_counterexample :
  normalize_text (PyStr " nan") = "nan" /\
  normalize_text (PyStr (normalize_text (PyStr " nan"))) = "" /\
  normalize_text (PyStr (normalize_text (PyStr " nan")))
  <> normalize_text (PyStr " nan").
Proof. repeat split. discriminate. Qed.

(** C5, amended.  [normalize_text] is idempotent on every input whose
    normalised text is not ["nan"] in some letter case. *)
Theorem C5_normalize_text_idempotent (x : pyvalue) :
  Py.lower (normalize_text x) <> "nan" ->
  normalize_text (PyStr (normalize_text x)) = normalize_text x.
Proof.
  intros Hnan.
  destruct (normalize_text_shape x) as [-> | [Hs Hj]]; [reflexivity |].
  unfold normalize_text at 1. cbn [py_str].
  apply String.eqb_neq in Hnan. rewrite Hnan, Hs, orb_false_r.
  destruct (normalize_text x =? "") eqn:E; [| exact Hj].
  apply String.eqb_eq in E. now rewrite E.
Qed.

Lemma C5_witness :
  Py.lower (normalize_text (PyStr "  a   b ")) <> "nan" /\
  normalize_text (PyStr (normalize_text (PyStr "  a   b ")))
  = normalize_text (PyStr "  a   b ").
Proof.
  split; [discriminate |].
  apply (C5_normalize_text_idempotent (PyStr "  a   b ")). discriminate.
Defined.

(** On the remaining inputs the second pass answers the empty text. *)
Lemma normalize_text_nan_again (x : pyvalue) :
  Py.lower (normalize_text x) = "nan" ->
  normalize_text (PyStr (normalize_text x)) = "".
Proof.
  intros H. unfold normalize_text at 1. cbn [py_str].
  rewrite H. simpl. now rewrite orb_true_r.
Qed.

(** ** Row decision *)

(** C4.  With presence read off the cleaned Aadhaar text and the E.164
    text, a row is valid overall: when both are present, iff both outcomes
    are valid; when only the Aadhaar is, iff its outcome is valid; when only
    the mobile is, iff its outcome is valid; when neither is, never. *)
Theorem C4_overall_valid_by_presence (r : app.Row) :
  (app.aadhaar_clean r <> "" -> app.mobile_e164 r <> "" ->
   (app.overall_valid r = true <->
    app.aadhaar_valid r = true /\ app.mobile_valid r = true)) /\
  (app.aadhaar_clean r <> "" -> app.mobile_e164 r = "" ->
   (app.overall_valid r = true <-> app.aadhaar_valid r = true)) /\
  (app.aadhaar_clean r = "" -> app.mobile_e164 r <> "" ->
   (app.overall_valid r = true <-> app.mobile_valid r = true)) /\
  (app.aadhaar_clean r = "" -> app.mobile_e164 r = "" ->
   app.overall_valid r = false).
Proof.
  unfold app.overall_valid, app.aadhaar_present, app.mobile_present.
  destruct (app.aadhaar_clean r =? "") eqn:Ea;
    destruct (app.mobile_e164 r =? "") eqn:Em;
    [apply String.eqb_eq in Ea | apply String.eqb_eq in Ea
    | apply String.eqb_neq in Ea | apply String.eqb_neq in Ea];
    [apply String.eqb_eq in Em | apply String.eqb_neq in Em
    | apply String.eqb_eq in Em | apply String.eqb_neq in Em];
    simpl; repeat split; intros; try contradiction; try tauto;
    repeat match goal with
           | H : _ /\ _ |- _ => destruct H
           | H : _ && _ = true |- _ => apply andb_true_iff in H
           | |- _ && _ = true => apply andb_true_iff
           | H : _ || false = true |- _ => rewrite orb_false_r in H
           | |- _ || false = true => rewrite orb_false_r
           end; auto.
Qed.

Lemma C4_witness :
  app.overall_valid (row_with "234123412346" "") = true <->
  app.aadhaar_valid (row_with "234123412346" "") = true.
Proof.
  apply (proj1 (proj2
    (C4_overall_valid_by_presence (row_with "234123412346" ""))));
    [simpl; discriminate | reflexivity].
Defined.

(** ** Deduplication *)

Section DropDuplicates.
Variable subset : app.Row -> list string.

Local Abbreviation from := (app.drop_duplicates_from subset).

Lemma in_dec_if {A} (X Y : A) (k : list string) (l1 l2 : list (list string)) :
  (In k l1 <-> In k l2) ->
  (if in_dec app.key_dec k l1 then X else Y)
  = (if in_dec app.key_dec k l2 then X else Y).
Proof.
  intros H. destruct (in_dec app.key_dec k l1), (in_dec app.key_dec k l2);
    tauto.
Qed.

Lemma from_keys (l : list app.Row) : forall seen k,
  In k (map subset (from seen l)) <-> In k (map subset l) /\ ~ In k seen.
Proof.
  induction l as [|r l IH]; intros seen k; simpl; [tauto |].
  destruct (in_dec app.key_dec (subset r) seen) as [Hin | Hout].
  - rewrite IH. intuition (subst; tauto).
  - simpl. rewrite IH. simpl.
    destruct (app.key_dec (subset r) k); intuition (subst; tauto).
Qed.

Lemma from_NoDup (l : list app.Row) : forall seen,
  NoDup (map subset (from seen l)).
Proof.
  induction l as [|r l IH]; intros seen; simpl; [constructor |].
  destruct (in_dec app.key_dec (subset r) seen); [apply IH |].
  simpl. constructor; [| apply IH].
  rewrite from_keys. simpl. tauto.
Qed.

Lemma from_cons seen r (l : list app.Row) :
  from seen (r :: l)
  = if in_dec app.key_dec (subset r) seen then from seen l
    else r :: from (subset r :: seen) l.
Proof. reflexivity. Qed.

Lemma from_snoc (l : list app.Row) : forall seen r,
  from seen (l ++ [r])%list
  = if in_dec app.key_dec (subset r) (map subset l ++ seen)%list
    then from seen l else (from seen l ++ [r])%list.
Proof.
  induction l as [|r0 l IH]; intros seen r.
  - cbn [List.app map]. rewrite from_cons.
    destruct (in_dec app.key_dec (subset r) seen); reflexivity.
  - rewrite <- app_comm_cons, map_cons, !from_cons.
    destruct (in_dec app.key_dec (subset r0) seen) as [Hin | Hout].
    + rewrite IH. apply in_dec_if. rewrite !in_app_iff. cbn [In].
      split; [tauto |].
      intros [[E | H] | H]; [right; rewrite <- E; exact Hin | tauto | tauto].
    + rewrite IH.
      rewrite (in_dec_if _ _ (subset r)
                 (map subset l ++ subset r0 :: seen)%list
                 ((subset r0 :: map subset l) ++ seen)%list).
      * now destruct (in_dec app.key_dec (subset r)
                        ((subset r0 :: map subset l) ++ seen)%list).
      * rewrite !in_app_iff. cbn [In]. tauto.
Qed.

Lemma from_count_le (q : app.Row -> bool) (l : list app.Row) : forall seen,
  app.count q (from seen l) <= app.count q l.
Proof.
  unfold app.count.
  induction l as [|r l IH]; intros seen; simpl; [lia |].
  destruct (in_dec app.key_dec (subset r) seen).
  - specialize (IH seen). destruct (q r); simpl; lia.
  - simpl. specialize (IH (subset r :: seen)). destruct (q r); simpl; lia.
Qed.

Lemma from_length_le (l : list app.Row) : forall seen,
  List.length (from seen l) <= List.length l.
Proof.
  intros seen. pose proof (from_count_le (fun _ => true) l seen) as H.
  unfold app.count in H.
  assert (E : forall l' : list app.Row, filter (fun _ => true) l' = l')
    by (induction l' as [|x l' IH]; simpl; [| rewrite IH]; reflexivity).
  now rewrite !E in H.
Qed.

(** The kept rows with a given key [k0]: the first one of the input, unless
    the key was met before. *)
Lemma from_one_key (p : app.Row -> bool) (k0 : list string)
  (Hp : forall r, p r = true <-> subset r = k0) (l : list app.Row) :
  forall seen,
  filter p (from seen l)
  = if in_dec app.key_dec k0 seen then [] else firstn 1 (filter p l).
Proof.
  induction l as [|r l IH]; intros seen; simpl.
  - now destruct (in_dec app.key_dec k0 seen).
  - destruct (in_dec app.key_dec (subset r) seen) as [Hin | Hout].
    + rewrite IH. destruct (in_dec app.key_dec k0 seen) as [H | H];
        [reflexivity |].
      destruct (p r) eqn:E; [| reflexivity].
      apply Hp in E. congruence.
    + simpl. rewrite IH. destruct (p r) eqn:E.
      * apply Hp in E. subst k0.
        destruct (in_dec app.key_dec (subset r) seen); [contradiction |].
        destruct (in_dec _ _ (subset r :: seen)) as [_ | H];
          [reflexivity | exfalso; apply H; now left].
      * destruct (in_dec app.key_dec k0 seen) as [H | H];
          destruct (in_dec app.key_dec k0 (subset r :: seen)) as [H' | H'];
          try reflexivity; exfalso.
        -- apply H'. now right.
        -- destruct H' as [H' | H']; [| contradiction].
           assert (p r = true) by now apply Hp. congruence.
Qed.

End DropDuplicates.

Lemma dedup_as_drop_duplicates mode (l : list app.Row) :
  mode <> app.DedupNone ->
  app.dedup mode l
  = (app.drop_duplicates (dedup_key mode) l,
     List.length l - List.length (app.drop_duplicates (dedup_key mode) l)).
Proof. destruct mode; [congruence | reflexivity ..]. Qed.

Lemma in_keys_iff (key : app.Row -> list string) (k : list string)
  (l : list app.Row) :
  In k (map key l) <-> exists r', In r' l /\ key r' = k.
Proof.
  rewrite in_map_iff. split; intros [x [H1 H2]]; exists x; tauto.
Qed.

(** One step of [drop_duplicates] on a batch of rows that are known only
    through equations between their key columns. *)
Ltac dedup_step :=
  rewrite from_cons;
  match goal with
  | |- context [in_dec app.key_dec ?k ?s] =>
      let H := fresh "H" in
      destruct (in_dec app.key_dec k s) as [H | H];
      unfold app.subset_aadhaar, app.subset_mobile, app.subset_both in H;
      cbn [In] in H;
      [ try (exfalso;
             repeat match goal with
                    | X : _ \/ _ |- _ => destruct X
                    | X : False |- _ => destruct X
                    | X : _ :: _ = _ :: _ |- _ => injection X as X
                    end;
             congruence)
      | try (exfalso; apply H;
             repeat match goal with
                    | E : _ = _ |- _ => rewrite E
                    end;
             tauto) ]
  end.

(** C6.  In each of the three deduplicating modes the rows are taken in
    their original order; a row whose key (the cleaned Aadhaar digits in mode
    Aadhaar, the canonical mobile in mode Mobile, the pair of them in mode
    Aadhaar+Mobile) equals the key of a row already kept is dropped, any
    other row is kept after the rows kept so far; the kept keys are pairwise
    distinct and the number of dropped rows is reported.  For Aadhaar keys
    [A, B, A, C, B] in mode Aadhaar the kept rows are the first occurrences
    [A, B, C] and two duplicates are dropped, whatever the mobiles; the same
    holds of mobile keys in mode Mobile, whatever the Aadhaar digits.  In
    mode Aadhaar+Mobile a row that agrees with a kept row in one column only
    is kept, and a row that agrees in both is dropped. *)
Theorem C6_first_occurrence_wins (mode : app.DedupMode)
  (l : list app.Row) (r : app.Row) :
  mode <> app.DedupNone ->
  fst (app.dedup mode []) = [] /\
  ((exists r', In r' (fst (app.dedup mode l)) /\
               dedup_key mode r' = dedup_key mode r) ->
   fst (app.dedup mode (l ++ [r])%list) = fst (app.dedup mode l)) /\
  (~ (exists r', In r' (fst (app.dedup mode l)) /\
                 dedup_key mode r' = dedup_key mode r) ->
   fst (app.dedup mode (l ++ [r])%list)
   = (fst (app.dedup mode l) ++ [r])%list) /\
  NoDup (map (dedup_key mode) (fst (app.dedup mode l))) /\
  snd (app.dedup mode l)
  = List.length l - List.length (fst (app.dedup mode l)) /\
  (forall rA rB rA' rC rB' : app.Row,
     app.aadhaar_clean rA' = app.aadhaar_clean rA ->
     app.aadhaar_clean rB' = app.aadhaar_clean rB ->
     app.aadhaar_clean rA <> app.aadhaar_clean rB ->
     app.aadhaar_clean rA <> app.aadhaar_clean rC ->
     app.aadhaar_clean rB <> app.aadhaar_clean rC ->
     app.dedup app.DedupAadhaar [rA; rB; rA'; rC; rB']
     = ([rA; rB; rC], 2)) /\
  (forall rA rB rA' rC rB' : app.Row,
     app.mobile_e164 rA' = app.mobile_e164 rA ->
     app.mobile_e164 rB' = app.mobile_e164 rB ->
     app.mobile_e164 rA <> app.mobile_e164 rB ->
     app.mobile_e164 rA <> app.mobile_e164 rC ->
     app.mobile_e164 rB <> app.mobile_e164 rC ->
     app.dedup app.DedupMobile [rA; rB; rA'; rC; rB']
     = ([rA; rB; rC], 2)) /\
  (forall r1 r2 r3 r4 : app.Row,
     app.aadhaar_clean r2 = app.aadhaar_clean r1 ->
     app.mobile_e164 r2 <> app.mobile_e164 r1 ->
     app.aadhaar_clean r3 <> app.aadhaar_clean r1 ->
     app.mobile_e164 r3 = app.mobile_e164 r1 ->
     app.aadhaar_clean r4 = app.aadhaar_clean r1 ->
     app.mobile_e164 r4 = app.mobile_e164 r1 ->
     app.dedup app.DedupAadhaarMobile [r1; r2; r3; r4]
     = ([r1; r2; r3], 1)).
Proof.
  intros Hmode.
  rewrite !(dedup_as_drop_duplicates mode) by exact Hmode.
  cbn [fst snd]. unfold app.drop_duplicates.
  assert (Hseen : In (dedup_key mode r) (map (dedup_key mode) l ++ [])%list
                  <-> exists r', In r' (app.drop_duplicates_from
                                          (dedup_key mode) [] l) /\
                                 dedup_key mode r' = dedup_key mode r).
  { rewrite app_nil_r, <- in_keys_iff, from_keys. cbn [In]. tauto. }
  repeat split.
  - intros H. rewrite from_snoc.
    destruct (in_dec app.key_dec _ _) as [_ | N]; [reflexivity |].
    exfalso. apply N, Hseen, H.
  - intros H. rewrite from_snoc.
    destruct (in_dec app.key_dec _ _) as [Y | _]; [| reflexivity].
    exfalso. apply H, Hseen, Y.
  - apply from_NoDup.
  - intros rA rB rA' rC rB' EA EB AB AC BC.
    unfold app.dedup, app.drop_duplicates.
    repeat dedup_step. reflexivity.
  - intros rA rB rA' rC rB' EA EB AB AC BC.
    unfold app.dedup, app.drop_duplicates.
    repeat dedup_step. reflexivity.
  - intros r1 r2 r3 r4 A2 M2 A3 M3 A4 M4.
    unfold app.dedup, app.drop_duplicates.
    repeat dedup_step. reflexivity.
Qed.

Lemma C6_witness :
  app.dedup app.DedupAadhaar
    [row_with "A" "1"; row_with "B" "2"; row_with "A" "3";
     row_with "C" "4"; row_with "B" "5"]
  = ([row_with "A" "1"; row_with "B" "2"; row_with "C" "4"], 2).
Proof.
  apply (C6_first_occurrence_wins app.DedupAadhaar [] (row_with "A" "1"));
    simpl; congruence.
Defined.

(** C10.  In mode Aadhaar the rows whose cleaned Aadhaar text is empty
    share one key: the kept rows of that kind are the first of them in the
    input and no other, whatever their mobile texts, and each of the others
    is part of the reported number of dropped duplicates.  Mode Mobile does
    the same with the empty E.164 text.  A value without digits is cleaned to
    the empty text, and a mobile that is not valid has the empty E.164
    text. *)
Theorem C10_empty_key_collapses (l : list app.Row) :
  let no_a := fun r => app.aadhaar_clean r =? "" in
  let no_m := fun r => app.mobile_e164 r =? "" in
  (filter no_a (fst (app.dedup app.DedupAadhaar l))
   = firstn 1 (filter no_a l) /\
   app.count no_a l - app.count no_a (fst (app.dedup app.DedupAadhaar l))
   <= snd (app.dedup app.DedupAadhaar l)) /\
  (filter no_m (fst (app.dedup app.DedupMobile l))
   = firstn 1 (filter no_m l) /\
   app.count no_m l - app.count no_m (fst (app.dedup app.DedupMobile l))
   <= snd (app.dedup app.DedupMobile l)) /\
  (forall x : pyvalue,
     option_map ind_aadhaar.aadhaar (ind_aadhaar.validate_single x)
     = Some (normalize_digits x)) /\
  (forall (lib : phone.PhoneNumbers) (raw : pyvalue) (region : string),
     let o := phone.validate_single_phone raw region in
     if phone.valid o then phone.reason o = ""
     else phone.e164 o = "").
Proof.
  intros no_a no_m.
  assert (count_split : forall (q : app.Row -> bool) (l' : list app.Row),
             List.length l' = app.count q l'
                              + app.count (fun r => negb (q r)) l').
  { unfold app.count. induction l' as [|x l' IH]; simpl; [reflexivity |].
    destruct (q x); simpl; lia. }
  assert (dropped : forall subset (q : app.Row -> bool),
             app.count q l
             - app.count q (app.drop_duplicates_from subset [] l)
             <= List.length l
                - List.length (app.drop_duplicates_from subset [] l)).
  { intros subset q.
    pose proof (from_count_le subset (fun r => negb (q r)) l []).
    pose proof (from_count_le subset q l []).
    rewrite (count_split q l).
    rewrite (count_split q (app.drop_duplicates_from subset [] l)). lia. }
  repeat split.
  - cbn [app.dedup fst]. unfold app.drop_duplicates.
    rewrite (from_one_key app.subset_aadhaar no_a [""]); [reflexivity |].
    intros r. unfold no_a, app.subset_aadhaar. rewrite String.eqb_eq.
    split; congruence.
  - cbn [app.dedup fst snd]. apply dropped.
  - cbn [app.dedup fst]. unfold app.drop_duplicates.
    rewrite (from_one_key app.subset_mobile no_m [""]); [reflexivity |].
    intros r. unfold no_m, app.subset_mobile. rewrite String.eqb_eq.
    split; congruence.
  - cbn [app.dedup fst snd]. apply dropped.
  - apply validate_single_cleaned.
  - intros lib raw region. unfold phone.validate_single_phone.
    destruct (normalize_text raw =? ""); [reflexivity |].
    destruct (phone.parse _ _) as [num |]; [| reflexivity].
    destruct (phone.is_possible_number num); [| reflexivity].
    destruct (phone.is_valid_number num); [| reflexivity].
    destruct (phone.number_type num); reflexivity.
Qed.

(** ** The counters of a run *)

Section Counters.
Context {lib : phone.PhoneNumbers}.

Lemma mapM_length {A B} (f : A -> option B) (l : list A) : forall l',
  ind_aadhaar.mapM f l = Some l' -> List.length l' = List.length l.
Proof.
  induction l as [|x l IH]; simpl; intros l' H.
  - now inversion H.
  - destruct (f x); [| discriminate].
    destruct (ind_aadhaar.mapM f l) as [ys |]; [| discriminate].
    inversion H; subst. simpl. now rewrite (IH ys).
Qed.

Lemma validate_series_length (series : list pyvalue) rows :
  ind_aadhaar.validate_series series = Some rows ->
  List.length rows = List.length series.
Proof.
  unfold ind_aadhaar.validate_series.
  destruct (ind_aadhaar.mapM _ _) as [os |] eqn:E; [| discriminate].
  apply mapM_length in E. rewrite length_map in E.
  destruct os as [|o os]; [discriminate |].
  intros H. inversion H; subst. rewrite <- E. cbn [List.length map].
  now rewrite length_map.
Qed.

Lemma phone_validate_series_length (phone_series : list pyvalue)
  (region_series : list string) region rows :
  phone.validate_series phone_series region_series region = Some rows ->
  List.length rows
  = Nat.min (List.length phone_series) (List.length region_series).
Proof.
  unfold phone.validate_series.
  rewrite <- (length_combine phone_series region_series).
  rewrite <- (length_map
                (fun '(r, rr) =>
                   phone.validate_single_phone r (phone.str_or rr region))
                (combine phone_series region_series)).
  destruct (map _ (combine phone_series region_series)) as [|o os];
    [discriminate |].
  intros H. inversion H; subst. cbn [List.length map].
  now rewrite length_map.
Qed.

Lemma dedup_counts mode (l : list app.Row) :
  List.length l
  = List.length (fst (app.dedup mode l)) + snd (app.dedup mode l).
Proof.
  destruct mode; cbn [app.dedup fst snd]; [lia | | |];
    match goal with
    | |- context [app.drop_duplicates ?k l] =>
        pose proof (from_length_le k l [])
    end; unfold app.drop_duplicates; lia.
Qed.

(** What the counters of a finished run do satisfy: the rows of the upload
    are the remaining rows, the rows empty in both fields and the dropped
    duplicates; [processed] and [distinct_after] are one number. *)
Lemma run_counters region mode (df : list app.WorkRow) s :
  app.run region mode df = app.Done s ->
  app.total_rows s
  = app.processed s + app.dropped_all_empty s + app.dedup_applied s /\
  app.distinct_after s = app.processed s /\
  app.processed s = List.length (app.work s) /\
  app.overall_valid_column s = map app.overall_valid (app.work s).
Proof.
  unfold app.run.
  destruct (filter app.keep_mask df) as [|w0 ws] eqn:Ef; [discriminate |].
  destruct (ind_aadhaar.validate_series _) as [adf |] eqn:Ea; [| discriminate].
  apply validate_series_length in Ea. rewrite length_map in Ea.
  destruct (phone.validate_series _ _ _) as [pdf |] eqn:Ep; [| discriminate].
  apply phone_validate_series_length in Ep. rewrite !length_map in Ep.
  match goal with
  | |- context [app.dedup mode ?w1] =>
      pose proof (dedup_counts mode w1) as Hd;
      assert (Hl : List.length w1 = List.length (w0 :: ws));
      [| destruct (app.dedup mode w1) as [work2 applied] ]
  end.
  { rewrite length_map, !length_combine, Ea, Ep. lia. }
  intros H. inversion H; subst; clear H. cbn [fst snd] in Hd. simpl.
  repeat split.
  pose proof (filter_length_le app.keep_mask df) as Hf.
  rewrite Ef in Hf. rewrite Hl in Hd. simpl in Hd, Hf. lia.
Qed.

End Counters.

(** C3.  On a batch of two rows with the same Aadhaar number, in mode
    Aadhaar, the run reports 2 rows in the file, 1 processed, 1 distinct, no
    empty row and 1 duplicate: [processed] is taken after the duplicates are
    removed, so neither equation of the claim holds. *)
Theorem C3_counters_on_duplicate_batch (lib : phone.PhoneNumbers) :
  exists s,
    app.run "IN" app.DedupAadhaar duplicate_batch = app.Done s /\
    app.total_rows s = 2 /\ app.processed s = 1 /\
    app.distinct_after s = 1 /\
    app.dropped_all_empty s = 0 /\ app.dedup_applied s = 1 /\
    app.total_rows s <> app.processed s + app.dropped_all_empty s /\
    app.processed s <> app.distinct_after s + app.dedup_applied s.
Proof.
  eexists. split; [reflexivity |]. simpl. repeat split; discriminate.
Qed.

(** ** Slices *)

Lemma substring_all (s : string) : substring 0 (String.length s) s = s.
Proof. induction s as [|c s IH]; simpl; [reflexivity | now rewrite IH]. Qed.

Lemma substring_tail (s : string) : forall k,
  k <= String.length s ->
  exists pre, s = pre ++ substring k (String.length s - k) s /\
              String.length pre = k.
Proof.
  induction s as [|c s IH]; intros k Hk.
  - exists "". simpl in Hk. now replace k with 0 by lia.
  - destruct k as [|k].
    + exists "". rewrite Nat.sub_0_r, substring_all. now split.
    + simpl in Hk. destruct (IH k) as [pre [E L]]; [lia |].
      exists (String c pre). simpl. split; [now rewrite <- E | now rewrite L].
Qed.

Lemma substring_length (s : string) : forall k n,
  k + n <= String.length s -> String.length (substring k n s) = n.
Proof.
  induction s as [|c s IH]; intros k n H; simpl in H.
  - replace k with 0 by lia. replace n with 0 by lia. reflexivity.
  - destruct k as [|k]; simpl.
    + destruct n as [|n]; [reflexivity |]. simpl. rewrite IH; lia.
    + apply IH. lia.
Qed.

Lemma last_n_suffix n (s : string) :
  n <= String.length s ->
  (exists pre, s = pre ++ Py.last_n n s) /\ String.length (Py.last_n n s) = n.
Proof.
  intros H. unfold Py.last_n.
  destruct (substring_tail s (String.length s - n)) as [pre [E _]]; [lia |].
  replace (String.length s - (String.length s - n)) with n in E by lia.
  split; [now exists pre | apply substring_length; lia].
Qed.

Lemma substring_head (pre tail : string) n :
  String.length pre = Nat.min n (String.length (pre ++ tail)) ->
  substring 0 n (pre ++ tail) = pre.
Proof.
  revert n. induction pre as [|c pre IH]; intros n H; simpl in *.
  - destruct n as [|n]; [now destruct tail |].
    destruct tail; [reflexivity | simpl in H; lia].
  - destruct n as [|n]; [lia |]. rewrite IH; [reflexivity | lia].
Qed.

Lemma append_same_length (pre pre' a b : string) :
  pre ++ a = pre' ++ b -> String.length a = String.length b -> a = b.
Proof.
  intros E L.
  assert (Lp : String.length pre = String.length pre').
  { apply (f_equal String.length) in E. rewrite !length_append in E. lia. }
  revert pre' E Lp. induction pre as [|c pre IH]; intros [|c' pre'] E Lp;
    simpl in *; try discriminate; [exact E |].
  inversion E. eapply IH; eauto.
Qed.

Lemma last_chars_computed n (s suf : string) :
  last_chars n s suf ->
  (if (n <=? String.length s)%nat then Py.last_n n s else s) = suf.
Proof.
  intros [[pre E] L]. destruct (n <=? String.length s)%nat eqn:C.
  - apply Nat.leb_le in C.
    destruct (last_n_suffix n s C) as [[pre' E'] L'].
    apply (append_same_length pre' pre); [congruence | lia].
  - apply Nat.leb_gt in C.
    apply (append_same_length "" pre); [exact E | lia].
Qed.

(** ** Masking *)

(** C8, as stated, fails: without a digit the mask is the empty text, not
    the prefix [XXXX-XXXX-]; with fewer than four digits the blanks come
    before the digits, so the result is neither the digits as they are nor
    the digits padded on the right. *)
Lemma C8_counterexample :
  ind_aadhaar.mask_aadhaar (PyStr "") = "" /\
  ind_aadhaar.mask_aadhaar (PyStr "ab") = "" /\
  ind_aadhaar.mask_aadhaar (PyStr "12") = "XXXX-XXXX-  12" /\
  ind_aadhaar.mask_aadhaar (PyStr "12") <> "XXXX-XXXX-12" /\
  ind_aadhaar.mask_aadhaar (PyStr "12") <> "XXXX-XXXX-12  ".
Proof. repeat split; discriminate. Qed.

(** C8, amended.  [mask_aadhaar] raises nothing.  On an input without
    digits it answers the empty text.  Otherwise it answers [XXXX-XXXX-]
    followed by the last four characters of the digit text, or, when there
    are fewer than four digits, by blanks and then the digits, four
    characters in all.  The mask of [234123412346] is [XXXX-XXXX-2346]. *)
Theorem C8_mask_aadhaar_last4 (x : pyvalue) :
  let digits := normalize_digits x in
  (digits = "" -> ind_aadhaar.mask_aadhaar x = "") /\
  (4 <= String.length digits ->
   exists pre last4,
     digits = pre ++ last4 /\ String.length last4 = 4 /\
     ind_aadhaar.mask_aadhaar x = "XXXX-XXXX-" ++ last4) /\
  (0 < String.length digits < 4 ->
   ind_aadhaar.mask_aadhaar x
   = "XXXX-XXXX-" ++ Py.spaces (4 - String.length digits) ++ digits) /\
  ind_aadhaar.mask_aadhaar (PyStr "234123412346") = "XXXX-XXXX-2346".
Proof.
  intros digits. unfold ind_aadhaar.mask_aadhaar. fold digits.
  repeat split.
  - intros ->. reflexivity.
  - intros H. destruct (last_n_suffix 4 digits H) as [[pre E] L].
    exists pre, (Py.last_n 4 digits). repeat split; trivial.
    destruct digits; [simpl in H; lia |]. cbn [Py.is_empty].
    apply Nat.leb_le in H. rewrite H. unfold Py.fmt_right. now rewrite L.
  - intros [H1 H2]. destruct digits; [simpl in H1; lia |].
    cbn [Py.is_empty].
    replace (4 <=? _)%nat with false by (symmetry; apply Nat.leb_gt; lia).
    reflexivity.
Qed.

Lemma C8_witness :
  exists pre last4,
    normalize_digits (PyStr "98-76 54") = pre ++ last4 /\
    String.length last4 = 4 /\
    ind_aadhaar.mask_aadhaar (PyStr "98-76 54") = "XXXX-XXXX-" ++ last4.
Proof.
  apply (proj1 (proj2 (C8_mask_aadhaar_last4 (PyStr "98-76 54")))).
  simpl. lia.
Defined.

(** *** What [E164_RE_match] accepts *)

Lemma chomp_lf_spec (s : string) :
  exists nl, (nl = "" \/ nl = String "010" "") /\ s = phone.chomp_lf s ++ nl.
Proof.
  induction s as [|c s IH]; [exists ""; now split; [left |] |].
  destruct s as [|c' s].
  - cbn [phone.chomp_lf]. destruct (Ascii.eqb c "010") eqn:E.
    + apply Ascii.eqb_eq in E. subst c. exists (String "010" "").
      split; [now right | reflexivity].
    + exists "". split; [now left | reflexivity].
  - destruct IH as [nl [Hnl E]]. exists nl. split; [exact Hnl |].
    change (phone.chomp_lf (String c (String c' s)))
      with (String c (phone.chomp_lf (String c' s))).
    change (String c (phone.chomp_lf (String c' s)) ++ nl)
      with (String c (phone.chomp_lf (String c' s) ++ nl)).
    now rewrite <- E.
Qed.

Lemma chomp_lf_decimal (ds nl : string) :
  ds <> "" -> Py.forallb_str Py.is_decimal ds = true ->
  nl = "" \/ nl = String "010" "" ->
  phone.chomp_lf (ds ++ nl) = ds.
Proof.
  intros Hne Hd Hnl. induction ds as [|c ds IH]; [congruence |].
  simpl in Hd. apply andb_true_iff in Hd as [Hc Hd].
  destruct ds as [|c' ds].
  - destruct Hnl as [-> | ->]; cbn.
    + destruct (Ascii.eqb c "010") eqn:E; [| reflexivity].
      apply Ascii.eqb_eq in E. subst c. discriminate Hc.
    + reflexivity.
  - change (phone.chomp_lf ((String c (String c' ds)) ++ nl))
      with (String c (phone.chomp_lf (String c' ds ++ nl))).
    rewrite IH; [reflexivity | discriminate | exact Hd].
Qed.

Lemma substring_split (s : string) : forall a i j,
  substring a (i + j) s = substring a i s ++ substring (a + i) j s.
Proof.
  induction s as [|c s IH]; intros a i j.
  - destruct a, i, j; reflexivity.
  - destruct a as [|a].
    + destruct i as [|i]; [reflexivity |].
      cbn [Nat.add substring append]. now rewrite (IH 0 i j).
    + cbn [Nat.add substring]. apply IH.
Qed.

(** A match splits the text into the plus sign, four groups of digits of
    1 to 3, 3, 3 and 1 or more characters, the first as long as the others
    allow, and possibly a final line feed. *)
Lemma E164_RE_match_sound (e164 cc a b rest : string) :
  phone.E164_RE_match e164 = Some (cc, a, b, rest) ->
  exists nl,
    (nl = "" \/ nl = String "010" "") /\
    e164 = "+" ++ (cc ++ a ++ b ++ rest) ++ nl /\
    Py.forallb_str Py.is_decimal (cc ++ a ++ b ++ rest) = true /\
    String.length cc
    = Nat.min 3 (String.length (cc ++ a ++ b ++ rest) - 7) /\
    1 <= String.length cc /\
    String.length a = 3 /\ String.length b = 3 /\ 1 <= String.length rest.
Proof.
  unfold phone.E164_RE_match.
  destruct e164 as [|c0 body]; [discriminate |].
  destruct (Ascii.eqb c0 "+") eqn:Ec;
    [apply Ascii.eqb_eq in Ec; subst c0
    | apply Ascii.eqb_neq in Ec;
      destruct c0 as [[] [] [] [] [] [] [] []]; try discriminate; congruence].
  destruct (chomp_lf_spec body) as [nl [Hnl Eb]].
  set (ds := phone.chomp_lf body) in *.
  set (n := String.length ds).
  destruct (Py.forallb_str Py.is_decimal ds) eqn:Hd; [| discriminate].
  destruct (8 <=? n)%nat eqn:Hn; [| discriminate].
  apply Nat.leb_le in Hn. cbn [andb].
  set (k := Nat.min 3 (n - 7)).
  intros H. inversion H; subst cc a b rest; clear H.
  assert (Eds : substring 0 k ds ++ substring k 3 ds
                ++ substring (k + 3) 3 ds
                ++ substring (k + 6) (n - (k + 6)) ds = ds).
  { pose proof (substring_split ds (k + 3) 3 (n - (k + 6))) as E3.
    replace (k + 3 + 3) with (k + 6) in E3 by lia.
    pose proof (substring_split ds k 3 (3 + (n - (k + 6)))) as E2.
    pose proof (substring_split ds 0 k (3 + (3 + (n - (k + 6))))) as E1.
    change (0 + k) with k in E1.
    rewrite <- E3, <- E2, <- E1.
    replace (k + (3 + (3 + (n - (k + 6))))) with n by (unfold k; lia).
    apply substring_all. }
  exists nl. rewrite Eds. repeat split; trivial.
  - simpl. now rewrite <- Eb.
  - rewrite substring_length by (unfold k; fold n; lia). reflexivity.
  - rewrite substring_length by (unfold k; fold n; lia). unfold k. lia.
  - apply substring_length. unfold k. fold n. lia.
  - apply substring_length. unfold k. fold n. lia.
  - rewrite substring_length by (unfold k; fold n; lia). unfold k. lia.
Qed.

(** Every text of that shape is matched. *)
Lemma E164_RE_match_complete (ds nl : string) :
  Py.forallb_str Py.is_decimal ds = true -> 8 <= String.length ds ->
  nl = "" \/ nl = String "010" "" ->
  phone.E164_RE_match ("+" ++ ds ++ nl) <> None.
Proof.
  intros Hd Hn Hnl. unfold phone.E164_RE_match. cbn [append].
  rewrite (chomp_lf_decimal ds nl); trivial.
  - rewrite Hd. apply Nat.leb_le in Hn. rewrite Hn. discriminate.
  - destruct ds; [simpl in Hn; lia | discriminate].
Qed.

(** C7, as stated, fails: a nonempty text that does not start with a plus
    sign is masked to the empty text, not to [***-***-] and its last four
    digits. *)
Lemma C7_counterexample :
  phone.E164_RE_match "9876543210" = None /\
  phone.mask_e164 "9876543210" = "" /\
  phone.mask_e164 "9876543210" <> "***-***-3210" /\
  phone.mask_e164 "91 98765 43210" = "".
Proof. repeat split; discriminate. Qed.

(** C7, amended.  [mask_e164] raises nothing.  The empty text and every
    text that does not start with a plus sign are masked to the empty text.
    A text that starts with a plus sign and does not match [E164_RE] is
    masked, with [cc] the up to three characters after the plus sign and
    [last4] the last four digits of the text (all of them when fewer), to
    [+cc-****-****-last4] when [cc] is nonempty and all digits, and to
    [***-***-last4] otherwise. *)
Theorem C7_mask_e164_fallback (e164 : string) :
  phone.mask_e164 "" = "" /\
  (Py.startswith_char "+" e164 = false -> phone.mask_e164 e164 = "") /\
  (forall body cc last4,
     e164 = String "+" body ->
     phone.E164_RE_match e164 = None ->
     first_chars 3 body cc ->
     last_chars 4 (Py.sub_nondigits e164) last4 ->
     phone.mask_e164 e164
     = if Py.isdigit cc then "+" ++ cc ++ "-****-****-" ++ last4
       else "***-***-" ++ last4).
Proof.
  split; [reflexivity |]. split.
  - intros H. unfold phone.mask_e164. rewrite H. simpl.
    now rewrite orb_true_r.
  - intros body cc last4 -> Hre [[tail Eb] Lc] Hl.
    unfold phone.mask_e164. rewrite Hre.
    rewrite (last_chars_computed _ _ _ Hl).
    assert (Hs : Py.slice 1 4 (String "+" body) = cc).
    { unfold Py.slice. simpl. rewrite Eb. apply substring_head.
      now rewrite <- Eb. }
    rewrite Hs. simpl.
    destruct (Py.isdigit cc) eqn:D; [| reflexivity].
    destruct cc; [discriminate | reflexivity].
Qed.

Lemma C7_witness :
  phone.mask_e164 "+1202555" = "+120-****-****-2555".
Proof.
  apply (proj2 (proj2 (C7_mask_e164_fallback "+1202555"))
           "1202555" "120" "2555"); try reflexivity.
  - split; [now exists "2555" | reflexivity].
  - split; [now exists "120" | reflexivity].
Defined.

(** ** Sequential runs *)

Lemma steps_short delta k (t : string) :
  String.length t < k -> steps delta k t = false.
Proof.
  revert t. induction k as [|k IH]; intros t H; [lia |].
  destruct t as [|c t]; [reflexivity |]. simpl in H.
  cbn [steps]. rewrite (IH t) by lia. apply andb_false_r.
Qed.

Lemma steps_cons2 delta k a b (t : string) :
  steps delta (S (S k)) (String a (String b t))
  = Py.is_decimal a && (ord48 b =? ord48 a + delta)%Z
    && steps delta (S k) (String b t).
Proof. reflexivity. Qed.

Lemma steps_decimal delta k c (t : string) :
  steps delta (S k) (String c t) = true -> Py.is_decimal c = true.
Proof.
  cbn [steps]. rewrite !andb_true_iff. tauto.
Qed.

Lemma steps_shorter delta k (t : string) : forall k',
  k' <= k -> steps delta k t = true -> steps delta k' t = true.
Proof.
  revert t. induction k as [|k IH]; intros t k' Hk H.
  - now replace k' with 0 by lia.
  - destruct k' as [|k']; [reflexivity |].
    destruct t as [|c t]; [discriminate |].
    cbn [steps] in H |- *. rewrite !andb_true_iff in H |- *.
    destruct H as [[H1 H2] H3]. repeat split; trivial.
    + destruct k' as [|k']; [reflexivity |].
      destruct k as [|k]; [lia |]. exact H2.
    + apply (IH t k'); [lia | exact H3].
Qed.

Lemma steps_append delta k (t u : string) :
  steps delta k t = true -> steps delta k (t ++ u) = true.
Proof.
  revert t. induction k as [|k IH]; intros t H; [reflexivity |].
  destruct t as [|c t]; [discriminate |].
  cbn [steps] in H. rewrite !andb_true_iff in H. destruct H as [[H1 H2] H3].
  change (String c t ++ u) with (String c (t ++ u)).
  cbn [steps]. rewrite H1, (IH t H3), andb_true_r. cbn [andb].
  destruct k as [|k]; [reflexivity |].
  destruct t as [|c' t]; [discriminate | exact H2].
Qed.

Lemma steps_prefix delta k (t : string) :
  steps delta k t = true ->
  exists run post, t = run ++ post /\ String.length run = k /\
                   steps delta k run = true.
Proof.
  revert t. induction k as [|k IH]; intros t H.
  - exists "", t. now repeat split.
  - destruct t as [|c t]; [discriminate |].
    cbn [steps] in H. rewrite !andb_true_iff in H. destruct H as [[H1 H2] H3].
    destruct (IH t H3) as [run [post [E [L S']]]].
    exists (String c run), post. subst t. repeat split.
    + simpl. now rewrite L.
    + cbn [steps]. rewrite H1, S', andb_true_r. cbn [andb].
      destruct k as [|k]; [reflexivity |].
      destruct run as [|c' run]; [discriminate | exact H2].
Qed.

Lemma window_run_short n (s : string) :
  String.length s < n -> window_run n s = false.
Proof.
  induction s as [|c s IH]; intros H; cbn [window_run]; unfold run_at;
    rewrite !steps_short by exact H; [reflexivity |].
  simpl in H. apply IH. lia.
Qed.

Lemma window_run_iff n (s : string) : window_run n s = true <-> has_run n s.
Proof.
  split.
  - induction s as [|c s IH]; cbn [window_run]; rewrite orb_true_iff.
    + intros [H | H]; [| discriminate].
      unfold run_at in H. apply orb_true_iff in H.
      destruct n as [|n]; [| destruct H; discriminate].
      exists "", "", "". repeat split; [lia | now left].
    + intros [H | H].
      * unfold run_at in H. apply orb_true_iff in H.
        destruct H as [H | H]; destruct (steps_prefix _ _ _ H)
          as [run [post [E [L R]]]]; exists "", run, post;
          (repeat split; [exact E | lia |]); rewrite <- L in R;
          [now left | now right].
      * destruct (IH H) as [pre [run [post [E [L R]]]]].
        exists (String c pre), run, post. subst s. now repeat split.
  - intros [pre [run [post [E [L R]]]]]. subst s.
    induction pre as [|c pre IH].
    + assert (W : run_at n (run ++ post) = true).
      { unfold run_at. apply orb_true_iff.
        destruct R as [R | R]; [left | right];
          apply steps_append, (steps_shorter _ _ _ n L R). }
      simpl append. destruct (run ++ post); cbn [window_run]; now rewrite W.
    + change (String c pre ++ run ++ post)
        with (String c (pre ++ run ++ post)).
      cbn [window_run]. rewrite IH. apply orb_true_r.
Qed.

Lemma Zgeb_false (a b : Z) : (a < b)%Z -> (a >=? b)%Z = false.
Proof. intros H. rewrite Z.geb_leb. now apply Z.leb_gt. Qed.

Lemma in_0_9_decimal c : in_0_9 (ord48 c) = Py.is_decimal c.
Proof.
  unfold in_0_9, ord48, Py.is_decimal. apply eq_true_iff_eq.
  rewrite !andb_true_iff, !Z.leb_le, !N.leb_le.
  generalize (N_of_ascii c). intros m. lia.
Qed.

Lemma steps_up_cons k a b (t : string) :
  2 <= k ->
  steps 1 k (String a (String b t))
  = Py.is_decimal a && (ord48 b =? ord48 a + 1)%Z
    && steps 1 (k - 1) (String b t).
Proof.
  intros H. destruct k as [|[|k]]; [lia | lia |]. reflexivity.
Qed.

Lemma steps_down_cons k a b (t : string) :
  2 <= k ->
  steps (-1) k (String a (String b t))
  = Py.is_decimal a && (ord48 b =? ord48 a - 1)%Z
    && steps (-1) (k - 1) (String b t).
Proof.
  intros H. destruct k as [|[|k]]; [lia | lia |]. reflexivity.
Qed.

Lemma steps_head_decimal delta k c (t : string) :
  1 <= k -> Py.is_decimal c = false -> steps delta k (String c t) = false.
Proof.
  intros H D. destruct k as [|k]; [lia |]. cbn [steps]. now rewrite D.
Qed.

Lemma window_run_cons n a (s : string) :
  window_run n (String a s) = run_at n (String a s) || window_run n s.
Proof. reflexivity. Qed.

Lemma window_of_steps delta n (s : string) :
  delta = 1%Z \/ delta = (-1)%Z ->
  steps delta n s = true -> window_run n s = true.
Proof.
  intros D H.
  assert (W : run_at n s = true)
    by (unfold run_at; destruct D; subst; rewrite H;
        [reflexivity | apply orb_true_r]).
  destruct s; cbn [window_run]; now rewrite W.
Qed.

(** The loop, entered at [prev] with an ascending run of [u] digits and a
    descending run of [d] digits ending there, answers [true] exactly when a
    window of [n] characters lies ahead or one of the two runs grows to
    [n]. *)
Lemma sequential_loop_spec n (rest : string) :
  2 <= n ->
  forall prev u d,
    1 <= u < n -> 1 <= d < n ->
    sequential_loop (Z.of_nat n) prev (Z.of_nat u) (Z.of_nat d) rest
    = window_run n (String prev rest)
      || steps 1 (S n - u) (String prev rest)
      || steps (-1) (S n - d) (String prev rest).
Proof.
  intros Hn. induction rest as [|c rest IH]; intros prev u d Hu Hd.
  - cbn [sequential_loop].
    rewrite window_run_short, !steps_short by (cbn [String.length]; lia).
    reflexivity.
  - assert (Reset :
      sequential_loop (Z.of_nat n) c 1 1 rest = window_run n (String c rest)).
    { pose proof (IH c 1 1 ltac:(lia) ltac:(lia)) as R.
      change (Z.of_nat 1) with 1%Z in R. rewrite R.
      replace (S n - 1) with n by lia.
      pose proof (window_of_steps 1 n (String c rest) (or_introl eq_refl)).
      pose proof (window_of_steps (-1) n (String c rest) (or_intror eq_refl)).
      destruct (steps 1 n (String c rest)), (steps (-1) n (String c rest)),
        (window_run n (String c rest)); simpl; auto;
        try (symmetry; auto). }
    cbn [sequential_loop]. rewrite !in_0_9_decimal.
    rewrite (window_run_cons n prev). unfold run_at.
    rewrite !steps_up_cons, !steps_down_cons by lia.
    destruct (Py.is_decimal c) eqn:Dc; cbn [andb].
    2: { rewrite Reset, !(steps_head_decimal _ _ c) by (trivial; lia).
         rewrite !andb_false_r. cbn [orb]. now rewrite !orb_false_r. }
    destruct (Py.is_decimal prev) eqn:Dp; cbn [andb].
    2: { rewrite Reset. cbn [orb]. now rewrite !orb_false_r. }
    destruct (ord48 c =? ord48 prev + 1)%Z eqn:E1.
    + assert (E2 : (ord48 c =? ord48 prev - 1)%Z = false)
        by (apply Z.eqb_eq in E1; apply Z.eqb_neq; lia).
      rewrite E2. cbn [andb orb].
      replace (1 >=? Z.of_nat n)%Z with false
        by (symmetry; apply Zgeb_false; lia).
      rewrite orb_false_r.
      destruct (Z.of_nat u + 1 >=? Z.of_nat n)%Z eqn:G.
      * apply Z.geb_le in G. replace (S n - u - 1) with 1 by lia.
        cbn [steps]. rewrite Dc. cbn [andb]. now rewrite orb_true_r.
      * rewrite Z.geb_leb in G. apply Z.leb_gt in G.
        pose proof (IH c (S u) 1 ltac:(lia) ltac:(lia)) as R.
        replace (Z.of_nat (S u)) with (Z.of_nat u + 1)%Z in R by lia.
        change (Z.of_nat 1) with 1%Z in R. rewrite R.
        replace (S n - 1) with n by lia.
        replace (S n - S u) with (n - u) by lia.
        replace (S n - u - 1) with (n - u) by lia.
        pose proof (steps_shorter 1 (n - 1) (String c rest) (n - u)
                      ltac:(lia)) as F1.
        pose proof (window_of_steps (-1) n (String c rest)
                      (or_intror eq_refl)) as F2.
        destruct (steps 1 (n - 1) (String c rest)),
          (steps 1 (n - u) (String c rest)),
          (steps (-1) n (String c rest)),
          (window_run n (String c rest)); simpl; auto;
          try (symmetry; auto);
          solve [discriminate (F1 eq_refl) | discriminate (F2 eq_refl)].
    + cbn [andb orb].
      destruct (ord48 c =? ord48 prev - 1)%Z eqn:E2; cbn [andb orb].
      * replace (1 >=? Z.of_nat n)%Z with false
          by (symmetry; apply Zgeb_false; lia).
        cbn [orb].
        destruct (Z.of_nat d + 1 >=? Z.of_nat n)%Z eqn:G.
        -- apply Z.geb_le in G. replace (S n - d - 1) with 1 by lia.
           cbn [steps]. rewrite Dc. cbn [andb]. now rewrite !orb_true_r.
        -- rewrite Z.geb_leb in G. apply Z.leb_gt in G.
           pose proof (IH c 1 (S d) ltac:(lia) ltac:(lia)) as R.
           replace (Z.of_nat (S d)) with (Z.of_nat d + 1)%Z in R by lia.
           change (Z.of_nat 1) with 1%Z in R. rewrite R.
           replace (S n - 1) with n by lia.
           replace (S n - S d) with (n - d) by lia.
           replace (S n - d - 1) with (n - d) by lia.
           pose proof (steps_shorter (-1) (n - 1) (String c rest) (n - d)
                         ltac:(lia)) as F1.
           pose proof (window_of_steps 1 n (String c rest)
                         (or_introl eq_refl)) as F2.
           destruct (steps (-1) (n - 1) (String c rest)),
             (steps (-1) (n - d) (String c rest)),
             (steps 1 n (String c rest)),
             (window_run n (String c rest)); simpl; auto;
             try (symmetry; auto);
          solve [discriminate (F1 eq_refl) | discriminate (F2 eq_refl)].
      * replace (1 >=? Z.of_nat n)%Z with false
          by (symmetry; apply Zgeb_false; lia).
        cbn [orb]. rewrite Reset. now rewrite !orb_false_r.
Qed.

(** From two on, the inner function looks for a window of [min_run]
    characters in the text it is given, where a non-digit ends a run. *)
Lemma has_sequential_run_digits_window (seq : string) (min_run : Z) :
  (2 <= min_run)%Z ->
  _has_sequential_run_digits seq min_run
  = window_run (Z.to_nat min_run) seq.
Proof.
  intros Hm. set (n := Z.to_nat min_run).
  assert (Hn : 2 <= n) by (unfold n; lia).
  replace min_run with (Z.of_nat n) by (unfold n; lia).
  unfold _has_sequential_run_digits.
  destruct (Z.of_nat (String.length seq) <? Z.of_nat n)%Z eqn:L.
  - apply Z.ltb_lt in L. symmetry. apply window_run_short. lia.
  - apply Z.ltb_ge in L. destruct seq as [|c0 rest]; [simpl in L; lia |].
    pose proof (sequential_loop_spec n rest Hn c0 1 1 ltac:(lia) ltac:(lia))
      as R.
    change (Z.of_nat 1) with 1%Z in R. rewrite R.
    replace (S n - 1) with n by lia.
    pose proof (window_of_steps 1 n (String c0 rest) (or_introl eq_refl))
      as F1.
    pose proof (window_of_steps (-1) n (String c0 rest) (or_intror eq_refl))
      as F2.
    destruct (steps 1 n (String c0 rest)), (steps (-1) n (String c0 rest)),
      (window_run n (String c0 rest)); simpl; auto;
      solve [discriminate (F1 eq_refl) | discriminate (F2 eq_refl)].
Qed.

(** ** Runs of digits in text of any characters *)

Lemma digit_0_9_lt (c : N) : digit_0_9 c = true -> (48 <= c <= 57)%N.
Proof. unfold digit_0_9. rewrite andb_true_iff, !N.leb_le. tauto. Qed.

Lemma in_0_9_digit (c : N) : in_0_9 (unicode.ord48 c) = digit_0_9 c.
Proof.
  unfold in_0_9, unicode.ord48, digit_0_9.
  destruct (48 <=? c)%N eqn:A, (c <=? 57)%N eqn:B;
    rewrite ?N.leb_le, ?N.leb_gt in *;
    [ apply andb_true_iff; split; apply Z.leb_le; lia
    | apply andb_false_iff; right; apply Z.leb_gt; lia
    | apply andb_false_iff; left; apply Z.leb_gt; lia
    | apply andb_false_iff; left; apply Z.leb_gt; lia ].
Qed.

Lemma squash_digit (c : N) :
  digit_0_9 c = true -> N_of_ascii (squash c) = c.
Proof.
  intros H. unfold squash. rewrite H.
  apply digit_0_9_lt in H. apply N_ascii_embedding. lia.
Qed.

Lemma squash_decimal (c : N) : Py.is_decimal (squash c) = digit_0_9 c.
Proof.
  destruct (digit_0_9 c) eqn:H.
  - unfold Py.is_decimal. rewrite (squash_digit c H). exact H.
  - unfold squash. rewrite H. reflexivity.
Qed.

Lemma squash_ord48 (c : N) :
  digit_0_9 c = true -> ord48 (squash c) = unicode.ord48 c.
Proof.
  intros H. unfold ord48, unicode.ord48. now rewrite (squash_digit c H).
Qed.

Lemma squash_in_0_9 (c : N) :
  in_0_9 (ord48 (squash c)) = in_0_9 (unicode.ord48 c).
Proof.
  rewrite in_0_9_digit. destruct (digit_0_9 c) eqn:H.
  - rewrite (squash_ord48 c H), in_0_9_digit. exact H.
  - unfold squash. rewrite H. reflexivity.
Qed.

Lemma squash_text_length (t : unicode.text) :
  String.length (squash_text t) = List.length t.
Proof. induction t as [|c t IH]; [reflexivity | simpl; now rewrite IH]. Qed.

Lemma squash_text_app (a b : unicode.text) :
  squash_text (a ++ b)%list = squash_text a ++ squash_text b.
Proof. induction a as [|c a IH]; [reflexivity | simpl; now rewrite IH]. Qed.

Lemma squash_text_split (t : unicode.text) (a b : string) :
  squash_text t = a ++ b ->
  exists a' b', t = (a' ++ b')%list /\ squash_text a' = a /\ squash_text b' = b.
Proof.
  revert t. induction a as [|c a IH]; intros t E.
  - exists [], t. simpl in E. repeat split; assumption.
  - destruct t as [|c' t]; [discriminate |].
    simpl in E. injection E as Ec E.
    destruct (IH t E) as [a' [b' [Et [Ea Eb]]]].
    exists (c' :: a'), b'. subst. repeat split.
Qed.

(** The loop on a text is the loop on its digits [0] to [9] with the other
    characters made one letter. *)
Lemma sequential_loop_squash (min_run : Z) (rest : unicode.text) :
  forall prev ru rd,
    unicode.sequential_loop min_run prev ru rd rest
    = sequential_loop min_run (squash prev) ru rd (squash_text rest).
Proof.
  induction rest as [|c rest IH]; intros prev ru rd; [reflexivity |].
  cbn [unicode.sequential_loop squash_text sequential_loop].
  rewrite !squash_in_0_9, !in_0_9_digit.
  destruct (digit_0_9 c) eqn:Dc; [| cbn [andb]; apply IH].
  destruct (digit_0_9 prev) eqn:Dp; [| cbn [andb]; apply IH].
  cbn [andb]. rewrite (squash_ord48 c Dc), (squash_ord48 prev Dp).
  destruct (unicode.ord48 c =? unicode.ord48 prev + 1)%Z;
    [| destruct (unicode.ord48 c =? unicode.ord48 prev - 1)%Z];
    rewrite IH; reflexivity.
Qed.

Lemma has_sequential_run_digits_squash (seq : unicode.text) (min_run : Z) :
  unicode._has_sequential_run_digits seq min_run
  = _has_sequential_run_digits (squash_text seq) min_run.
Proof.
  unfold unicode._has_sequential_run_digits, _has_sequential_run_digits.
  rewrite squash_text_length.
  destruct (Z.of_nat (List.length seq) <? min_run)%Z; [reflexivity |].
  destruct seq as [|c0 rest]; [reflexivity |].
  apply sequential_loop_squash.
Qed.

Lemma digit_steps_head delta k c (t : unicode.text) :
  digit_0_9 c = false -> digit_steps delta (S k) (c :: t) = false.
Proof. intros D. cbn [digit_steps]. now rewrite D. Qed.

Lemma steps_squash delta k (t : unicode.text) :
  steps delta k (squash_text t) = digit_steps delta k t.
Proof.
  revert t. induction k as [|k IH]; intros t; [reflexivity |].
  destruct t as [|c t]; [reflexivity |].
  cbn [squash_text steps digit_steps].
  rewrite IH, squash_decimal.
  destruct (digit_0_9 c) eqn:Dc; [| reflexivity]. cbn [andb].
  destruct k as [|k]; [reflexivity |].
  destruct t as [|c' t]; [reflexivity |].
  cbn [squash_text].
  destruct (digit_0_9 c') eqn:Dc'.
  - rewrite (squash_ord48 c Dc), (squash_ord48 c' Dc'). reflexivity.
  - rewrite (digit_steps_head delta k c' t Dc'). now rewrite !andb_false_r.
Qed.

Lemma holds_run_squash n (d : unicode.text) :
  holds_run n d <-> has_run n (squash_text d).
Proof.
  split.
  - intros [pre [run [post [E [L R]]]]].
    exists (squash_text pre), (squash_text run), (squash_text post).
    subst d. rewrite !squash_text_app.
    split; [reflexivity |]. split; [now rewrite squash_text_length |].
    unfold is_run. rewrite squash_text_length, !steps_squash. exact R.
  - intros [pre [run [post [E [L R]]]]].
    destruct (squash_text_split d pre (run ++ post) E)
      as [pre' [rest [Ed [Ep Er]]]].
    destruct (squash_text_split rest run post Er)
      as [run' [post' [Er' [Erun Epost]]]].
    exists pre', run', post'. subst d rest run.
    split; [reflexivity |].
    rewrite squash_text_length in L. split; [exact L |].
    unfold is_run in R. rewrite squash_text_length, !steps_squash in R.
    exact R.
Qed.

Lemma digit_pair_iff (d : unicode.text) :
  digit_pair d = true <-> holds_digit_pair d.
Proof.
  split.
  - induction d as [|a d IH]; [discriminate |].
    destruct d as [|b d]; [discriminate |].
    cbn [digit_pair]. rewrite orb_true_iff, andb_true_iff.
    intros [[Da Db] | H].
    + exists [], a, b, d. repeat split; assumption.
    + destruct (IH H) as [pre [x [y [post [E [Dx Dy]]]]]].
      exists (a :: pre), x, y, post. rewrite E. repeat split; assumption.
  - intros [pre [a [b [post [E [Da Db]]]]]]. subst d.
    induction pre as [|c pre IH].
    + cbn [List.app digit_pair]. now rewrite Da, Db.
    + cbn [List.app]. destruct (pre ++ a :: b :: post)%list as [|x t] eqn:E;
        [destruct pre; discriminate |].
      cbn [digit_pair]. cbn [digit_pair] in IH. rewrite IH. apply orb_true_r.
Qed.

(** With [min_run] at most one the loop stops at the first two neighbouring
    digits [0] to [9]. *)
Lemma sequential_loop_small (min_run : Z) (rest : unicode.text) :
  (min_run <= 1)%Z ->
  forall prev ru rd,
    unicode.sequential_loop min_run prev ru rd rest
    = digit_pair (prev :: rest).
Proof.
  intros Hm. induction rest as [|c rest IH]; intros prev ru rd;
    [reflexivity |].
  cbn [unicode.sequential_loop]. rewrite !in_0_9_digit.
  change (digit_pair (prev :: c :: rest))
    with ((digit_0_9 prev && digit_0_9 c) || digit_pair (c :: rest)).
  destruct (digit_0_9 c) eqn:Dc; destruct (digit_0_9 prev) eqn:Dp;
    cbn [andb orb]; try apply IH.
  destruct (unicode.ord48 c =? unicode.ord48 prev + 1)%Z;
    [| destruct (unicode.ord48 c =? unicode.ord48 prev - 1)%Z];
    match goal with
    | |- (if (?a >=? _)%Z || (?b >=? _)%Z then _ else _) = _ =>
        first [ replace (b >=? min_run)%Z with true
                  by (symmetry; apply Z.geb_le; lia)
              | replace (a >=? min_run)%Z with true
                  by (symmetry; apply Z.geb_le; lia) ]
    end; rewrite ?orb_true_r; reflexivity.
Qed.

Lemma digit_pair_length (d : unicode.text) :
  digit_pair d = true -> 2 <= List.length d.
Proof.
  destruct d as [|a [|b d]]; [discriminate | discriminate | simpl; lia].
Qed.

Lemma has_sequential_run_digits_pair (seq : unicode.text) (min_run : Z) :
  (min_run <= 1)%Z ->
  unicode._has_sequential_run_digits seq min_run = digit_pair seq.
Proof.
  intros Hm. unfold unicode._has_sequential_run_digits.
  destruct (Z.of_nat (List.length seq) <? min_run)%Z eqn:L.
  - apply Z.ltb_lt in L. destruct seq as [|a [|b t]]; try reflexivity.
    simpl List.length in L. lia.
  - destruct seq as [|c0 rest]; [reflexivity |].
    now apply sequential_loop_small.
Qed.

Lemma has_sequential_run_digits_run (seq : unicode.text) (min_run : Z) :
  (2 <= min_run)%Z ->
  unicode._has_sequential_run_digits seq min_run = true
  <-> holds_run (Z.to_nat min_run) seq.
Proof.
  intros Hm.
  rewrite has_sequential_run_digits_squash,
    has_sequential_run_digits_window by exact Hm.
  now rewrite window_run_iff, holds_run_squash.
Qed.

Lemma digit_steps_two delta k a b (t : unicode.text) :
  digit_steps delta (S (S k)) (a :: b :: t) = true ->
  digit_0_9 a = true /\ digit_0_9 b = true.
Proof.
  cbn [digit_steps]. rewrite !andb_true_iff. tauto.
Qed.

Lemma holds_run_pair n (d : unicode.text) :
  2 <= n -> holds_run n d -> holds_digit_pair d.
Proof.
  intros Hn [pre [run [post [E [L R]]]]].
  destruct run as [|a [|b run]]; [simpl in L; lia | simpl in L; lia |].
  assert (D : digit_0_9 a = true /\ digit_0_9 b = true)
    by (destruct R as [R | R]; exact (digit_steps_two _ _ _ _ _ R)).
  exists pre, a, b, (run ++ post)%list. subst d. now repeat split.
Qed.

Lemma holds_pair_run n (d : unicode.text) :
  n <= 1 -> holds_digit_pair d -> holds_run n d.
Proof.
  intros Hn [pre [a [b [post [E [Da Db]]]]]].
  exists pre, [a], (b :: post). subst d.
  split; [reflexivity |]. split; [simpl; lia |].
  left. cbn. now rewrite Da.
Qed.

Lemma holds_run_decide n (d : unicode.text) :
  holds_run n d <-> window_run n (squash_text d) = true.
Proof. now rewrite window_run_iff, holds_run_squash. Qed.

(** C9, as stated, fails.  In [1a2b3] no three consecutive characters are
    digits, yet the answer for a run of three is [true], because the letters
    are removed before the search.  And [7] holds a run of one digit, yet
    the answer for a run of one is [false]. *)
Lemma C9_counterexample :
  unicode.has_sequential_digits (unicode.of_string "1a2b3") 3 = true /\
  ~ holds_run 3 (unicode.of_string "1a2b3") /\
  unicode.has_sequential_digits (unicode.of_string "7") 1 = false /\
  holds_run 1 (unicode.of_string "7").
Proof.
  split; [reflexivity |]. split; [| split; [reflexivity |]].
  - intros H. apply holds_run_decide in H. discriminate H.
  - apply holds_run_decide. reflexivity.
Qed.

(** C9, amended.  Let [d] be [s] without the characters that are not
    decimal digits of some script (the class [\d]).
    [has_sequential_digits s min_run] is true iff [d] holds two neighbouring
    digits [0] to [9] and a run of [min_run] or more digits [0] to [9] that
    goes up by one, or down by one, at each step.  A removed character does
    not end a run; a kept character that is not one of [0] to [9] is in no
    run and ends one: the Devanagari two is a decimal digit, so it is kept,
    and between [1] and [2] it leaves no run of two. *)
Theorem C9_has_sequential_digits (s : unicode.text) (min_run : Z) :
  (unicode.has_sequential_digits s min_run = true <->
   holds_digit_pair (unicode.sub_nondigits s) /\
   holds_run (Z.to_nat min_run) (unicode.sub_nondigits s)) /\
  unicode.sub_nondigits [49; devanagari_two; 50]%N
  = [49; devanagari_two; 50]%N /\
  unicode.has_sequential_digits [49; devanagari_two; 50]%N 2 = false /\
  unicode.has_sequential_digits [49; 50]%N 2 = true.
Proof.
  split; [| repeat split].
  unfold unicode.has_sequential_digits.
  set (d := unicode.sub_nondigits s).
  destruct (Z_le_gt_dec 2 min_run) as [Hm | Hm].
  - rewrite has_sequential_run_digits_run by exact Hm.
    split; [| tauto]. intros H. split; [| exact H].
    apply (holds_run_pair (Z.to_nat min_run)); [lia | exact H].
  - rewrite has_sequential_run_digits_pair by lia.
    rewrite digit_pair_iff. split; [| tauto].
    intros H. split; [exact H |]. apply holds_pair_run; [lia | exact H].
Qed.

(** ** The two models agree on text over U+0000..U+00FF *)

Lemma re_digit_ascii (c : ascii) :
  unicode.re_digit (N_of_ascii c) = Py.is_decimal c.
Proof. destruct c as [[] [] [] [] [] [] [] []]; reflexivity. Qed.

Lemma of_string_cons c (s : string) :
  unicode.of_string (String c s) = N_of_ascii c :: unicode.of_string s.
Proof. reflexivity. Qed.

Lemma of_string_length (s : string) :
  List.length (unicode.of_string s) = String.length s.
Proof.
  induction s as [|c s IH]; [reflexivity |].
  rewrite of_string_cons. simpl. now rewrite IH.
Qed.

Lemma sub_nondigits_of_string (s : string) :
  unicode.sub_nondigits (unicode.of_string s)
  = unicode.of_string (Py.sub_nondigits s).
Proof.
  unfold unicode.sub_nondigits, Py.sub_nondigits.
  induction s as [|c s IH]; [reflexivity |].
  rewrite of_string_cons. cbn [filter Py.filter_str].
  rewrite re_digit_ascii, IH. now destruct (Py.is_decimal c).
Qed.

Lemma sequential_loop_of_string (min_run : Z) (rest : string) :
  forall prev ru rd,
    unicode.sequential_loop min_run (N_of_ascii prev) ru rd
      (unicode.of_string rest)
    = sequential_loop min_run prev ru rd rest.
Proof.
  induction rest as [|c rest IH]; intros prev ru rd; [reflexivity |].
  rewrite of_string_cons. cbn [unicode.sequential_loop sequential_loop].
  change (unicode.ord48 (N_of_ascii c)) with (ord48 c).
  change (unicode.ord48 (N_of_ascii prev)) with (ord48 prev).
  destruct (in_0_9 (ord48 c) && in_0_9 (ord48 prev)); [| apply IH].
  destruct (ord48 c =? ord48 prev + 1)%Z;
    [| destruct (ord48 c =? ord48 prev - 1)%Z];
    rewrite IH; reflexivity.
Qed.

Lemma has_sequential_run_digits_of_string (seq : string) (min_run : Z) :
  unicode._has_sequential_run_digits (unicode.of_string seq) min_run
  = _has_sequential_run_digits seq min_run.
Proof.
  unfold unicode._has_sequential_run_digits, _has_sequential_run_digits.
  rewrite of_string_length.
  destruct (Z.of_nat (String.length seq) <? min_run)%Z; [reflexivity |].
  destruct seq as [|c0 rest]; [reflexivity |].
  rewrite of_string_cons. apply sequential_loop_of_string.
Qed.

(** On such text [has_sequential_digits] is the function of the frame. *)
Lemma has_sequential_digits_of_string (s : string) (min_run : Z) :
  unicode.has_sequential_digits (unicode.of_string s) min_run
  = has_sequential_digits s min_run.
Proof.
  unfold unicode.has_sequential_digits, has_sequential_digits.
  now rewrite sub_nondigits_of_string, has_sequential_run_digits_of_string.
Qed.

Lemma ascii_eqb_N (a b : ascii) :
  N.eqb (N_of_ascii a) (N_of_ascii b) = Ascii.eqb a b.
Proof.
  destruct (Ascii.eqb_spec a b) as [-> | Hn]; [apply N.eqb_refl |].
  apply N.eqb_neq. intros E. apply Hn.
  rewrite <- (ascii_N_embedding a), <- (ascii_N_embedding b). now rewrite E.
Qed.

Lemma all_same_digit_of_string (s : string) :
  unicode.all_same_digit (unicode.of_string s) = all_same_digit s.
Proof.
  unfold unicode.all_same_digit, all_same_digit.
  rewrite sub_nondigits_of_string.
  destruct (Py.sub_nondigits s) as [|c d]; [reflexivity |].
  rewrite of_string_cons.
  induction d as [|c' d IH]; [reflexivity |].
  rewrite of_string_cons. cbn [forallb Py.forallb_str].
  now rewrite ascii_eqb_N, IH.
Qed.

Lemma improbable_pattern_of_string (s : string) :
  unicode.improbable_pattern (unicode.of_string s) = improbable_pattern s.
Proof.
  unfold unicode.improbable_pattern, improbable_pattern.
  rewrite sub_nondigits_of_string.
  rewrite all_same_digit_of_string, has_sequential_digits_of_string,
    of_string_length.
  now destruct (Py.sub_nondigits s).
Qed.

(* ================================================================== *)
(** * Further properties of the code *)
(* ================================================================== *)

(** ** Normalisation *)

Lemma rstrip_nil (t : string) :
  Py.rstrip t = "" -> Py.forallb_str Py.isspace t = true.
Proof.
  induction t as [|c t IH]; [reflexivity |]. simpl.
  destruct (Py.rstrip t); [| discriminate].
  destruct (Py.isspace c); [intros _; now rewrite IH | discriminate].
Qed.

Lemma lstrip_blank (s : string) :
  Py.forallb_str Py.isspace (Py.lstrip s) = true ->
  Py.forallb_str Py.isspace s = true.
Proof.
  induction s as [|c s IH]; [reflexivity |]. simpl.
  destruct (Py.isspace c) eqn:E; [exact IH |].
  simpl. now rewrite E.
Qed.

Lemma blank_lstrip (s : string) :
  Py.forallb_str Py.isspace s = true -> Py.lstrip s = "".
Proof.
  induction s as [|c s IH]; [reflexivity |]. simpl.
  destruct (Py.isspace c); [exact IH | discriminate].
Qed.

Lemma strip_nil_iff (s : string) :
  Py.strip s = "" <-> Py.forallb_str Py.isspace s = true.
Proof.
  unfold Py.strip. split.
  - intros H. now apply lstrip_blank, rstrip_nil.
  - intros H. now rewrite (blank_lstrip _ H).
Qed.

Lemma filter_blank f (s : string) :
  (forall c, Py.isspace c = true -> f c = false) ->
  Py.forallb_str Py.isspace s = true -> Py.filter_str f s = "".
Proof.
  intros Hf. induction s as [|c s IH]; [reflexivity |]. simpl.
  intros H. apply andb_true_iff in H as [Hc Hs].
  now rewrite (Hf c Hc), IH.
Qed.

Lemma filter_str_id f (s : string) :
  Py.forallb_str f s = true -> Py.filter_str f s = s.
Proof.
  induction s as [|c s IH]; [reflexivity |]. simpl.
  intros H. apply andb_true_iff in H as [Hc Hs]. now rewrite Hc, IH.
Qed.

Lemma join_cons_char sep c w (ws : list string) :
  Py.join sep (String c w :: ws) = String c (Py.join sep (w :: ws)).
Proof. destruct ws; reflexivity. Qed.

Lemma filter_str_cons f c (t : string) :
  Py.filter_str f (String c t)
  = if f c then String c (Py.filter_str f t) else Py.filter_str f t.
Proof. reflexivity. Qed.

(** Splitting and joining again loses whitespace only. *)
Lemma filter_join_split f (s : string) :
  (forall c, Py.isspace c = true -> f c = false) ->
  Py.filter_str f (Py.join " " (Py.split s)) = Py.filter_str f s.
Proof.
  intros Hf. induction s as [|c s IH]; [reflexivity |].
  destruct (Py.isspace c) eqn:Hc.
  - rewrite split_cons_space by exact Hc.
    now rewrite filter_str_cons, (Hf c Hc).
  - destruct s as [|c' s]; [now rewrite split_single |].
    rewrite (filter_str_cons f c (String c' s)), <- IH.
    destruct (Py.isspace c') eqn:Hc'.
    + rewrite split_cons_then_space by assumption.
      rewrite split_cons_space by exact Hc'.
      destruct (Py.split s) as [|w ws]; [reflexivity |].
      rewrite join_cons2.
      change (String c "" ++ " " ++ Py.join " " (w :: ws))
        with (String c (String " " (Py.join " " (w :: ws)))).
      now rewrite filter_str_cons, (filter_str_cons f " "%char),
        (Hf " "%char isspace_blank).
    + rewrite split_cons_then_char by assumption.
      destruct (Py.split (String c' s)) as [|w ws]; [reflexivity |].
      now rewrite join_cons_char, filter_str_cons.
Qed.

Lemma decimal_not_space c : Py.isspace c = true -> Py.is_decimal c = false.
Proof.
  unfold Py.isspace, Py.is_decimal. generalize (N_of_ascii c). intros n H.
  apply andb_false_iff.
  rewrite !orb_true_iff, !andb_true_iff, !N.leb_le, !N.eqb_eq in H.
  rewrite !N.leb_gt. lia.
Qed.

Lemma lower_char_decimal c :
  Py.is_decimal (Py.lower_char c) = Py.is_decimal c.
Proof. destruct c as [[] [] [] [] [] [] [] []]; reflexivity. Qed.

Lemma lower_nan_no_digit (s : string) :
  Py.lower s = "nan" -> Py.sub_nondigits s = "".
Proof.
  intros H.
  assert (E : forall t, Py.forallb_str (fun c => negb (Py.is_decimal c))
                          (Py.lower t)
                        = Py.forallb_str (fun c => negb (Py.is_decimal c)) t).
  { induction t as [|c t IH]; [reflexivity |]. simpl.
    now rewrite lower_char_decimal, IH. }
  specialize (E s). rewrite H in E. cbn in E. symmetry in E.
  clear H. unfold Py.sub_nondigits.
  induction s as [|c s IH]; [reflexivity |]. simpl in E |- *.
  apply andb_true_iff in E as [Hc Hs]. apply negb_true_iff in Hc.
  rewrite Hc. now apply IH.
Qed.

Lemma split_nonempty (s : string) : Py.strip s <> "" -> Py.split s <> [].
Proof.
  intros H E. apply H. unfold Py.strip. now rewrite (split_nil_lstrip _ E).
Qed.

(** What [normalize_text] makes of a text that is neither blank nor the
    missing marker. *)
Lemma normalize_text_words (s : string) :
  Py.strip s <> "" -> Py.lower s <> "nan" ->
  normalize_text (PyStr s) = Py.join " " (Py.split s) /\
  Py.join " " (Py.split s) <> "".
Proof.
  intros Hb Hn. unfold normalize_text. cbn [py_str].
  apply String.eqb_neq in Hb as Hb', Hn. rewrite Hb', Hn. cbn [orb].
  destruct (join_words_stripped _ (split_words s) (split_nonempty s Hb))
    as [Jne Js].
  now rewrite Js.
Qed.

Lemma normalize_digits_of_text (s : string) :
  normalize_digits (PyStr s) = Py.sub_nondigits s.
Proof.
  unfold normalize_digits.
  destruct (String.eqb_spec (Py.strip s) "") as [Hb | Hb].
  - unfold normalize_text. cbn [py_str]. rewrite Hb. cbn.
    symmetry. apply filter_blank; [apply decimal_not_space |].
    now apply strip_nil_iff.
  - destruct (String.eqb_spec (Py.lower s) "nan") as [Hn | Hn].
    + unfold normalize_text. cbn [py_str]. rewrite Hn. cbn.
      rewrite orb_true_r. cbn. symmetry. now apply lower_nan_no_digit.
    + destruct (normalize_text_words s Hb Hn) as [-> Jne].
      destruct (Py.join " " (Py.split s)) eqn:EJ; [congruence |].
      cbn [Py.is_empty]. rewrite <- EJ. unfold Py.sub_nondigits.
      apply filter_join_split, decimal_not_space.
Qed.

(** X1.  [normalize_digits] answers exactly the decimal digits of
    [str(value)], in their order ([None] gives the empty text); its result
    holds digits only and normalising it again changes nothing. *)
Theorem X1_normalize_digits_keeps_the_digits (v : pyvalue) :
  normalize_digits v
  = match v with
    | PyNone => ""
    | _ => Py.sub_nondigits (py_str v)
    end /\
  Py.forallb_str Py.is_decimal (normalize_digits v) = true /\
  normalize_digits (PyStr (normalize_digits v)) = normalize_digits v.
Proof.
  split; [| split].
  - destruct v as [| |z|s]; [reflexivity | reflexivity | |].
    + change (normalize_digits (PyInt z))
        with (normalize_digits (PyStr (py_str (PyInt z)))).
      apply normalize_digits_of_text.
    + apply normalize_digits_of_text.
  - apply normalize_digits_decimal.
  - rewrite normalize_digits_of_text. apply filter_str_id.
    apply normalize_digits_decimal.
Qed.

(** X2.  A text is normalised to the empty text exactly when it is blank
    or is [nan] in some letter case; any other text is normalised to its
    words (the maximal runs without whitespace) joined by single blanks, and
    has the same words as the result. *)
Theorem X2_normalize_text_words (s : string) :
  (normalize_text (PyStr s) = "" <->
   Py.forallb_str Py.isspace s = true \/ Py.lower s = "nan") /\
  (normalize_text (PyStr s) <> "" ->
   normalize_text (PyStr s) = Py.join " " (Py.split s) /\
   Py.split (normalize_text (PyStr s)) = Py.split s /\
   Forall word (Py.split s)).
Proof.
  destruct (String.eqb_spec (Py.strip s) "") as [Hb | Hb].
  - assert (E : normalize_text (PyStr s) = "")
      by (unfold normalize_text; cbn [py_str]; now rewrite Hb).
    rewrite E. split; [| congruence].
    split; [intros _; left; now apply strip_nil_iff | reflexivity].
  - destruct (String.eqb_spec (Py.lower s) "nan") as [Hn | Hn].
    + assert (E : normalize_text (PyStr s) = "")
        by (unfold normalize_text; cbn [py_str]; rewrite Hn; cbn;
            now rewrite orb_true_r).
      rewrite E. split; [| congruence].
      split; [intros _; now right | reflexivity].
    + destruct (normalize_text_words s Hb Hn) as [E Jne]. rewrite E. split.
      * split; [congruence |].
        intros [H | H]; [| congruence].
        apply strip_nil_iff in H. congruence.
      * intros _. repeat split; [| apply split_words].
        apply split_join, split_words.
Qed.

Lemma X2_witness :
  normalize_text (PyStr " 12   34 x ") = Py.join " " (Py.split " 12   34 x ") /\
  Py.split (normalize_text (PyStr " 12   34 x ")) = Py.split " 12   34 x " /\
  Forall word (Py.split " 12   34 x ").
Proof.
  apply (proj2 (X2_normalize_text_words " 12   34 x ")). discriminate.
Defined.

(** ** Repetitions and improbable values *)

Lemma repeat_char_length c n : String.length (repeat_char c n) = n.
Proof. induction n as [|n IH]; simpl; [reflexivity | now rewrite IH]. Qed.

Lemma rep_prefix_spec c k (t : string) :
  rep_prefix c k t = true <-> exists post, t = repeat_char c k ++ post.
Proof.
  revert t. induction k as [|k IH]; intros t.
  - split; [intros _; now exists t | reflexivity].
  - destruct t as [|c' t]; cbn [rep_prefix repeat_char append].
    + split; [discriminate | intros [post H]; discriminate].
    + rewrite andb_true_iff, Ascii.eqb_eq, IH. split.
      * intros [-> [post ->]]. now exists post.
      * intros [post H]. inversion H; subst. split; [reflexivity |].
        now exists post.
Qed.

Lemma rep_prefix_shorter c k (t : string) : forall k',
  k' <= k -> rep_prefix c k t = true -> rep_prefix c k' t = true.
Proof.
  revert t. induction k as [|k IH]; intros t k' Hk H.
  - now replace k' with 0 by lia.
  - destruct k' as [|k']; [reflexivity |].
    destruct t as [|c' t]; [discriminate |].
    cbn [rep_prefix] in H |- *. apply andb_true_iff in H as [H1 H2].
    rewrite H1. apply (IH t k'); [lia | exact H2].
Qed.

Lemma rep_prefix_cons c k c' (t : string) :
  rep_prefix c (S k) (String c' t) = Ascii.eqb c' c && rep_prefix c k t.
Proof. reflexivity. Qed.

Lemma window_rep_cons n c (s : string) :
  window_rep n (String c s) = rep_prefix c n (String c s) || window_rep n s.
Proof. reflexivity. Qed.

Lemma window_rep_iff n (s : string) : window_rep n s = true <-> has_repeat n s.
Proof.
  split.
  - induction s as [|c s IH].
    + cbn. intros H. apply Nat.eqb_eq in H. subst n.
      now exists "", " "%char, "".
    + rewrite window_rep_cons, orb_true_iff. intros [H | H].
      * apply rep_prefix_spec in H as [post E]. now exists "", c, post.
      * destruct (IH H) as [pre [c0 [post E]]].
        exists (String c pre), c0, post. now rewrite E.
  - intros [pre [c [post E]]]. subst s. induction pre as [|c0 pre IH].
    + cbn [append]. destruct n as [|n].
      * destruct post; reflexivity.
      * cbn [repeat_char append]. rewrite window_rep_cons.
        apply orb_true_iff. left. apply rep_prefix_spec. now exists post.
    + change (String c0 pre ++ repeat_char c n ++ post)
        with (String c0 (pre ++ repeat_char c n ++ post)).
      rewrite window_rep_cons, IH. apply orb_true_r.
Qed.

(** The loop, entered at [prev] with [u] equal characters ending there,
    answers [true] exactly when the run grows to [n] or a window of [n]
    equal characters lies ahead. *)
Lemma adjacent_loop_spec n (rest : string) :
  2 <= n ->
  forall prev u,
    1 <= u < n ->
    adjacent_loop (Z.of_nat n) prev (Z.of_nat u) rest
    = rep_prefix prev (n - u) rest || window_rep n rest.
Proof.
  intros Hn. induction rest as [|c r IH]; intros prev u Hu.
  - cbn [adjacent_loop window_rep].
    replace (n - u) with (S (n - u - 1)) by lia.
    replace (Nat.eqb n 0) with false by (symmetry; apply Nat.eqb_neq; lia).
    reflexivity.
  - cbn [adjacent_loop]. rewrite window_rep_cons.
    replace (n - u) with (S (n - S u)) by lia.
    replace (rep_prefix c n (String c r))
      with (rep_prefix c (S (n - 1)) (String c r))
      by (f_equal; lia).
    rewrite !rep_prefix_cons, Ascii.eqb_refl. cbn [andb].
    assert (Fresh : adjacent_loop (Z.of_nat n) c 1 r
                    = rep_prefix c (n - 1) r || window_rep n r).
    { pose proof (IH c 1 ltac:(lia)) as R.
      change (Z.of_nat 1) with 1%Z in R. exact R. }
    destruct (Ascii.eqb c prev) eqn:E; cbn [andb orb]; [| exact Fresh].
    apply Ascii.eqb_eq in E. subst prev.
    destruct (Z.of_nat u + 1 >=? Z.of_nat n)%Z eqn:G.
    + apply Z.geb_le in G. replace (n - S u) with 0 by lia. reflexivity.
    + rewrite Z.geb_leb in G. apply Z.leb_gt in G.
      pose proof (IH c (S u) ltac:(lia)) as R.
      replace (Z.of_nat (S u)) with (Z.of_nat u + 1)%Z in R by lia.
      rewrite R.
      pose proof (rep_prefix_shorter c (n - 1) r (n - S u) ltac:(lia)) as F.
      destruct (rep_prefix c (n - 1) r), (rep_prefix c (n - S u) r),
        (window_rep n r); simpl; auto; discriminate (F eq_refl).
Qed.

(** X3.  [has_adjacent_repetition s min_run] is true iff [min_run] is two
    or more and [s] holds [min_run] consecutive copies of one character;
    with [min_run] at most one, or on the empty text, it is false. *)
Theorem X3_has_adjacent_repetition (s : string) (min_run : Z) :
  has_adjacent_repetition s min_run = true <->
  (2 <= min_run)%Z /\ has_repeat (Z.to_nat min_run) s.
Proof.
  unfold has_adjacent_repetition.
  destruct (min_run <=? 1)%Z eqn:M.
  - apply Z.leb_le in M. rewrite orb_true_r. split; [discriminate | lia].
  - apply Z.leb_gt in M. rewrite orb_false_r.
    set (n := Z.to_nat min_run).
    assert (Hn : 2 <= n) by (unfold n; lia).
    rewrite <- window_rep_iff.
    destruct s as [|c0 rest]; cbn [Py.is_empty].
    + cbn. replace (Nat.eqb n 0) with false
        by (symmetry; apply Nat.eqb_neq; lia).
      split; [discriminate | tauto].
    + replace min_run with (Z.of_nat n) at 1 by (unfold n; lia).
      pose proof (adjacent_loop_spec n rest Hn c0 1 ltac:(lia)) as R.
      change (Z.of_nat 1) with 1%Z in R. rewrite R, window_rep_cons.
      replace (rep_prefix c0 n (String c0 rest))
        with (rep_prefix c0 (S (n - 1)) (String c0 rest))
        by (f_equal; lia).
      rewrite rep_prefix_cons, Ascii.eqb_refl. cbn [andb].
      split; [intros H; split; [lia | exact H] | tauto].
Qed.

(** ** Improbable patterns in text of any characters *)

Lemma sub_nondigits_idem (s : unicode.text) :
  unicode.sub_nondigits (unicode.sub_nondigits s) = unicode.sub_nondigits s.
Proof.
  unfold unicode.sub_nondigits. induction s as [|c s IH]; [reflexivity |].
  cbn [filter]. destruct (unicode.re_digit c) eqn:D; [| exact IH].
  cbn [filter]. now rewrite D, IH.
Qed.

Lemma forallb_eqb_repeat (c : N) (d : unicode.text) :
  forallb (N.eqb c) d = true <-> d = repeat c (List.length d).
Proof.
  induction d as [|c' d IH]; [split; reflexivity |].
  cbn [forallb List.length repeat].
  rewrite andb_true_iff, N.eqb_eq, IH. split.
  - intros [-> E]. now rewrite <- E.
  - intros E. inversion E; subst. split; [reflexivity | congruence].
Qed.

Lemma all_same_digit_wide (s : unicode.text) :
  unicode.all_same_digit s = true <->
  exists c n, unicode.sub_nondigits s = repeat c (S n).
Proof.
  unfold unicode.all_same_digit. destruct (unicode.sub_nondigits s) as [|c d].
  - split; [discriminate | intros [c [n H]]; discriminate].
  - rewrite forallb_eqb_repeat. split.
    + intros E. exists c, (List.length d). cbn. now rewrite <- E.
    + intros [c0 [n E]]. cbn in E. inversion E; subst.
      now rewrite repeat_length.
Qed.

Lemma holds_run_length n (d : unicode.text) :
  holds_run n d -> n <= List.length d.
Proof.
  intros [pre [run [post [E [L _]]]]]. subst d.
  rewrite !length_app. lia.
Qed.

(** X4.  Let [d] be [s] without the characters that are not decimal digits
    of some script.  [all_same_digit s] is true iff [d] is one character
    repeated, once or more.  [improbable_pattern s] is true iff that holds or
    [d] holds a run of [n] digits [0] to [9], up or down by one at each
    step, where [n] is the number of characters of [d] brought into the
    range 3 to 6.  So [12345] is flagged, and [12345] followed by a
    Devanagari six is not: six characters are kept and the run has five. *)
Theorem X4_improbable_pattern (s : unicode.text) :
  let d := unicode.sub_nondigits s in
  (unicode.all_same_digit s = true <-> exists c n, d = repeat c (S n)) /\
  (unicode.improbable_pattern s = true <->
   (exists c n, d = repeat c (S n))
   \/ holds_run (Nat.max 3 (Nat.min 6 (List.length d))) d) /\
  unicode.improbable_pattern (unicode.of_string "12345") = true /\
  unicode.sub_nondigits (unicode.of_string "12345" ++ [devanagari_six])%list
  = (unicode.of_string "12345" ++ [devanagari_six])%list /\
  unicode.improbable_pattern
    (unicode.of_string "12345" ++ [devanagari_six])%list = false.
Proof.
  intros d. subst d. split; [apply all_same_digit_wide |].
  split; [| repeat split].
  rewrite <- (all_same_digit_wide s).
  unfold unicode.improbable_pattern.
  assert (Hs : unicode.all_same_digit (unicode.sub_nondigits s)
               = unicode.all_same_digit s)
    by (unfold unicode.all_same_digit; now rewrite sub_nondigits_idem).
  rewrite Hs.
  assert (Hq : unicode.has_sequential_digits (unicode.sub_nondigits s)
                 (Z.max 3 (Z.min 6
                    (Z.of_nat (List.length (unicode.sub_nondigits s)))))
               = true
               <-> holds_run
                     (Nat.max 3
                        (Nat.min 6 (List.length (unicode.sub_nondigits s))))
                     (unicode.sub_nondigits s)).
  { unfold unicode.has_sequential_digits. rewrite sub_nondigits_idem.
    rewrite has_sequential_run_digits_run by lia.
    replace (Z.to_nat (Z.max 3 (Z.min 6
               (Z.of_nat (List.length (unicode.sub_nondigits s))))))
      with (Nat.max 3 (Nat.min 6 (List.length (unicode.sub_nondigits s))))
      by lia.
    reflexivity. }
  assert (He : unicode.sub_nondigits s = [] ->
               unicode.all_same_digit s = false)
    by (intros E; unfold unicode.all_same_digit; now rewrite E).
  remember (unicode.sub_nondigits s) as d eqn:Ed.
  destruct d as [|c0 d0].
  - split; [discriminate |]. intros [H | H].
    + rewrite He in H; [discriminate | reflexivity].
    + apply holds_run_length in H. simpl in H. lia.
  - destruct (unicode.all_same_digit s); [tauto |].
    destruct (unicode.has_sequential_digits _ _).
    + split; [intros _; right; now apply Hq | reflexivity].
    + split; [discriminate |].
      intros [H | H]; [discriminate | apply Hq in H; discriminate].
Qed.

(** ** What the Verhoeff checksum detects *)

Module VerhoeffErrors.
Import ind_aadhaar Verhoeff VerhoeffFacts.

Lemma d_cancel_r u v r :
  u < 10 -> v < 10 -> r < 10 -> dmul u r = dmul v r -> u = v.
Proof.
  intros Hu Hv Hr. below u Hu; below v Hv; below r Hr;
    vm_compute; congruence.
Qed.

Lemma d_cancel_l u v r :
  u < 10 -> v < 10 -> r < 10 -> dmul r u = dmul r v -> u = v.
Proof.
  intros Hu Hv Hr. below u Hu; below v Hv; below r Hr;
    vm_compute; congruence.
Qed.

Lemma perm_inj j x y :
  j < 8 -> x < 10 -> y < 10 -> perm j x = perm j y -> x = y.
Proof.
  intros Hj Hx Hy. below j Hj; below x Hx; below y Hy;
    vm_compute; congruence.
Qed.

Lemma perm_swap j x y :
  j < 8 -> x < 10 -> y < 10 ->
  dmul (perm j y) (perm ((j + 1) mod 8) x)
  = dmul (perm j x) (perm ((j + 1) mod 8) y) ->
  x = y.
Proof.
  intros Hj Hx Hy. below j Hj; below x Hx; below y Hy;
    vm_compute; congruence.
Qed.

Lemma inverse_unique k c : k < 10 -> c < 10 -> (dmul k c = 0 <-> k = inv c).
Proof.
  intros Hk Hc. below k Hk; below c Hc; vm_compute; split; congruence.
Qed.

Lemma run_app g (l1 l2 : list nat) : forall k c,
  run g k c (l1 ++ l2)%list = run g (k + List.length l1) (run g k c l1) l2.
Proof.
  induction l1 as [|x l1 IH]; intros k c.
  - cbn [List.app List.length]. now rewrite Nat.add_0_r.
  - rewrite <- app_comm_cons, !run_cons, IH. cbn [List.length].
    f_equal. lia.
Qed.

Lemma ints_app (l1 l2 : list ascii) d1 d2 :
  Py.ints l1 = Some d1 -> Py.ints l2 = Some d2 ->
  Py.ints (l1 ++ l2)%list = Some (d1 ++ d2)%list.
Proof.
  revert d1. induction l1 as [|c l1 IH]; intros d1 H1 H2; simpl in *.
  - inversion H1. exact H2.
  - destruct (Py.int_of_char c); [| discriminate].
    destruct (Py.ints l1) as [d |]; [| discriminate].
    inversion H1; subst. now rewrite (IH d eq_refl H2).
Qed.

Lemma int_of_char_some c :
  Py.is_decimal c = true -> exists n, Py.int_of_char c = Some n /\ n < 10.
Proof.
  intros H. unfold Py.int_of_char. rewrite H. eexists. split; [reflexivity |].
  unfold Py.is_decimal in H. apply andb_true_iff in H as [H1 H2].
  apply N.leb_le in H1, H2. lia.
Qed.

Lemma int_of_char_inj a b n :
  Py.int_of_char a = Some n -> Py.int_of_char b = Some n -> a = b.
Proof.
  unfold Py.int_of_char.
  destruct (Py.is_decimal a) eqn:Da; [| discriminate].
  destruct (Py.is_decimal b) eqn:Db; [| discriminate].
  intros Ha Hb. inversion Ha as [Ea]. inversion Hb as [Eb].
  unfold Py.is_decimal in Da, Db.
  apply andb_true_iff in Da as [Da _]. apply andb_true_iff in Db as [Db _].
  apply N.leb_le in Da, Db.
  rewrite <- (ascii_N_embedding a), <- (ascii_N_embedding b).
  f_equal. lia.
Qed.

Lemma validate_checksum (s : string) ds :
  Py.reversed_ints s = Some ds ->
  verhoeff_validate s = Some (Nat.eqb (verhoeff_checksum ds) 0).
Proof. intros E. unfold verhoeff_validate. now rewrite E. Qed.

(** The digits of [pre ++ mid ++ post], last first. *)
Lemma reversed_ints_middle (pre post : string) :
  Py.forallb_str Py.is_decimal pre = true ->
  Py.forallb_str Py.is_decimal post = true ->
  exists d1 d2,
    Forall (fun x => x < 10) d1 /\ Forall (fun x => x < 10) d2 /\
    forall mid dm,
      Py.ints (rev mid) = Some dm ->
      Py.reversed_ints (pre ++ string_of_list_ascii mid ++ post)
      = Some (d1 ++ dm ++ d2)%list.
Proof.
  intros Hpre Hpost.
  destruct (reversed_ints_decimal post Hpost) as [d1 [E1 F1]].
  destruct (reversed_ints_decimal pre Hpre) as [d2 [E2 F2]].
  exists d1, d2. repeat split; trivial. intros mid dm Em.
  unfold Py.reversed_ints in *.
  rewrite !list_of_append, list_ascii_of_string_of_list_ascii.
  rewrite !rev_app_distr, <- app_assoc.
  apply ints_app; [exact E1 |]. now apply ints_app.
Qed.

(** Changing one digit changes the checksum. *)
Lemma checksum_substitution d1 d2 x y :
  Forall (fun n => n < 10) d1 -> Forall (fun n => n < 10) d2 ->
  x < 10 -> y < 10 ->
  verhoeff_checksum (d1 ++ x :: d2) = verhoeff_checksum (d1 ++ y :: d2) ->
  x = y.
Proof.
  intros F1 F2 Hx Hy. unfold verhoeff_checksum.
  set (g := fun i => i mod 8).
  assert (G : forall i, g i < 8) by (intro; apply Nat.mod_upper_bound; lia).
  rewrite !run_app, !run_cons. cbn [Nat.add].
  set (A := run g 0 0 d1). set (j := g (List.length d1)).
  assert (HA : A < 10) by (apply run_lt; auto; lia).
  assert (Hj : j < 8) by apply G.
  rewrite (run_acc g d2 _ (dmul A (perm j x))), (run_acc g d2 _ (dmul A (perm j y)));
    auto using d_at_lt, p_at_lt.
  intros E.
  apply d_cancel_r in E; auto using d_at_lt, p_at_lt;
    [| apply run_lt; auto; lia].
  apply d_cancel_l in E; auto using p_at_lt.
  now apply perm_inj in E.
Qed.

(** Exchanging two neighbours changes the checksum. *)
Lemma checksum_transposition d1 d2 x y :
  Forall (fun n => n < 10) d1 -> Forall (fun n => n < 10) d2 ->
  x < 10 -> y < 10 ->
  verhoeff_checksum (d1 ++ y :: x :: d2)
  = verhoeff_checksum (d1 ++ x :: y :: d2) ->
  x = y.
Proof.
  intros F1 F2 Hx Hy. unfold verhoeff_checksum.
  set (g := fun i => i mod 8).
  assert (G : forall i, g i < 8) by (intro; apply Nat.mod_upper_bound; lia).
  rewrite !run_app, !run_cons. cbn [Nat.add].
  set (A := run g 0 0 d1). set (n := List.length d1).
  assert (HA : A < 10) by (apply run_lt; auto; lia).
  assert (E1 : g (S n) = (g n + 1) mod 8)
    by (unfold g; rewrite Nat.Div0.add_mod_idemp_l; f_equal; lia).
  rewrite E1. set (j := g n). assert (Hj : j < 8) by apply G.
  assert (Hj' : (j + 1) mod 8 < 8) by (apply Nat.mod_upper_bound; lia).
  rewrite (run_acc g d2 _ (dmul (dmul A (perm j y)) (perm ((j + 1) mod 8) x))),
    (run_acc g d2 _ (dmul (dmul A (perm j x)) (perm ((j + 1) mod 8) y)));
    auto using d_at_lt, p_at_lt.
  intros E.
  apply d_cancel_r in E; auto using d_at_lt, p_at_lt;
    [| apply run_lt; auto; lia].
  rewrite !d_assoc in E; auto using p_at_lt.
  apply d_cancel_l in E; auto using d_at_lt, p_at_lt.
  now apply perm_swap in E.
Qed.

(** The validation of a body followed by one digit. *)
Lemma validate_snoc (b : string) ch ds kv :
  Py.reversed_ints b = Some ds -> Forall (fun x => x < 10) ds ->
  Py.int_of_char ch = Some kv -> kv < 10 ->
  verhoeff_validate (b ++ String ch "")
  = Some (Nat.eqb (dmul kv (run (fun i => (i + 1) mod 8) 0 0 ds)) 0).
Proof.
  intros E F Hi Hk.
  rewrite (validate_checksum _ _ (reversed_ints_snoc b ch kv ds E Hi)).
  f_equal. f_equal. unfold verhoeff_checksum.
  set (g1 := fun i => (i + 1) mod 8). set (g0 := fun i => i mod 8).
  assert (G1 : forall i, g1 i < 8) by (intro; apply Nat.mod_upper_bound; lia).
  rewrite run_cons.
  rewrite (run_shift g0 g1) by (intro i; unfold g0, g1; f_equal; lia).
  change (g0 0) with 0. rewrite (p_zero _ Hk), (d_zero_l _ Hk).
  apply run_acc; auto.
Qed.

End VerhoeffErrors.

(** X5.  In a text of digits that [verhoeff_validate] accepts, replacing
    any one digit by a different digit gives a text it rejects. *)
Theorem X5_verhoeff_detects_substitution (pre post : string) (a a' : ascii) :
  Py.forallb_str Py.is_decimal (pre ++ String a post) = true ->
  Py.is_decimal a' = true -> a <> a' ->
  ind_aadhaar.verhoeff_validate (pre ++ String a post) = Some true ->
  ind_aadhaar.verhoeff_validate (pre ++ String a' post) = Some false.
Proof.
  intros Hs Ha' Hne Hv.
  rewrite forallb_str_append in Hs. apply andb_true_iff in Hs as [Hpre Hs].
  simpl in Hs. apply andb_true_iff in Hs as [Ha Hpost].
  destruct (VerhoeffErrors.reversed_ints_middle pre post Hpre Hpost)
    as [d1 [d2 [F1 [F2 R]]]].
  destruct (VerhoeffErrors.int_of_char_some a Ha) as [x [Ex Hx]].
  destruct (VerhoeffErrors.int_of_char_some a' Ha') as [y [Ey Hy]].
  pose proof (R [a] [x]) as Ra. pose proof (R [a'] [y]) as Ra'.
  cbn in Ra, Ra'. rewrite Ex in Ra. rewrite Ey in Ra'.
  specialize (Ra eq_refl). specialize (Ra' eq_refl).
  rewrite (VerhoeffErrors.validate_checksum _ _ Ra) in Hv.
  rewrite (VerhoeffErrors.validate_checksum _ _ Ra').
  f_equal. apply Nat.eqb_neq. intros E0.
  inversion Hv as [Hv']. apply Nat.eqb_eq in Hv'.
  apply Hne, (VerhoeffErrors.int_of_char_inj a a' x); [exact Ex |].
  rewrite Ey. f_equal. symmetry.
  apply (VerhoeffErrors.checksum_substitution d1 d2 x y); auto. congruence.
Qed.

Lemma X5_witness :
  ind_aadhaar.verhoeff_validate "234123412346" = Some true /\
  ind_aadhaar.verhoeff_validate "234128412346" = Some false.
Proof.
  split; [reflexivity |].
  apply (X5_verhoeff_detects_substitution "23412" "412346" "3" "8");
    [reflexivity | reflexivity | discriminate | reflexivity].
Defined.

(** X6.  In a text of digits that [verhoeff_validate] accepts, exchanging
    two neighbouring digits that differ gives a text it rejects. *)
Theorem X6_verhoeff_detects_transposition (pre post : string) (a b : ascii) :
  Py.forallb_str Py.is_decimal (pre ++ String a (String b post)) = true ->
  a <> b ->
  ind_aadhaar.verhoeff_validate (pre ++ String a (String b post))
  = Some true ->
  ind_aadhaar.verhoeff_validate (pre ++ String b (String a post))
  = Some false.
Proof.
  intros Hs Hne Hv.
  rewrite forallb_str_append in Hs. apply andb_true_iff in Hs as [Hpre Hs].
  simpl in Hs. apply andb_true_iff in Hs as [Ha Hs].
  apply andb_true_iff in Hs as [Hb Hpost].
  destruct (VerhoeffErrors.reversed_ints_middle pre post Hpre Hpost)
    as [d1 [d2 [F1 [F2 R]]]].
  destruct (VerhoeffErrors.int_of_char_some a Ha) as [x [Ex Hx]].
  destruct (VerhoeffErrors.int_of_char_some b Hb) as [y [Ey Hy]].
  pose proof (R [a; b] [y; x]) as Rab. pose proof (R [b; a] [x; y]) as Rba.
  cbn in Rab, Rba. rewrite Ex, Ey in Rab. rewrite Ex, Ey in Rba.
  specialize (Rab eq_refl). specialize (Rba eq_refl).
  rewrite (VerhoeffErrors.validate_checksum _ _ Rab) in Hv.
  rewrite (VerhoeffErrors.validate_checksum _ _ Rba).
  f_equal. apply Nat.eqb_neq. intros E0.
  inversion Hv as [Hv']. apply Nat.eqb_eq in Hv'.
  apply Hne, (VerhoeffErrors.int_of_char_inj a b x); [exact Ex |].
  rewrite Ey. f_equal. symmetry.
  apply (VerhoeffErrors.checksum_transposition d1 d2 x y); auto. congruence.
Qed.

Lemma X6_witness :
  ind_aadhaar.verhoeff_validate "234123412346" = Some true /\
  ind_aadhaar.verhoeff_validate "234123412364" = Some false.
Proof.
  split; [reflexivity |].
  apply (X6_verhoeff_detects_transposition "2341234123" "" "4" "6");
    [reflexivity | discriminate | reflexivity].
Defined.

(** X7.  For a body of digits and a digit [ch], [verhoeff_validate] accepts
    the body followed by [ch] iff [ch] is the digit [verhoeff_check_digit]
    computes for the body: the check digit is the only one that validates. *)
Theorem X7_check_digit_is_the_only_one (b : string) (ch : ascii) :
  Py.forallb_str Py.is_decimal b = true -> Py.is_decimal ch = true ->
  (ind_aadhaar.verhoeff_validate (b ++ String ch "") = Some true <->
   ind_aadhaar.verhoeff_check_digit b = Some (String ch "")).
Proof.
  intros Hb Hc.
  destruct (VerhoeffFacts.reversed_ints_decimal b Hb) as [ds [E F]].
  destruct (VerhoeffErrors.int_of_char_some ch Hc) as [kv [Ek Hk]].
  rewrite (VerhoeffErrors.validate_snoc b ch ds kv E F Ek Hk).
  unfold ind_aadhaar.verhoeff_check_digit. rewrite E.
  set (c := fold_left _ _ 0).
  change (Verhoeff.run (fun i => (i + 1) mod 8) 0 0 ds) with c.
  assert (Hc' : c < 10).
  { apply VerhoeffFacts.run_lt; auto; [| lia].
    intro. apply Nat.mod_upper_bound. lia. }
  destruct (VerhoeffFacts.str_of_digit (Verhoeff.inv c)
              (VerhoeffFacts.inv_lt c Hc')) as [ch' [Hs [_ Hi]]].
  change (nth c ind_aadhaar._inv 0) with (Verhoeff.inv c). rewrite Hs.
  split.
  - intros H. inversion H as [H']. apply Nat.eqb_eq in H'.
    apply VerhoeffErrors.inverse_unique in H'; trivial.
    do 2 f_equal. apply (VerhoeffErrors.int_of_char_inj ch' ch kv);
      [congruence | exact Ek].
  - intros H. inversion H; subst ch'. f_equal. apply Nat.eqb_eq.
    apply VerhoeffErrors.inverse_unique; trivial. congruence.
Qed.

Lemma X7_witness :
  ind_aadhaar.verhoeff_validate ("23412341234" ++ "6") = Some true <->
  ind_aadhaar.verhoeff_check_digit "23412341234" = Some "6".
Proof.
  apply (X7_check_digit_is_the_only_one "23412341234" "6"); reflexivity.
Defined.

(** ** The Aadhaar validator on a column *)

Lemma validate_single_outcome (x : pyvalue) :
  ind_aadhaar.validate_single x = Some (aadhaar_outcome x).
Proof.
  unfold ind_aadhaar.validate_single, aadhaar_outcome, reason_of_digits,
    verhoeff_ok.
  pose proof (normalize_digits_decimal x) as Hd.
  destruct (String.eqb_spec (normalize_digits x) "") as [E | E];
    [reflexivity |].
  rewrite (isdigit_of_decimal _ E Hd). cbn [negb].
  destruct (String.length (normalize_digits x) =? 12)%nat; cbn [negb];
    [| reflexivity].
  destruct (VerhoeffFacts.reversed_ints_decimal _ Hd) as [ds [R _]].
  unfold ind_aadhaar.verhoeff_validate. rewrite R.
  match goal with |- context [Nat.eqb ?c 0] => destruct (Nat.eqb c 0) end;
    reflexivity.
Qed.

Lemma normalize_digits_again (x : pyvalue) :
  normalize_digits (PyStr (normalize_digits x)) = normalize_digits x.
Proof.
  rewrite normalize_digits_of_text. apply filter_str_id.
  apply normalize_digits_decimal.
Qed.

Lemma aadhaar_outcome_cleaned (x : pyvalue) :
  aadhaar_outcome (PyStr (normalize_digits x)) = aadhaar_outcome x.
Proof. unfold aadhaar_outcome. now rewrite normalize_digits_again. Qed.

Lemma mapM_map {A B} (f : A -> option B) (g : A -> B) (l : list A) :
  (forall x, f x = Some (g x)) -> ind_aadhaar.mapM f l = Some (map g l).
Proof.
  intros H. induction l as [|x l IH]; [reflexivity |].
  simpl. now rewrite H, IH.
Qed.

Lemma validate_series_rows (series : list pyvalue) :
  ind_aadhaar.validate_series series
  = match series with
    | [] => None
    | _ => Some (map aadhaar_df_row series)
    end.
Proof.
  unfold ind_aadhaar.validate_series.
  rewrite (mapM_map _ (fun d => aadhaar_outcome (PyStr d)))
    by (intro; apply validate_single_outcome).
  destruct series as [|v0 series]; [reflexivity |].
  cbn [map]. f_equal. f_equal.
  - unfold aadhaar_df_row. now rewrite aadhaar_outcome_cleaned.
  - rewrite !map_map. apply map_ext. intros v.
    unfold aadhaar_df_row. now rewrite aadhaar_outcome_cleaned.
Qed.

Lemma reason_of_digits_cases (d : string) :
  In (reason_of_digits d) [""; "MISSING"; "LENGTH_NEQ_12"; "CHECKSUM_FAIL"].
Proof.
  unfold reason_of_digits.
  destruct (d =? ""); [simpl; tauto |].
  destruct (negb _); [simpl; tauto |].
  destruct (verhoeff_ok d); simpl; tauto.
Qed.

(** X8.  On the empty series [validate_series] raises ([KeyError]: the
    frame of no row has no [aadhaar] column).  On any other series it raises
    nothing and answers one row for each value, in order; the row of a value
    is built from [validate_single] of that value alone (cleaning the column
    first changes no outcome), with the quality flags of its cleaned digits.
    Its category is [VALID] exactly when the outcome is valid and is
    otherwise the reason itself, never the catch-all [INVALID]. *)
Theorem X8_validate_series_rows (series : list pyvalue) :
  ind_aadhaar.validate_series series
  = match series with
    | [] => None
    | _ => Some (map aadhaar_df_row series)
    end /\
  Forall (fun v =>
            let r := aadhaar_df_row v in
            let o := ind_aadhaar.df_outcome r in
            ind_aadhaar.validate_single v = Some o /\
            ind_aadhaar.q_adjacent_repetition r
            = has_adjacent_repetition (normalize_digits v) 3 /\
            ind_aadhaar.q_sequential_digits r
            = has_sequential_digits (normalize_digits v) 3 /\
            ind_aadhaar.q_improbable r
            = improbable_pattern (normalize_digits v) /\
            ind_aadhaar.category r
            = (if ind_aadhaar.valid o then "VALID"
               else ind_aadhaar.reason o) /\
            ind_aadhaar.category r <> "INVALID")
         series.
Proof.
  split; [apply validate_series_rows |].
  apply Forall_forall. intros v _. cbv zeta.
  split; [apply validate_single_outcome |].
  repeat split.
  - cbn. pose proof (reason_of_digits_cases (normalize_digits v)) as H.
    cbn [In] in H.
    destruct H as [H | [H | [H | [H | []]]]]; rewrite <- H; reflexivity.
  - cbn. pose proof (reason_of_digits_cases (normalize_digits v)) as H.
    cbn [In] in H.
    destruct H as [H | [H | [H | [H | []]]]]; rewrite <- H; discriminate.
Qed.

(** ** Masks *)

Lemma spaces_length n : String.length (Py.spaces n) = n.
Proof. induction n as [|n IH]; simpl; [reflexivity | now rewrite IH]. Qed.

Lemma mask_aadhaar_cleaned (x : pyvalue) :
  ind_aadhaar.mask_aadhaar (PyStr (normalize_digits x))
  = ind_aadhaar.mask_aadhaar x.
Proof.
  unfold ind_aadhaar.mask_aadhaar. now rewrite normalize_digits_again.
Qed.

(** X9.  The mask of a value is the mask of its cleaned digits; it is empty
    when the value has no digit and 14 characters long otherwise; and two
    values whose digit texts end in the same four digits have the same mask,
    so that nothing but those four digits can be read off it. *)
Theorem X9_mask_aadhaar_shows_only_the_end (x y : pyvalue) :
  ind_aadhaar.mask_aadhaar (PyStr (normalize_digits x))
  = ind_aadhaar.mask_aadhaar x /\
  String.length (ind_aadhaar.mask_aadhaar x)
  = (if normalize_digits x =? "" then 0 else 14) /\
  (forall p q t,
     normalize_digits x = p ++ t -> normalize_digits y = q ++ t ->
     String.length t = 4 ->
     ind_aadhaar.mask_aadhaar x = ind_aadhaar.mask_aadhaar y).
Proof.
  split; [apply mask_aadhaar_cleaned |]. split.
  - unfold ind_aadhaar.mask_aadhaar.
    destruct (normalize_digits x) as [|c d] eqn:E; [reflexivity |].
    cbn [Py.is_empty]. rewrite <- E.
    assert (Ne : (normalize_digits x =? "") = false)
      by (rewrite E; reflexivity).
    rewrite Ne. rewrite length_append. unfold Py.fmt_right.
    rewrite length_append, spaces_length.
    change (String.length "XXXX-XXXX-") with 10.
    destruct (4 <=? String.length (normalize_digits x))%nat eqn:L.
    + apply Nat.leb_le in L.
      destruct (last_n_suffix 4 _ L) as [_ ->]. reflexivity.
    + apply Nat.leb_gt in L. lia.
  - intros p q t Ex Ey Lt.
    assert (M : forall d pre, d = pre ++ t ->
                (if Py.is_empty d then ""
                 else "XXXX-XXXX-"
                      ++ Py.fmt_right 4
                           (if (4 <=? String.length d)%nat
                            then Py.last_n 4 d else d))
                = "XXXX-XXXX-" ++ Py.fmt_right 4 t).
    { intros d pre Ed.
      assert (Hl : last_chars 4 d t).
      { split; [now exists pre |]. rewrite Ed, length_append. lia. }
      rewrite (last_chars_computed _ _ _ Hl).
      destruct d; [| reflexivity].
      destruct pre; destruct t; simpl in Ed, Lt; try discriminate. }
    unfold ind_aadhaar.mask_aadhaar.
    now rewrite (M _ p Ex), (M _ q Ey).
Qed.

Lemma X9_witness :
  ind_aadhaar.mask_aadhaar (PyStr "2341 2341 2346")
  = ind_aadhaar.mask_aadhaar (PyInt 999999992346).
Proof.
  apply (proj2 (proj2 (X9_mask_aadhaar_shows_only_the_end
                         (PyStr "2341 2341 2346") (PyInt 999999992346)))
           "23412341" "99999999" "2346"); reflexivity.
Defined.

Lemma suffix_of_suffix (p2 : string) : forall p1 t r,
  p1 ++ t = p2 ++ r -> String.length t <= String.length r ->
  exists q, r = q ++ t.
Proof.
  induction p2 as [|c p2 IH]; intros p1 t r E L.
  - exists p1. now rewrite E.
  - destruct p1 as [|c' p1].
    + cbn [append] in E. subst t. simpl in L. rewrite length_append in L. lia.
    + inversion E. eapply IH; eauto.
Qed.

(** X10.  On a plus sign followed by [n >= 8] digits (and possibly one line
    feed), [mask_e164] shows the first [min 3 (n - 7)] digits as the country
    code and the last [min 4 (n - 6 - min 3 (n - 7))] digits: four only from
    thirteen digits on, and the three last ones of a twelve-digit number such
    as 91 followed by ten digits. *)
Theorem X10_mask_e164_matched (ds nl cc tail : string) :
  Py.forallb_str Py.is_decimal ds = true ->
  8 <= String.length ds ->
  nl = "" \/ nl = String "010" "" ->
  first_chars (Nat.min 3 (String.length ds - 7)) ds cc ->
  last_chars
    (Nat.min 4 (String.length ds - 6 - Nat.min 3 (String.length ds - 7)))
    ds tail ->
  phone.mask_e164 ("+" ++ ds ++ nl) = "+" ++ cc ++ "-XXX-XXX-" ++ tail.
Proof.
  intros Hd Hn Hnl [[tl Ec] Lc] [[pre Et] Lt].
  assert (Hne : ds <> "") by (intros ->; simpl in Hn; lia).
  set (n := String.length ds) in *. set (k := Nat.min 3 (n - 7)) in *.
  unfold phone.mask_e164, phone.E164_RE_match. cbn [append Py.is_empty
    Py.startswith_char Ascii.eqb Bool.eqb orb negb andb].
  rewrite (chomp_lf_decimal ds nl) by trivial.
  rewrite Hd. fold n. apply Nat.leb_le in Hn as Hn'. rewrite Hn'.
  cbn [andb]. fold k.
  assert (Hcc : substring 0 k ds = cc).
  { rewrite Ec. apply substring_head. rewrite <- Ec. exact Lc. }
  rewrite Hcc.
  set (rest := substring (k + 6) (n - (k + 6)) ds).
  assert (Lr : String.length rest = n - (k + 6))
    by (apply substring_length; unfold k; fold n; lia).
  assert (Hl : last_chars 4 rest tail).
  { destruct (substring_tail ds (k + 6)) as [P [EP _]];
      [unfold k; fold n; lia |].
    fold n in EP. fold rest in EP. split.
    - apply (suffix_of_suffix P pre); [congruence |].
      rewrite Lt, Lr. fold n. unfold k. lia.
    - rewrite Lt, Lr. fold n. unfold k. lia. }
  now rewrite (last_chars_computed _ _ _ Hl).
Qed.

Lemma X10_witness :
  phone.mask_e164 "+919876543210" = "+919-XXX-XXX-210".
Proof.
  apply (X10_mask_e164_matched "919876543210" "" "919" "210");
    [reflexivity | simpl; lia | now left | |].
  - split; [now exists "876543210" | reflexivity].
  - split; [now exists "919876543" | reflexivity].
Defined.

(** ** The outcome of the phone validator *)

(** X11.  Whatever the parser answers, the outcome of
    [validate_single_phone] carries the normalised text; it is valid exactly
    when its reason is empty, and then its line type is mobile or
    fixed-line-or-mobile for the parsed number; when it is not valid its
    E.164 text, its region and the mask of its E.164 text are empty.  The
    reason is [MISSING] exactly when the normalised text is empty, and the
    category of the reason is never the catch-all [INVALID]. *)
Theorem X11_phone_outcome (lib : phone.PhoneNumbers) (raw : pyvalue)
  (default_region : string) :
  let o := phone.validate_single_phone raw default_region in
  phone.raw o = normalize_text raw /\
  (if phone.valid o
   then phone.reason o = "" /\
        exists num,
          phone.parse (normalize_text raw) (phone.str_or default_region "IN")
          = Some num /\
          phone.is_possible_number num = true /\
          phone.is_valid_number num = true /\
          (phone.number_type num = phone.MOBILE
           \/ phone.number_type num = phone.FIXED_LINE_OR_MOBILE) /\
          phone.e164 o = phone.format_number_E164 num
   else In (phone.reason o)
           ["MISSING"; "PARSE_FAIL"; "NOT_VALID"; "NOT_MOBILE_TYPE"] /\
        phone.e164 o = "" /\ phone.region o = "" /\
        phone.mask_e164 (phone.e164 o) = "") /\
  (phone.reason o = "MISSING" <-> normalize_text raw = "") /\
  category_mobile (phone.reason o)
  = (if phone.valid o then "VALID" else phone.reason o).
Proof.
  cbv zeta. unfold phone.validate_single_phone.
  destruct (String.eqb_spec (normalize_text raw) "") as [E | E].
  - cbn. repeat split; simpl; tauto.
  - destruct (phone.parse _ _) as [num |] eqn:P.
    2: { cbn. repeat split; simpl; try tauto; discriminate. }
    destruct (phone.is_possible_number num) eqn:P1; cbn [negb].
    2: { cbn. repeat split; simpl; try tauto; discriminate. }
    destruct (phone.is_valid_number num) eqn:P2; cbn [negb].
    2: { cbn. repeat split; simpl; try tauto; discriminate. }
    destruct (phone.number_type num) eqn:T; cbn;
      repeat split; simpl; try tauto; try discriminate;
      exists num; rewrite T; repeat split; tauto.
Qed.

(** ** The run as a whole *)

Lemma from_In subset (l : list app.Row) : forall seen r,
  In r (app.drop_duplicates_from subset seen l) -> In r l.
Proof.
  induction l as [|x l IH]; intros seen r; [trivial |].
  rewrite from_cons. destruct (in_dec app.key_dec (subset x) seen).
  - intros H. right. eapply IH; eauto.
  - intros [H | H]; [now left | right; eapply IH; eauto].
Qed.

Lemma dedup_In mode (l : list app.Row) r :
  In r (fst (app.dedup mode l)) -> In r l.
Proof.
  destruct mode; cbn [app.dedup fst]; trivial; apply from_In.
Qed.

Lemma from_fixed subset (l : list app.Row) : forall seen,
  NoDup (map subset l) ->
  (forall r, In r l -> ~ In (subset r) seen) ->
  app.drop_duplicates_from subset seen l = l.
Proof.
  induction l as [|x l IH]; intros seen N D; [reflexivity |].
  rewrite from_cons. inversion N as [|? ? Hx N']; subst.
  destruct (in_dec app.key_dec (subset x) seen) as [Y | _].
  - exfalso. apply (D x); [now left | exact Y].
  - f_equal. apply IH; [exact N' |].
    intros r Hr [E | Hs].
    + apply Hx. rewrite E. now apply in_map.
    + apply (D r); [now right | exact Hs].
Qed.

Lemma combine_map {A B C} (f : A -> B) (g : A -> C) (l : list A) :
  combine (map f l) (map g l) = map (fun x => (f x, g x)) l.
Proof. induction l as [|x l IH]; simpl; [| rewrite IH]; reflexivity. Qed.

Lemma combine_id_map {A B} (g : A -> B) (l : list A) :
  combine l (map g l) = map (fun x => (x, g x)) l.
Proof. induction l as [|x l IH]; simpl; [| rewrite IH]; reflexivity. Qed.

Section Run.
Context {lib : phone.PhoneNumbers}.

Lemma phone_validate_series_rows (rows : list app.WorkRow) region :
  phone.validate_series (map app.mobile_raw rows) (map app.country rows)
    region
  = match rows with
    | [] => None
    | _ => Some (map (phone_df_row region) rows)
    end.
Proof.
  unfold phone.validate_series. rewrite combine_map, map_map.
  destruct rows as [|w rows]; [reflexivity |].
  cbn [map]. rewrite map_map. reflexivity.
Qed.

(** Before deduplication the frame holds, for each kept row and in order,
    the row built from it alone. *)
Lemma filled_rows (rows : list app.WorkRow) region :
  map (fun '(w, a, p) => app.fill w a p)
    (combine (combine rows (map aadhaar_df_row (map app.aadhaar_raw rows)))
       (map (phone_df_row region) rows))
  = map (row_of region) rows.
Proof.
  unfold phone_df_row. rewrite map_map, combine_id_map, combine_map.
  rewrite map_map. apply map_ext. intros w.
  unfold app.fill, row_of. cbn [fst snd ind_aadhaar.df_outcome
    ind_aadhaar.category aadhaar_df_row].
  f_equal. unfold aadhaar_outcome. cbn [ind_aadhaar.aadhaar].
  apply mask_aadhaar_cleaned.
Qed.

Lemma run_stop region mode (df : list app.WorkRow) :
  filter app.keep_mask df = [] -> app.run region mode df = app.Stop.
Proof. intros E. unfold app.run. now rewrite E. Qed.

Lemma run_done region mode (df : list app.WorkRow) :
  filter app.keep_mask df <> [] ->
  exists s,
    app.run region mode df = app.Done s /\
    app.work s
    = fst (app.dedup mode (map (row_of region) (filter app.keep_mask df))) /\
    app.dedup_applied s
    = snd (app.dedup mode (map (row_of region) (filter app.keep_mask df))) /\
    app.dropped_all_empty s
    = List.length df - List.length (filter app.keep_mask df) /\
    app.total_rows s = List.length df /\
    app.processed s = List.length (app.work s) /\
    app.distinct_after s = List.length (app.work s) /\
    app.aadhaar_valid_count s = app.count app.aadhaar_valid (app.work s) /\
    app.aadhaar_invalid_count s
    = app.count (fun r => negb (app.aadhaar_valid r)
                          && negb (app.aadhaar_clean r =? "")) (app.work s) /\
    app.mobile_valid_count s = app.count app.mobile_valid (app.work s) /\
    app.mobile_invalid_count s
    = app.count (fun r => negb (app.mobile_valid r)
                          && negb (app.mobile_e164 r =? "")) (app.work s) /\
    app.overall_valid_count s = app.count app.overall_valid (app.work s).
Proof.
  intros Hne. unfold app.run.
  destruct (filter app.keep_mask df) as [|w0 ws] eqn:Ef; [congruence |].
  rewrite validate_series_rows, phone_validate_series_rows.
  change (map app.aadhaar_raw (w0 :: ws))
    with (app.aadhaar_raw w0 :: map app.aadhaar_raw ws) at 1.
  cbv iota. rewrite filled_rows.
  destruct (app.dedup mode (map (row_of region) (w0 :: ws)))
    as [work2 applied].
  eexists. split; [reflexivity |]. cbn. repeat split.
Qed.

Lemma row_of_mobile region w :
  app.mobile_valid (row_of region w) = false ->
  app.mobile_e164 (row_of region w) = "".
Proof.
  unfold row_of. cbn [app.mobile_valid app.mobile_e164].
  unfold phone.validate_single_phone.
  destruct (normalize_text (app.mobile_raw w) =? ""); [reflexivity |].
  destruct (phone.parse _ _) as [num |]; [| reflexivity].
  destruct (phone.is_possible_number num); [| reflexivity].
  destruct (phone.is_valid_number num); [| reflexivity].
  destruct (phone.number_type num); cbn; trivial; discriminate.
Qed.

Lemma row_of_aadhaar region w :
  app.aadhaar_valid (row_of region w) = true ->
  app.aadhaar_clean (row_of region w) <> "".
Proof.
  unfold row_of, aadhaar_outcome.
  cbn [app.aadhaar_valid app.aadhaar_clean ind_aadhaar.valid
       ind_aadhaar.aadhaar].
  intros H E. rewrite E in H. discriminate H.
Qed.

Lemma run_rows region mode (df : list app.WorkRow) s :
  app.run region mode df = app.Done s ->
  forall r, In r (app.work s) ->
    exists w, In w df /\ app.keep_mask w = true /\ r = row_of region w.
Proof.
  intros H r Hr.
  destruct (filter app.keep_mask df) as [|w0 ws] eqn:Ef.
  - rewrite (run_stop _ _ _ Ef) in H. discriminate.
  - destruct (run_done region mode df) as [s' [E [W _]]]; [congruence |].
    rewrite E in H. inversion H; subst s'. rewrite W in Hr.
    apply dedup_In, in_map_iff in Hr as [w [<- Hw]].
    apply filter_In in Hw as [Hw Hk].
    now exists w.
Qed.

End Run.

Lemma filter_complement {A} (f g : A -> bool) (l : list A) :
  (forall x, g x = negb (f x)) ->
  List.length (filter f l) + List.length (filter g l) = List.length l.
Proof.
  intros H. induction l as [|x l IH]; [reflexivity |].
  cbn [filter]. rewrite H. destruct (f x); cbn [negb List.length]; lia.
Qed.

Lemma count_zero {A} (f : A -> bool) (l : list A) :
  (forall x, In x l -> f x = false) -> app.count f l = 0.
Proof.
  unfold app.count. induction l as [|x l IH]; intros H; [reflexivity |].
  simpl. rewrite (H x) by now left. apply IH. intros y Hy. apply H. now right.
Qed.

Lemma count_three {A} (f g h : A -> bool) (l : list A) :
  (forall x, In x l ->
     (f x, g x, h x) = (true, false, false)
     \/ (f x, g x, h x) = (false, true, false)
     \/ (f x, g x, h x) = (false, false, true)) ->
  List.length l = app.count f l + app.count g l + app.count h l.
Proof.
  unfold app.count. induction l as [|x l IH]; intros H; [reflexivity |].
  simpl. specialize (IH (fun y Hy => H y (or_intror Hy))).
  pose proof (H x (or_introl eq_refl)) as Hx.
  destruct (f x), (g x), (h x); simpl;
    destruct Hx as [E | [E | E]]; try discriminate E; lia.
Qed.

Lemma count_le_sum {A} (f g h : A -> bool) (l : list A) :
  (forall x, In x l -> f x = true -> g x = true \/ h x = true) ->
  app.count f l <= app.count g l + app.count h l.
Proof.
  unfold app.count. induction l as [|x l IH]; intros H; [simpl; lia |].
  simpl. specialize (IH (fun y Hy => H y (or_intror Hy))).
  pose proof (H x (or_introl eq_refl)) as Hx.
  destruct (f x), (g x), (h x); simpl; try lia;
    destruct (Hx eq_refl); discriminate.
Qed.

(** X12.  A run never fails on a value.  It stops without a result exactly
    when every row is empty in both fields; otherwise its frame is the
    deduplication of the kept rows, in order, each validated from its own
    values alone: the outcome of a row does not depend on the other rows. *)
Theorem X12_run_rows_are_independent (lib : phone.PhoneNumbers)
  (region : string) (mode : app.DedupMode) (df : list app.WorkRow) :
  app.run region mode df <> app.Raise /\
  (app.run region mode df = app.Stop <-> filter app.keep_mask df = []) /\
  option_map app.work (summary_of (app.run region mode df))
  = match filter app.keep_mask df with
    | [] => None
    | rows => Some (fst (app.dedup mode (map (row_of region) rows)))
    end.
Proof.
  destruct (filter app.keep_mask df) as [|w0 ws] eqn:Ef.
  - rewrite (run_stop _ _ _ Ef). repeat split; discriminate.
  - destruct (run_done region mode df) as [s [E [W _]]]; [congruence |].
    rewrite E, Ef in *. cbn. rewrite W. repeat split; discriminate.
Qed.

(** X13.  The counters of a finished run reconcile: the rows of the upload
    are the rows of the frame, the rows dropped as empty in both fields and
    the duplicates dropped; the processed and the distinct counts are both
    the number of rows of the frame, and the empty-row count is the number of
    rows whose two texts are normalised to nothing. *)
Theorem X13_run_counters_reconcile (lib : phone.PhoneNumbers)
  (region : string) (mode : app.DedupMode) (df : list app.WorkRow)
  (s : app.Summary) :
  app.run region mode df = app.Done s ->
  app.total_rows s = List.length df /\
  app.total_rows s
  = app.processed s + app.dropped_all_empty s + app.dedup_applied s /\
  app.processed s = List.length (app.work s) /\
  app.distinct_after s = app.processed s /\
  app.dropped_all_empty s
  = app.count (fun w => (normalize_text (app.aadhaar_raw w) =? "")
                        && (normalize_text (app.mobile_raw w) =? "")) df.
Proof.
  intros H.
  destruct (filter app.keep_mask df) as [|w0 ws] eqn:Ef.
  - rewrite (run_stop _ _ _ Ef) in H. discriminate.
  - destruct (run_done region mode df)
      as [s' [E [W [A [D [T [P [Q _]]]]]]]]; [congruence |].
    rewrite E in H. inversion H; subst s'.
    pose proof (dedup_counts mode
                  (map (row_of region) (filter app.keep_mask df))) as Hd.
    rewrite <- W, <- A, length_map in Hd.
    pose proof (filter_length_le app.keep_mask df) as Hf.
    assert (Hc : List.length df - List.length (filter app.keep_mask df)
                 = app.count
                     (fun w => (normalize_text (app.aadhaar_raw w) =? "")
                               && (normalize_text (app.mobile_raw w) =? ""))
                     df).
    { unfold app.count.
      pose proof (filter_complement app.keep_mask
                    (fun w => (normalize_text (app.aadhaar_raw w) =? "")
                              && (normalize_text (app.mobile_raw w) =? ""))
                    df) as Hp.
      rewrite <- Hp; [lia |].
      intros w. unfold app.keep_mask. now rewrite negb_orb, !negb_involutive. }
    rewrite T, P, Q, D, <- Hc. repeat split; lia.
Qed.

Lemma X13_witness :
  exists s,
    @app.run sample_numbers "IN" app.DedupAadhaar sample_batch = app.Done s /\
    app.total_rows s
    = app.processed s + app.dropped_all_empty s + app.dedup_applied s.
Proof.
  eexists. split; [reflexivity |].
  apply (X13_run_counters_reconcile sample_numbers "IN" app.DedupAadhaar
           sample_batch).
  reflexivity.
Defined.

(** X14.  In a finished run the count of invalid mobiles is always zero,
    because a mobile that is not valid has an empty E.164 text; the rows of
    the frame are the rows with a valid Aadhaar, those with an invalid
    Aadhaar that has digits and those without Aadhaar digits; and a row that
    is valid overall has a valid Aadhaar or a valid mobile. *)
Theorem X14_run_counts (lib : phone.PhoneNumbers)
  (region : string) (mode : app.DedupMode) (df : list app.WorkRow)
  (s : app.Summary) :
  app.run region mode df = app.Done s ->
  app.mobile_invalid_count s = 0 /\
  app.processed s
  = app.aadhaar_valid_count s + app.aadhaar_invalid_count s
    + app.count (fun r => app.aadhaar_clean r =? "") (app.work s) /\
  app.overall_valid_count s
  <= app.aadhaar_valid_count s + app.mobile_valid_count s.
Proof.
  intros H. pose proof (run_rows region mode df s H) as Rows.
  destruct (filter app.keep_mask df) as [|w0 ws] eqn:Ef.
  - rewrite (run_stop _ _ _ Ef) in H. discriminate.
  - destruct (run_done region mode df)
      as [s' [E [_ [_ [_ [_ [P [_ [AV [AI [MV [MI OV]]]]]]]]]]]];
      [congruence |].
    rewrite E in H. inversion H; subst s'.
    rewrite P, AV, AI, MV, MI, OV. repeat split.
    + apply count_zero. intros r Hr.
      destruct (Rows r Hr) as [w [_ [_ ->]]].
      destruct (app.mobile_valid (row_of region w)) eqn:V; [reflexivity |].
      now rewrite (row_of_mobile region w V).
    + apply count_three. intros r Hr.
      destruct (Rows r Hr) as [w [_ [_ ->]]].
      pose proof (row_of_aadhaar region w) as F.
      destruct (app.aadhaar_valid (row_of region w)).
      * left. destruct (String.eqb_spec
                          (app.aadhaar_clean (row_of region w)) "");
          [now destruct F | reflexivity].
      * right. now destruct (app.aadhaar_clean (row_of region w) =? "");
          [right | left].
    + apply count_le_sum. intros r _. unfold app.overall_valid.
      destruct (app.aadhaar_valid r), (app.mobile_valid r); auto.
      rewrite !andb_false_r. discriminate.
Qed.

Lemma X14_witness :
  exists s,
    @app.run sample_numbers "IN" app.DedupNone sample_batch = app.Done s /\
    app.mobile_invalid_count s = 0.
Proof.
  eexists. split; [reflexivity |].
  apply (X14_run_counts sample_numbers "IN" app.DedupNone sample_batch).
  reflexivity.
Defined.

(** X15.  In a finished run a mobile that is not valid counts as absent,
    so a row is valid overall exactly when its Aadhaar is valid, or it has no
    Aadhaar digit and its E.164 text is not empty: a mobile that fails to
    parse never makes a row with a valid Aadhaar invalid. *)
Theorem X15_overall_valid_in_a_run (lib : phone.PhoneNumbers)
  (region : string) (mode : app.DedupMode) (df : list app.WorkRow)
  (s : app.Summary) :
  app.run region mode df = app.Done s ->
  Forall (fun r =>
            app.overall_valid r
            = app.aadhaar_valid r
              || ((app.aadhaar_clean r =? "")
                  && negb (app.mobile_e164 r =? "")))
         (app.work s).
Proof.
  intros H. apply Forall_forall. intros r Hr.
  destruct (run_rows region mode df s H r Hr) as [w [_ [_ ->]]].
  pose proof (row_of_aadhaar region w) as FA.
  pose proof (row_of_mobile region w) as FM.
  unfold app.overall_valid, app.aadhaar_present, app.mobile_present.
  destruct (app.aadhaar_valid (row_of region w));
    destruct (app.mobile_valid (row_of region w));
    destruct (String.eqb_spec (app.aadhaar_clean (row_of region w)) "")
      as [Ea | Ea];
    destruct (String.eqb_spec (app.mobile_e164 (row_of region w)) "")
      as [Em | Em];
    try reflexivity;
    try (exfalso; now apply FA);
    try (exfalso; apply Em; now apply FM).
Qed.

Lemma X15_witness :
  exists s,
    @app.run sample_numbers "IN" app.DedupNone sample_batch = app.Done s /\
    Forall (fun r =>
              app.overall_valid r
              = app.aadhaar_valid r
                || ((app.aadhaar_clean r =? "")
                    && negb (app.mobile_e164 r =? "")))
           (app.work s).
Proof.
  eexists. split; [reflexivity |].
  apply (X15_overall_valid_in_a_run sample_numbers "IN" app.DedupNone
           sample_batch).
  reflexivity.
Defined.

(** X16.  Deduplicating a second time drops nothing; every kept row is a
    row of the batch; the first row of a batch is always kept; and mode None
    leaves the batch as it is. *)
Theorem X16_dedup_is_idempotent (mode : app.DedupMode) (l : list app.Row) :
  app.dedup mode (fst (app.dedup mode l)) = (fst (app.dedup mode l), 0) /\
  (forall r, In r (fst (app.dedup mode l)) -> In r l) /\
  List.length (fst (app.dedup mode l)) <= List.length l /\
  firstn 1 (fst (app.dedup mode l)) = firstn 1 l /\
  app.dedup app.DedupNone l = (l, 0).
Proof.
  repeat split.
  - destruct mode; [reflexivity | | |];
      cbn [app.dedup fst]; unfold app.drop_duplicates;
      match goal with
      | |- context [app.drop_duplicates_from ?k [] l] =>
          rewrite (from_fixed k (app.drop_duplicates_from k [] l) []);
            [now rewrite Nat.sub_diag | apply from_NoDup | auto]
      end.
  - apply dedup_In.
  - pose proof (dedup_counts mode l). lia.
  - destruct mode; cbn [app.dedup fst]; trivial;
      unfold app.drop_duplicates; destruct l as [|r l]; reflexivity.
Qed.

(** ** Saved runs *)







Lemma mem_str_In x (l : list string) : mem_str x l = true <-> In x l.
Proof.
  unfold mem_str. rewrite existsb_exists. split.
  - intros [y [Hy E]]. apply String.eqb_eq in E. now subst.
  - intros H. exists x. split; [exact H | apply String.eqb_refl].
Qed.

Lemma append_if_missing_In columns (names : list string) : forall keep c,
  In c (fold_left (local_store.append_if_missing columns) names keep) <->
  In c keep \/ (In c names /\ In c columns).
Proof.
  induction names as [|n names IH]; intros keep c; cbn [fold_left].
  - simpl. tauto.
  - rewrite IH. unfold local_store.append_if_missing.
    destruct (mem_str n keep) eqn:K; cbn [negb andb].
    + apply mem_str_In in K. cbn [In]. intuition (subst; auto).
    + destruct (mem_str n columns) eqn:C.
      * apply mem_str_In in C. rewrite in_app_iff. cbn [In].
        intuition (subst; auto).
      * assert (~ In n columns)
          by (intros H; apply mem_str_In in H; congruence).
        cbn [In]. intuition (subst; tauto).
Qed.

Lemma append_if_missing_NoDup columns (names : list string) : forall keep,
  NoDup keep ->
  NoDup (fold_left (local_store.append_if_missing columns) names keep).
Proof.
  induction names as [|n names IH]; intros keep N; [exact N |].
  cbn [fold_left]. apply IH. unfold local_store.append_if_missing.
  destruct (mem_str n keep) eqn:K; cbn [negb andb]; [exact N |].
  destruct (mem_str n columns); [| exact N].
  apply NoDup_app; [exact N | repeat constructor; simpl; tauto |].
  intros x Hx [<- | []]. apply mem_str_In in Hx. congruence.
Qed.

Lemma prefix_iff (a s : string) :
  String.prefix a s = true <-> exists post, s = a ++ post.
Proof.
  revert s. induction a as [|c a IH]; intros s.
  - split; [intros _; now exists s | intros _; now destruct s].
  - destruct s as [|c' s]; cbn [String.prefix].
    + split; [discriminate | intros [post E]; discriminate E].
    + destruct (ascii_dec c c') as [-> | Hn].
      * rewrite IH. split; intros [post E]; exists post.
        -- cbn. now rewrite <- E.
        -- cbn in E. now inversion E.
      * split; [discriminate |]. intros [post E]. cbn in E.
        inversion E. congruence.
Qed.

Lemma contains_iff (sub s : string) :
  Py.contains sub s = true <-> occurs_in sub s.
Proof.
  split.
  - induction s as [|c s IH]; cbn [Py.contains]; rewrite orb_true_iff.
    + intros [H | H]; [| discriminate].
      apply prefix_iff in H as [post E]. now exists "", post.
    + intros [H | H].
      * apply prefix_iff in H as [post E]. now exists "", post.
      * destruct (IH H) as [pre [post E]].
        exists (String c pre), post. cbn. now rewrite <- E.
  - intros [pre [post E]]. subst s.
    induction pre as [|c pre IH].
    + assert (P : String.prefix sub (sub ++ post) = true)
        by (apply prefix_iff; now exists post).
      cbn [append]. destruct (sub ++ post); cbn [Py.contains];
        now rewrite P.
    + cbn [append Py.contains]. rewrite IH. apply orb_true_r.
Qed.

Lemma masked_or_status_iff (c : string) :
  local_store.masked_or_status c = true <->
  occurs_in "masked" c \/ occurs_in "reason" c \/ occurs_in "category" c
  \/ In c ["country"; "region"; "overall_valid"; "aadhaar_valid";
           "mobile_valid"].
Proof.
  unfold local_store.masked_or_status.
  rewrite !orb_true_iff, !contains_iff, mem_str_In. tauto.
Qed.

(** What the comprehension and the three loops of [_masked_only] keep. *)
Lemma masked_only_In (columns : list string) (u : string) :
  In u (local_store._masked_only columns) <->
  In u columns /\
  (local_store.masked_or_status u = true \/ u = "source_row_index").
Proof.
  unfold local_store._masked_only.
  rewrite !append_if_missing_In, filter_In. cbn [In]. split.
  - intros [[[H | H] | H] | H]; [tauto | | | ];
      destruct H as [H Hc]; split; trivial;
      repeat (destruct H as [H | H]; [subst u; auto |]); destruct H.
  - intros [Hc [H | H]]; [tauto |]. subst u. left. right. tauto.
Qed.

(** X18.  [_masked_only] keeps exactly the columns of the frame in whose
    label [masked], [reason] or [category] occurs, or whose label is one of
    [country], [region], [overall_valid], [aadhaar_valid], [mobile_valid],
    [source_row_index]; it repeats no column of a frame without repeated
    columns.  So the raw and the unmasked columns [aadhaar_raw],
    [mobile_raw], [aadhaar_clean] and [mobile_e164] are never saved, and
    neither are [mobile_region] and [mobile_type]. *)
Theorem X18_masked_only_columns (columns : list string) (c : string) :
  (In c (local_store._masked_only columns) <->
   In c columns /\ savable c) /\
  (NoDup columns -> NoDup (local_store._masked_only columns)) /\
  Forall (fun u => ~ In u (local_store._masked_only columns))
    ["aadhaar_raw"; "mobile_raw"; "aadhaar_clean"; "mobile_e164";
     "mobile_region"; "mobile_type"].
Proof.
  split; [| split].
  - rewrite masked_only_In, masked_or_status_iff. unfold savable.
    cbn [In]. intuition auto.
  - intros N. unfold local_store._masked_only.
    repeat apply append_if_missing_NoDup. now apply NoDup_filter.
  - assert (D : forall u,
               local_store.masked_or_status u = false ->
               u <> "source_row_index" ->
               ~ In u (local_store._masked_only columns)).
    { intros u Hu Hn H. destruct (proj1 (masked_only_In columns u) H)
        as [_ [H' | H']]; congruence. }
    repeat (apply Forall_cons;
            [apply D; [vm_compute; reflexivity | discriminate] |]).
    apply Forall_nil.
Qed.

Lemma X18_witness :
  NoDup (local_store._masked_only
           ["aadhaar_raw"; "mobile_raw"; "country"; "aadhaar_clean";
            "aadhaar_valid"; "aadhaar_reason"; "aadhaar_category";
            "aadhaar_masked"; "mobile_e164"; "mobile_valid"; "mobile_reason";
            "mobile_region"; "mobile_type"; "mobile_masked";
            "overall_valid"]).
Proof.
  apply (proj1 (proj2 (X18_masked_only_columns _ ""))).
  repeat constructor; simpl; intuition discriminate.
Defined.

(** ** The inner run search and the pattern of E.164 *)

(** X19.  On the text it is given, [_has_sequential_run_digits] with
    [min_run] two or more is true iff [min_run] or more consecutive
    characters are digits that go up by one, or down by one, at each step:
    here a character that is not a digit does end a run. *)
Theorem X19_inner_run_search (seq : string) (min_run : Z) :
  (2 <= min_run)%Z ->
  (_has_sequential_run_digits seq min_run = true <->
   has_run (Z.to_nat min_run) seq).
Proof.
  intros H. rewrite has_sequential_run_digits_window by exact H.
  apply window_run_iff.
Qed.

Lemma X19_witness :
  _has_sequential_run_digits "7x654" 3 = true <-> has_run 3 "7x654".
Proof. apply (X19_inner_run_search "7x654" 3). lia. Defined.

(** X20.  [E164_RE] matches exactly a plus sign followed by eight or more
    digits and possibly one final line feed.  Its four groups are then
    consecutive pieces of the digits: the first of one to three digits, as
    many as leave seven for the others, then three, three, and the rest. *)
Theorem X20_E164_RE_shape (e164 : string) :
  (phone.E164_RE_match e164 <> None <->
   exists ds nl,
     e164 = "+" ++ ds ++ nl /\ (nl = "" \/ nl = String "010" "") /\
     Py.forallb_str Py.is_decimal ds = true /\ 8 <= String.length ds) /\
  (forall cc a b rest,
     phone.E164_RE_match e164 = Some (cc, a, b, rest) ->
     exists nl,
       e164 = "+" ++ (cc ++ a ++ b ++ rest) ++ nl /\
       String.length cc
       = Nat.min 3 (String.length (cc ++ a ++ b ++ rest) - 7) /\
       String.length a = 3 /\ String.length b = 3 /\
       1 <= String.length rest).
Proof.
  split.
  - split.
    + destruct (phone.E164_RE_match e164) as [[[[cc a] b] rest] |] eqn:E;
        [| congruence].
      intros _.
      destruct (E164_RE_match_sound _ _ _ _ _ E)
        as [nl [Hnl [He [Hd [Lc [Lc' [La [Lb Lr]]]]]]]].
      exists (cc ++ a ++ b ++ rest), nl. repeat split; trivial.
      rewrite !length_append. lia.
    + intros [ds [nl [-> [Hnl [Hd Hn]]]]].
      now apply E164_RE_match_complete.
  - intros cc a b rest E.
    destruct (E164_RE_match_sound _ _ _ _ _ E)
      as [nl [Hnl [He [Hd [Lc [Lc' [La [Lb Lr]]]]]]]].
    exists nl. repeat split; trivial.
Qed.

Lemma X20_witness :
  exists nl,
    "+919876543210" = "+" ++ ("919" ++ "876" ++ "543" ++ "210") ++ nl /\
    String.length "919"
    = Nat.min 3 (String.length ("919" ++ "876" ++ "543" ++ "210") - 7) /\
    String.length "876" = 3 /\ String.length "543" = 3 /\
    1 <= String.length "210".
Proof.
  apply (proj2 (X20_E164_RE_shape "+919876543210") "919" "876" "543" "210").
  reflexivity.
Defined.
